(** * fracnum.plotting_utils: a shallow embedding and its properties

    The module [fracnum/plotting_utils.py] draws phase portraits and signal
    traces of a (fractionally damped, optionally forced) Van der Pol
    oscillator.  It contains

    - [colored_line]: the polyline-to-segments construction,
    - [truncate_colormap]: the restriction of a colour gradient,
    - [VdP_Plotter]: captions and the two plot routines.

    Samples are NumPy float64 values: they are embedded as Rocq's primitive
    binary64 floats, so that every arithmetic step rounds as it does in the
    program.  Python dictionaries are [gmap string _], exceptions are a sum
    type, and the calls made to matplotlib are recorded in a log that the
    operations thread through a small state-and-exception monad.  What
    matplotlib and the file system decide on their own (the colours of the
    registered gradients, the names it knows, the options a collection
    takes, the paths that can be written) is a parameter of the
    development: the classes [Palette] and [Backend]. *)

From Stdlib Require Import Floats ZArith List Lia QArith Qround Ascii.
From stdpp Require Import gmap strings list pretty.

Set Warnings "-inexact-float".
#[local] Open Scope Z_scope.

(** ** Python values, exceptions and number formatting *)

Module Py.

(** The exceptions that the embedded code can raise. *)
Inductive exn : Type :=
| IndexError
| ValueError
| OverflowError
| TypeError
| KeyError (key : string)
| FileNotFoundError
| PermissionError.

Inductive result (A : Type) : Type :=
| Ok (a : A)
| Raise (e : exn).
Arguments Ok {A} a.
Arguments Raise {A} e.

Definition is_ok {A} (r : result A) : bool :=
  match r with Ok _ => true | Raise _ => false end.

(** Sequencing: an exception ends the computation. *)
Definition and_then {A B} (r : result A) (k : A -> result B) : result B :=
  match r with
  | Ok a => k a
  | Raise e => Raise e
  end.

(** A Python number: an [int] (unbounded) or a [float] (binary64). *)
Inductive num : Type :=
| PInt (z : Z)
| PFloat (f : float).

(** [d[key]] on a dictionary. *)
Definition getitem {V} (d : gmap string V) (key : string) : result V :=
  match d !! key with
  | Some v => Ok v
  | None => Raise (KeyError key)
  end.

(** The exact rational value of the finite float with mantissa [m] and
    exponent [e]. *)
Definition SFval (m : positive) (e : Z) : Q :=
  Qmult (inject_Z (Z.pos m)) (Qpower (inject_Z 2) e).

Definition Qpow10 (k : Z) : Q := Qpower (inject_Z 10) k.

Definition Qlt_bool (a b : Q) : bool := negb (Qle_bool b a).

(** Rounding half-way cases to even of the non-negative rational [q]. *)
Definition Qround_half_even (q : Q) : Z :=
  let n := Qfloor q in
  let r := Qminus q (inject_Z n) in
  let half := Qmake 1 2 in
  if Qlt_bool r half then n
  else if Qlt_bool half r then n + 1
  else if Z.even n then n else n + 1.

(** [x == k] and [x != k] for a number [x] and an [int] [k]: Python compares
    the mathematical values. *)
Definition float_eq_Z (f : float) (k : Z) : bool :=
  match Prim2SF f with
  | S754_zero _ => k =? 0
  | S754_finite s m e =>
      Qeq_bool (SFval m e) (inject_Z (if s then - k else k))
  | _ => false
  end.

Definition eq_int (x : num) (k : Z) : bool :=
  match x with
  | PInt z => z =? k
  | PFloat f => float_eq_Z f k
  end.

Definition ne_int (x : num) (k : Z) : bool := negb (eq_int x k).

(** *** [str] *)

Fixpoint zeros (n : nat) : string :=
  match n with
  | O => EmptyString
  | S n' => String "0"%char (zeros n')
  end.

Definition repeat0 (n : Z) : string := zeros (Z.to_nat n).

(** The decimal exponent [z] of a positive rational: [10^z <= v < 10^(z+1)]. *)
Definition dec_exp (v : Q) : Z :=
  let g := (Z.log2 (Qnum v) - Z.log2 (Z.pos (Qden v))) * 30103 / 100000 in
  if Qle_bool (Qpow10 (g + 1)) v then g + 1
  else if Qle_bool (Qpow10 g) v then g
  else g - 1.

(** The interval of rationals that round to the float [m * 2^e], and
    whether its end points belong to it (they do when [m] is even). *)
Definition round_interval (m : positive) (e : Z) : Q * Q * bool :=
  let hi := SFval (2 * m + 1) (e - 1) in
  let lo := if (Z.pos m =? 2 ^ 52) && (-1074 <? e)
            then SFval (4 * m - 1) (e - 2)
            else SFval (2 * m - 1) (e - 1) in
  (lo, hi, Z.even (Z.pos m)).

Definition in_interval (iv : Q * Q * bool) (x : Q) : bool :=
  let '(lo, hi, closed) := iv in
  if closed then Qle_bool lo x && Qle_bool x hi
  else Qlt_bool lo x && Qlt_bool x hi.

(** The shortest decimal [d * 10^q] that reads back as the float of value
    [v]: the first number of digits [k] for which a [k]-digit decimal lies
    in the rounding interval, and of those the one closest to [v]. *)
Fixpoint shortest_digits (fuel : nat) (k : Z) (v : Q) (iv : Q * Q * bool)
    (dx : Z) : Z * Z :=
  let q := dx - k + 1 in
  let s := Qdiv v (Qpow10 q) in
  let d0 := Qfloor s in
  let d1 := Qceiling s in
  let ok d := in_interval iv (Qmult (inject_Z d) (Qpow10 q)) in
  let below := Qminus s (inject_Z d0) in
  let above := Qminus (inject_Z d1) s in
  match ok d0, ok d1 with
  | true, true =>
      if Qlt_bool below above then (d0, q)
      else if Qlt_bool above below then (d1, q)
      else if Z.even d0 then (d0, q) else (d1, q)
  | true, false => (d0, q)
  | false, true => (d1, q)
  | false, false =>
      match fuel with
      | O => (d0, q)
      | S fuel' => shortest_digits fuel' (k + 1) v iv dx
      end
  end.

Fixpoint strip_zeros (fuel : nat) (d q : Z) : Z * Z :=
  match fuel with
  | O => (d, q)
  | S fuel' =>
      if (d mod 10 =? 0) && negb (d =? 0) then strip_zeros fuel' (d / 10) (q + 1)
      else (d, q)
  end.

(** The two layouts of [repr]: [ds] are the significant digits and the value
    is [0.ds * 10^decpt]. *)
Definition fixed_layout (ds : string) (decpt : Z) : string :=
  let n := Z.of_nat (String.length ds) in
  if decpt <=? 0 then "0." +:+ repeat0 (- decpt) +:+ ds
  else if n <=? decpt then ds +:+ repeat0 (decpt - n) +:+ ".0"
  else String.substring 0 (Z.to_nat decpt) ds +:+ "." +:+
       String.substring (Z.to_nat decpt) (Z.to_nat (n - decpt)) ds.

Definition exp_layout (ds : string) (decpt : Z) : string :=
  let x := decpt - 1 in
  let mant := match ds with
              | String c EmptyString => ds
              | String c rest => String c ("." +:+ rest)
              | EmptyString => ds
              end in
  let xs := pretty (Z.abs x) in
  mant +:+ "e" +:+ (if x <? 0 then "-" else "+") +:+
  (if Z.abs x <? 10 then "0" else "") +:+ xs.

(** [repr(f)] of a Python float, which is also [str] of a [numpy.float64]:
    the shortest decimal that round-trips, in scientific layout when the
    decimal point falls outside [-4 < decpt <= 16]. *)
Definition float_repr (f : float) : string :=
  match Prim2SF f with
  | S754_nan => "nan"
  | S754_infinity s => if s then "-inf" else "inf"
  | S754_zero s => if s then "-0.0" else "0.0"
  | S754_finite s m e =>
      let v := SFval m e in
      let '(d, q) := shortest_digits 17 1 v (round_interval m e) (dec_exp v) in
      let '(d, q) := strip_zeros 20 d q in
      let ds := pretty d in
      let decpt := Z.of_nat (String.length ds) + q in
      (if s then "-" else "") +:+
      (if (decpt <=? -4) || (16 <? decpt) then exp_layout ds decpt
       else fixed_layout ds decpt)
  end.

Definition str (x : num) : string :=
  match x with
  | PInt z => pretty z
  | PFloat f => float_repr f
  end.

(** *** The format specification [.nf] *)

(** ['{:.nf}'.format(f)]: the exact value of [f], correctly rounded
    (half-way cases to even) to [n] decimals. *)
Definition format_fixed (n : nat) (f : float) : string :=
  match Prim2SF f with
  | S754_nan => "nan"
  | S754_infinity s => if s then "-inf" else "inf"
  | sf =>
      let '(s, v) := match sf with
                     | S754_finite s m e => (s, SFval m e)
                     | S754_zero s => (s, inject_Z 0)
                     | _ => (false, inject_Z 0)
                     end in
      let scaled := Qround_half_even (Qmult v (Qpow10 (Z.of_nat n))) in
      let ip := scaled / 10 ^ Z.of_nat n in
      let fp := pretty (scaled mod 10 ^ Z.of_nat n) in
      (if s then "-" else "") +:+ pretty ip +:+
      match n with
      | O => ""
      | _ => "." +:+ repeat0 (Z.of_nat n - Z.of_nat (String.length fp)) +:+ fp
      end
  end.

(** *** [numpy.round] and [int] *)

(** [numpy.rint]: the nearest integral float, half-way cases to even. *)
Definition rint (f : float) : float :=
  match Prim2SF f with
  | S754_finite s m e =>
      if 0 <=? e then f
      else
        let r := of_uint63 (Uint63.of_Z (Qround_half_even (SFval m e))) in
        if s then PrimFloat.opp r else r
  | _ => f
  end.

(** The value of [numpy.round(x, 2)] when it returns: integers are returned
    as they are, floats go through [rint(x * 100) / 100]. *)
Definition np_round2 (x : num) : num :=
  match x with
  | PInt z => PInt z
  | PFloat f => PFloat (rint (f * 100) / 100)%float
  end.

(** NumPy turns a Python [int] into a 64-bit integer, signed or unsigned;
    an [int] that fits neither becomes an array of objects, on which
    [numpy.round] raises [TypeError]. *)
Definition np_roundable (x : num) : bool :=
  match x with
  | PInt z => (- 2 ^ 63 <=? z) && (z <? 2 ^ 64)
  | PFloat _ => true
  end.

(** [numpy.round(x, 2)]. *)
Definition np_round (x : num) : result num :=
  if np_roundable x then Ok (np_round2 x) else Raise TypeError.

(** [int(x)]: truncation towards zero; not-a-number and the infinities
    raise. *)
Definition int (x : num) : result Z :=
  match x with
  | PInt z => Ok z
  | PFloat f =>
      match Prim2SF f with
      | S754_nan => Raise ValueError
      | S754_infinity _ => Raise OverflowError
      | S754_zero _ => Ok 0
      | S754_finite s m e =>
          let n := Qfloor (SFval m e) in Ok (if s then - n else n)
      end
  end.

(** *** [max] and [min] over a sequence *)

(** The built-ins scan from the left and replace the running value when the
    next item is strictly greater (respectively smaller). *)
Definition max (l : list float) : result float :=
  match l with
  | [] => Raise ValueError
  | a :: r => Ok (fold_left (fun m v => if (m <? v)%float then v else m) r a)
  end.

Definition min (l : list float) : result float :=
  match l with
  | [] => Raise ValueError
  | a :: r => Ok (fold_left (fun m v => if (v <? m)%float then v else m) r a)
  end.

(** [needle in hay] on strings. *)
Fixpoint contains (needle hay : string) : bool :=
  String.prefix needle hay ||
  match hay with
  | EmptyString => false
  | String _ rest => contains needle rest
  end.

End Py.

Notation "'do' x <~ r ; k" := (Py.and_then r (fun x => k))
  (at level 10, x name, r at level 100, k at level 200).

(** ** The state-and-exception monad

    A computation runs on a state [S], leaves a new state, and either returns
    a value or raises.  The state reached when an exception is raised is kept:
    what was logged before the failure stays logged. *)

Definition M (S A : Type) : Type := S -> Py.result A * S.

Definition ret {S A} (a : A) : M S A := fun s => (Py.Ok a, s).

Definition bind {S A B} (m : M S A) (k : A -> M S B) : M S B :=
  fun s =>
    match m s with
    | (Py.Ok a, s') => k a s'
    | (Py.Raise e, s') => (Py.Raise e, s')
    end.

(** A pure computation that may raise. *)
Definition lift_result {S A} (r : Py.result A) : M S A := fun s => (r, s).

Definition when {S} (b : bool) (m : M S unit) : M S unit :=
  if b then m else ret tt.

Notation "'do' x <- c1 ; c2" := (bind c1 (fun x => c2))
  (at level 10, x name, c1 at level 100, c2 at level 200).
Notation "c1 ;; c2" := (bind c1 (fun _ => c2))
  (at level 100, c2 at level 200, right associativity).

(** ** NumPy arrays *)

Module Np.

(** A point of the plane, and arrays of shape (N, k, 2). *)
Abbreviation point := (float * float)%type.

Definition float_of_nat (n : nat) : float :=
  of_uint63 (Uint63.of_Z (Z.of_nat n)).

(** [a[0]] and [a[-1]] on a one-dimensional array. *)
Definition first (a : list float) : Py.result float :=
  match a !! 0%nat with
  | Some v => Py.Ok v
  | None => Py.Raise Py.IndexError
  end.

Definition final (a : list float) : Py.result float :=
  match a !! (length a - 1)%nat with
  | Some v => Py.Ok v
  | None => Py.Raise Py.IndexError
  end.

(** The slices [a[1:]] and [a[:-1]]. *)
Definition from1 {A} (a : list A) : list A := drop 1 a.
Definition upto_last {A} (a : list A) : list A := take (length a - 1) a.

(** [a + b] element by element; an array of length one is broadcast, any
    other mismatch of lengths raises. *)
Fixpoint zip_add (a b : list float) : list float :=
  match a, b with
  | u :: a', v :: b' => (u + v)%float :: zip_add a' b'
  | _, _ => []
  end.

Definition add (a b : list float) : Py.result (list float) :=
  if (length a =? length b)%nat then Py.Ok (zip_add a b)
  else match a, b with
       | [u], _ => Py.Ok (map (fun v => (u + v)%float) b)
       | _, [v] => Py.Ok (map (fun u => (u + v)%float) a)
       | _, _ => Py.Raise Py.ValueError
       end.

(** [k * a] for a scalar [k]. *)
Definition scale (k : float) (a : list float) : list float :=
  map (fun v => (k * v)%float) a.

(** [np.hstack((u, a, v))] for scalars [u], [v] and an array [a]. *)
Definition hstack3 (u : float) (a : list float) (v : float) : list float :=
  [u] ++ a ++ [v].

(** [np.column_stack((a, b))]: the rows [(a[i], b[i])]; the lengths must
    agree. *)
Definition column_stack (a b : list float) : Py.result (list point) :=
  if (length a =? length b)%nat then Py.Ok (combine a b)
  else Py.Raise Py.ValueError.

(** [a[:, np.newaxis, :]]: from shape (N, 2) to shape (N, 1, 2). *)
Definition newaxis (a : list point) : list (list point) :=
  map (fun p => [p]) a.

(** [np.concatenate((a, b, c), axis=1)] on arrays of shape (N, _, 2): the
    first dimensions must agree. *)
Fixpoint zip_app3 (a b c : list (list point)) : list (list point) :=
  match a, b, c with
  | u :: a', v :: b', w :: c' => (u ++ v ++ w) :: zip_app3 a' b' c'
  | _, _, _ => []
  end.

Definition concatenate_axis1 (a b c : list (list point))
    : Py.result (list (list point)) :=
  if (length a =? length b)%nat && (length b =? length c)%nat
  then Py.Ok (zip_app3 a b c)
  else Py.Raise Py.ValueError.

(** [np.linspace(start, stop, num)] (end point included): the samples
    [i * step + start] with [step = (stop - start) / (num - 1)], the last one
    replaced by [stop]; when the step underflows to zero the division comes
    first. *)
Definition linspace (start stop : float) (num : nat) : list float :=
  let div := (num - 1)%nat in
  let delta := (stop - start)%float in
  let y := map float_of_nat (seq 0 num) in
  let y :=
    if (0 <? div)%nat then
      let step := (delta / float_of_nat div)%float in
      if (step =? 0)%float
      then map (fun v => (v / float_of_nat div * delta)%float) y
      else map (fun v => (v * step)%float) y
    else map (fun v => (v * delta)%float) y in
  let y := map (fun v => (v + start)%float) y in
  if (1 <? num)%nat then upto_last y ++ [stop] else y.

End Np.

(** A value that is neither an infinity nor not-a-number ([math.isfinite],
    [numpy.isfinite]). *)
Definition isfinite (f : float) : bool :=
  match Prim2SF f with
  | S754_zero _ | S754_finite _ _ _ => true
  | _ => false
  end.

(** ** The part of matplotlib that the module talks to *)

Module Mpl.

Definition RGBA : Type := float * float * float * float.

(** A colour gradient: an entry of matplotlib's registry, known by its name,
    or the result of [LinearSegmentedColormap.from_list(name, colors)]. *)
Inductive Colormap : Type :=
| Registered (name : string)
| from_list (name : string) (colors : list RGBA).

Definition name (cmap : Colormap) : string :=
  match cmap with
  | Registered n => n
  | from_list n _ => n
  end.

(** The value of a keyword option. *)
Inductive kwval : Type :=
| KStr (s : string)
| KNum (v : Py.num)
| KArr (a : list float)
| KCmap (c : Colormap).

Abbreviation kwargs := (gmap string kwval).

(** *** The lookup table of a gradient made by [from_list]

    [from_list(name, colors)] places the colours at the positions
    [linspace(0, 1, len(colors))]; on first use the gradient fills a table
    of 256 entries per channel ([_create_lookup_table] with [N = 256] and
    [gamma = 1]) and [cmap(v)] reads the table at the index [int(v * 256)]. *)

(** [numpy.clip(v, 0, 1)]: the maximum with 0, then the minimum with 1;
    not-a-number goes through. *)
Definition clip (v : float) : float :=
  let a := if is_nan v || (0 <? v)%float then v else 0%float in
  if is_nan a || (a <? 1)%float then a else 1%float.

Definition red (c : RGBA) : float := fst (fst (fst c)).
Definition green (c : RGBA) : float := snd (fst (fst c)).
Definition blue (c : RGBA) : float := snd (fst c).
Definition opacity (c : RGBA) : float := snd c.

Definition clip_rgba (c : RGBA) : RGBA :=
  (clip (red c), clip (green c), clip (blue c), clip (opacity c)).

(** [numpy.searchsorted(x, v)] on an ascending array: the number of entries
    below [v]. *)
Fixpoint searchsorted (x : list float) (v : float) : nat :=
  match x with
  | u :: x' => if (u <? v)%float then S (searchsorted x' v) else 0%nat
  | [] => 0%nat
  end.

(** One channel of the table: [vals] are the positions of the colours and
    [y] their values in the channel.  The first and the last entry are the
    first and the last colour; entry [j] between them interpolates between
    the two colours around the position [255 * linspace(0, 1, 256)[j]]. *)
Definition lut_channel (vals y : list float) : list float :=
  let x := map (fun v => (v * 255)%float) vals in
  let xind := map (fun v => (255 * v)%float) (Np.linspace 0 1 256) in
  let inner :=
    map (fun xi =>
           let ind := searchsorted x xi in
           let x0 := List.nth (ind - 1) x 0%float in
           let x1 := List.nth ind x 0%float in
           let y0 := List.nth (ind - 1) y 0%float in
           let y1 := List.nth ind y 0%float in
           let distance := ((xi - x0) / (x1 - x0))%float in
           (distance * (y1 - y0) + y0)%float)
        (Np.from1 (Np.upto_last xind)) in
  map clip ([List.nth 0 y 0%float] ++ inner ++
            [List.nth (length y - 1) y 0%float]).

Definition lut (colors : list RGBA) : list RGBA :=
  let vals := Np.linspace 0 1 (length colors) in
  combine
    (combine
       (combine (lut_channel vals (map red colors))
                (lut_channel vals (map green colors)))
       (lut_channel vals (map blue colors)))
    (lut_channel vals (map opacity colors)).

(** The entry that [cmap(v)] reads: [v * 256] truncated, with 1.0 counted
    as the last entry, positions below 0 as the first, positions above 1 as
    the last; there is none for not-a-number. *)
Definition lut_index (v : float) : option nat :=
  let xa := (v * 256)%float in
  let xa := if (xa =? 256)%float then 255%float else xa in
  if is_nan xa then None
  else if (xa <? 0)%float then Some 0%nat
  else if (256 <=? xa)%float then Some 255%nat
  else match Py.int (Py.PFloat xa) with
       | Py.Ok z => Some (Z.to_nat z)
       | Py.Raise _ => None
       end.

(** [cmap(v)] on a table; not-a-number gets the transparent "bad" colour. *)
Definition lookup (table : list RGBA) (v : float) : RGBA :=
  let bad : RGBA := (0, 0, 0, 0)%float in
  match lut_index v with
  | Some i => List.nth i table bad
  | None => bad
  end.

(** *** What the embedding does not fix about matplotlib

    - [rgba]: the colour a gradient gives at a position ([cmap(v)]).  It is
      a colour of the unit cube, and for a gradient made by [from_list] from
      at least two such colours it is read from the table above;
    - [image_cmap]: the name of the default gradient
      ([rcParams["image.cmap"]]);
    - [registered]: the names of the gradients that matplotlib knows;
      "magma_r" is one of them;
    - [property_error]: the exception, if any, with which a [LineCollection]
      refuses the option [k = v], for options other than "cmap" and
      "array"; the cap style "butt", a label and the line width 2 are
      taken;
    - [array_cmap_error]: the exception with which it refuses an array given
      as the gradient, which differs between versions of matplotlib. *)
Class Palette : Type := {
  rgba : Colormap -> float -> RGBA;
  image_cmap : string;
  registered : string -> bool;
  property_error : string -> kwval -> option Py.exn;
  array_cmap_error : Py.exn;
  rgba_gamut : forall cmap v, clip_rgba (rgba cmap v) = rgba cmap v;
  rgba_from_list : forall n colors v,
    (2 <= length colors)%nat -> Forall (fun c => clip_rgba c = c) colors ->
    rgba (from_list n colors) v = lookup (lut colors) v;
  capstyle_butt : property_error "capstyle" (KStr "butt") = None;
  magma_r_registered : registered "magma_r" = true;
  label_taken : forall s, property_error "label" (KStr s) = None;
  linewidth_taken : property_error "linewidth" (KNum (Py.PInt 2)) = None
}.

(** [cmap(a)] on an array of positions. *)
Definition call `{Palette} (cmap : Colormap) (a : list float) : list RGBA :=
  map (rgba cmap) a.

(** *** Line collections *)

(** A [LineCollection]: its segments and its properties.  Every keyword
    option [k=v] of the constructor sets the property [k], as [set_k(v)]
    does; the record keeps the value that was given. *)
Record LineCollection : Type := {
  segments : list (list Np.point);
  props : gmap string kwval
}.

(** A gradient whose table can be built: [from_list] needs at least two
    colours.  With one colour the first [cmap(...)] raises [ValueError];
    without any, there is no first colour to look at ([IndexError]). *)
Definition usable (c : Colormap) : bool :=
  match c with
  | Registered _ => true
  | from_list _ colors => (2 <=? length colors)%nat
  end.

Definition table_error (c : Colormap) : option Py.exn :=
  match c with
  | from_list _ [] => Some Py.IndexError
  | from_list _ [_] => Some Py.ValueError
  | _ => None
  end.

(** The gradient option: a name must be registered, a number or an array is
    no gradient, and a gradient object must be usable.  The first two are
    refused by the constructor of the collection, before it looks at any
    other option; an unusable gradient object is taken by the constructor
    and raises at the first [cmap(...)], in [truncate_colormap].  No call is
    made between the two places, so that the embedding can raise all of
    them where the collection is made; [init_error] keeps their order. *)
Definition cmap_ok `{Palette} (kw : kwargs) : bool :=
  match kw !! "cmap" with
  | Some (KStr n) => registered n
  | Some (KNum _) | Some (KArr _) => false
  | Some (KCmap c) => usable c
  | None => true
  end.

Definition cmap_error `{Palette} (kw : kwargs) : option Py.exn :=
  match kw !! "cmap" with
  | Some (KStr n) => if registered n then None else Some Py.ValueError
  | Some (KNum _) => Some Py.ValueError
  | Some (KArr _) => Some array_cmap_error
  | Some (KCmap _) | None => None
  end.

(** The colour array must be numeric ([TypeError] otherwise). *)
Definition array_error (v : kwval) : option Py.exn :=
  match v with
  | KStr _ | KCmap _ => Some Py.TypeError
  | _ => None
  end.

Definition option_error `{Palette} (k : string) (v : kwval)
    : option Py.exn :=
  if decide (k = "cmap") then None
  else if decide (k = "array") then array_error v
  else property_error k v.

(** The options with which [LineCollection(segments, **kw)] returns and its
    gradient can be read. *)
Definition accepted `{Palette} (kw : kwargs) : bool :=
  cmap_ok kw &&
  bool_decide (map_Forall (fun k v => option_error k v = None) kw).

(** The exception with which it raises otherwise: that of the gradient
    name, number or array; else that of another option; else that of the
    gradient object.  When several options other than the gradient are
    refused, matplotlib raises for the one it sets first; a dictionary does
    not keep that order, and the first in key order is taken here.  No
    statement depends on which it is. *)
Definition init_error `{Palette} (kw : kwargs) : Py.exn :=
  match cmap_error kw with
  | Some e => e
  | None =>
      match head (omap (fun kv => option_error (fst kv) (snd kv))
                    (map_to_list kw)) with
      | Some e => e
      | None =>
          match kw !! "cmap" with
          | Some (KCmap c) => default Py.ValueError (table_error c)
          | _ => Py.ValueError
          end
      end
  end.

Definition new_LineCollection `{Palette} (segs : list (list Np.point))
    (kw : kwargs) : Py.result LineCollection :=
  if accepted kw then Py.Ok {| segments := segs; props := kw |}
  else Py.Raise (init_error kw).

Definition set_array (lc : LineCollection) (c : list float) : LineCollection :=
  {| segments := segments lc; props := <["array" := KArr c]> (props lc) |}.

Definition get_array (lc : LineCollection) : option kwval := props lc !! "array".

Definition get_cmap `{Palette} (lc : LineCollection) : Colormap :=
  match props lc !! "cmap" with
  | Some (KCmap c) => c
  | Some (KStr n) => Registered n
  | _ => Registered image_cmap
  end.

Definition set_cmap (lc : LineCollection) (c : Colormap) : LineCollection :=
  {| segments := segments lc; props := <["cmap" := KCmap c]> (props lc) |}.

Definition set_label (lc : LineCollection) (s : string) : LineCollection :=
  {| segments := segments lc; props := <["label" := KStr s]> (props lc) |}.

(** [not collection.get_label()]: no label was given, or the empty one. *)
Definition unlabelled (lc : LineCollection) : bool :=
  match props lc !! "label" with
  | None | Some (KStr EmptyString) => true
  | _ => false
  end.

(** *** Axes and the calls made to them *)

(** An axes object: the [idx]-th axes of the [fig]-th figure. *)
Inductive Axes : Type := axes (fig idx : nat).

#[global] Instance Axes_eq_dec : EqDecision Axes.
Proof. solve_decision. Defined.

(** The calls that the program makes to matplotlib and to the warnings
    machinery, in order; a call that raises is not recorded, and neither is
    what matplotlib does inside a call (its own warning about identical
    limits, for one).  [Warn] records a call of [warnings.warn]; whether the
    warning is shown is for the filters of the [warnings] module to decide.
    [SetXlim] and [SetYlim] record the limits that are requested. *)
Inductive event : Type :=
| Warn (msg : string)
| Subplots (n : nat)
| AddCollection (ax : Axes) (lc : LineCollection)
| Colorbar (lc : LineCollection) (label : string)
| SetXlim (ax : Axes) (lo hi : float)
| SetYlim (ax : Axes) (lo hi : float)
| AxSet (ax : Axes) (labels : list (string * string))
| Plot (ax : Axes) (xs ys : list float)
| Xlabel (s : string)
| Suptitle (s : string)
| Title (s : string)
| Savefig (path : string)
| Show.

Definition log : Type := list event.

Definition emit (e : event) : M log unit := fun l => (Py.Ok tt, l ++ [e]).

(** [ax.plot(xs, ys)]: the two arrays must have the same length. *)
Definition plot (ax : Axes) (xs ys : list float) : M log unit :=
  if (length xs =? length ys)%nat then emit (Plot ax xs ys)
  else lift_result (Py.Raise Py.ValueError).

(** The artists that the calls so far have added to [ax]: one for each
    [plot] and each [add_collection]. *)
Definition adds_child (ax : Axes) (e : event) : bool :=
  match e with
  | AddCollection a _ | Plot a _ _ => bool_decide (a = ax)
  | _ => false
  end.

Definition children (ax : Axes) (l : log) : nat :=
  length (filter (fun e => adds_child ax e = true) l).

Definition child_label (k : nat) : string := "_child" +:+ pretty k.

(** [ax.add_collection(lc)]: a collection without a label is labelled
    ["_child<k>"], [k] being the number of artists the axes already has;
    the collection is returned. *)
Definition add_collection (ax : Axes) (lc : LineCollection)
    : M log LineCollection :=
  fun l =>
    let lc :=
      if unlabelled lc then set_label lc (child_label (children ax l))
      else lc in
    (Py.Ok lc, l ++ [AddCollection ax lc]).

(** [ax.set_xlim(lo, hi)] and [ax.set_ylim(lo, hi)]: a limit that is
    not-a-number or infinite raises [ValueError]. *)
Definition set_xlim (ax : Axes) (lo hi : float) : M log unit :=
  if isfinite lo && isfinite hi then emit (SetXlim ax lo hi)
  else lift_result (Py.Raise Py.ValueError).

Definition set_ylim (ax : Axes) (lo hi : float) : M log unit :=
  if isfinite lo && isfinite hi then emit (SetYlim ax lo hi)
  else lift_result (Py.Raise Py.ValueError).



Definition is_subplots (e : event) : bool :=
  match e with Subplots _ => true | _ => false end.

(** The number of figures created so far. *)
Definition figures (l : log) : nat :=
  length (filter (fun e => is_subplots e = true) l).

(** [plt.subplots(n)]: a new figure with [n] axes. *)
Definition subplots (n : nat) : M log (list Axes) :=
  fun l => (Py.Ok (map (axes (figures l)) (seq 0 n)), l ++ [Subplots n]).

(** *** What the embedding does not fix about the backend

    [savefig_error path] is the exception, if any, with which
    [plt.savefig(path)] fails: a directory that does not exist, a file that
    cannot be written. *)
Class Backend : Type := {
  savefig_error : string -> option Py.exn
}.

(** [plt.savefig(path)]. *)
Definition savefig `{Backend} (path : string) : M log unit :=
  match savefig_error path with
  | None => emit (Savefig path)
  | Some e => lift_result (Py.Raise e)
  end.

End Mpl.

Import Mpl.

(** ** [truncate_colormap] and [colored_line] *)

(** The name given to a truncated gradient:
    ['trunc({n},{a:.2f},{b:.2f})'.format(n=cmap.name, a=minval, b=maxval)]. *)
Definition trunc_name (n : string) (minval maxval : float) : string :=
  "trunc(" +:+ n +:+ "," +:+ Py.format_fixed 2 minval +:+ "," +:+
  Py.format_fixed 2 maxval +:+ ")".

(** [truncate_colormap(cmap, minval, maxval, n)], for [n >= 1]: without a
    colour [from_list] does not return, and [colored_line] calls it with the
    number of points, which is not 0 there. *)
Definition truncate_colormap `{Palette} (cmap : Colormap)
    (minval maxval : float) (n : nat) : Colormap :=
  let new_cmap :=
    from_list (trunc_name (name cmap) minval maxval)
      (call cmap (Np.linspace minval maxval n)) in
  new_cmap.

(** The default arguments [minval=0.2, maxval=0.8, n=100]. *)
Definition truncate_colormap_default `{Palette} (cmap : Colormap) : Colormap :=
  truncate_colormap cmap 0.2 0.8 100.

Definition array_warning : string :=
  "The provided " +:+ String (ascii_of_nat 34) "array" +:+
  String (ascii_of_nat 34) " keyword argument will be overridden".

(** The midpoint array of [colored_line]:
    [np.hstack((x[0], 0.5 * (x[1:] + x[:-1]), x[-1]))]. *)
Definition midpts (x : list float) : Py.result (list float) :=
  do x0 <~ Np.first x ;
  do s <~ Np.add (Np.from1 x) (Np.upto_last x) ;
  do xn <~ Np.final x ;
  Py.Ok (Np.hstack3 x0 (Np.scale 0.5 s) xn).

(** The segment array of [colored_line], of shape (N, 3, 2). *)
Definition build_segments (x y : list float)
    : Py.result (list (list Np.point)) :=
  do x_midpts <~ midpts x ;
  do y_midpts <~ midpts y ;
  do starts <~
    Np.column_stack (Np.upto_last x_midpts) (Np.upto_last y_midpts) ;
  let coord_start := Np.newaxis starts in
  do mids <~ Np.column_stack x y ;
  let coord_mid := Np.newaxis mids in
  do ends <~ Np.column_stack (Np.from1 x_midpts) (Np.from1 y_midpts) ;
  let coord_end := Np.newaxis ends in
  Np.concatenate_axis1 coord_start coord_mid coord_end.

(** [colored_line(x, y, c, ax, cmap_trunc, **lc_kwargs)].  The default of
    [cmap_trunc] is [default_cmap_trunc]. *)
Definition default_cmap_trunc : float * float := (0, 1)%float.

Definition colored_line `{Palette} (x y c : list float) (ax : Axes)
    (cmap_trunc : float * float) (lc_kwargs : kwargs) : M log LineCollection :=
  when (bool_decide (is_Some (lc_kwargs !! "array")))
    (emit (Warn array_warning)) ;;
  let default_kwargs : kwargs := {[ "capstyle" := KStr "butt" ]} in
  let default_kwargs := lc_kwargs ∪ default_kwargs in
  do segments <- lift_result (build_segments x y) ;
  do lc <- lift_result (new_LineCollection segments default_kwargs) ;
  let lc := set_array lc c in
  let map := get_cmap lc in
  let new_cmap :=
    truncate_colormap map (fst cmap_trunc) (snd cmap_trunc) (length x) in
  let lc := set_cmap lc new_cmap in
  add_collection ax lc.

(** ** [VdP_Plotter] *)

(** The object: the ten attributes assigned from the constructor's arguments
    and the two captions derived from them. *)
Record VdP_Plotter : Type := {
  x : list float;
  xder : list float;
  t : list float;
  params : gmap string Py.num;
  alpha : Py.num;
  dt : Py.num;
  T : Py.num;
  n_eval : Py.num;
  comp_time : float;
  forcing_params : option (gmap string Py.num);
  title : string;
  param_desciption : string
}.

(** The state a method runs on: the object and matplotlib's log. *)
Record state : Type := {
  self : VdP_Plotter;
  plt : log
}.

Definition get_self : M state VdP_Plotter := fun s => (Py.Ok (self s), s).

Definition set_self (p : VdP_Plotter) : M state unit :=
  fun s => (Py.Ok tt, {| self := p; plt := plt s |}).

(** A call into matplotlib from a method: it runs on the log alone. *)
Definition on_plt {A} (m : M log A) : M state A :=
  fun s => let '(r, l) := m (plt s) in (r, {| self := self s; plt := l |}).

Definition newline : string := String (ascii_of_nat 10) EmptyString.

(** The two strings that [generate_captions] derives from the forcing
    parameters: the word for the title and the settings for the subtitle. *)
Definition forcing_captions (forcing : option (gmap string Py.num))
    : Py.result (string * string) :=
  match forcing with
  | None => Py.Ok ("", "")
  | Some fp =>
      do amplitude <~ Py.getitem fp "A" ;
      if Py.ne_int amplitude 0 then
        do omega <~ Py.getitem fp "omega" ;
        do omega <~ Py.np_round omega ;
        Py.Ok ("forced ",
               ", A=" +:+ Py.str amplitude +:+ ", \omega=" +:+ Py.str omega)
      else Py.Ok ("", "")
  end.

(** [generate_captions(self)]. *)
Definition generate_captions : M state (string * string) :=
  do self <- get_self ;
  do forcing <- lift_result (forcing_captions (forcing_params self)) ;
  let '(forcing_string, forcing_settings_string) := forcing in
  let '(fractional_settings_string, fractional_string) :=
    if Py.eq_int (alpha self) 1 then ("", "")
    else ("\alpha=" +:+ Py.str (alpha self) +:+ ", ", "fractionally ") in
  let title :=
    fractional_string +:+ "dampened " +:+ forcing_string +:+ "VdP Oscillator" in
  do mu <- lift_result (Py.getitem (params self) "mu") ;
  do duration <- lift_result (Py.np_round (T self)) ;
  do h <- lift_result (Py.np_round (dt self)) ;
  do q <- lift_result (Py.int (n_eval self)) ;
  let subtitle :=
    "$" +:+ fractional_settings_string +:+ "\mu=" +:+ Py.str mu +:+
    forcing_settings_string +:+ ". T = " +:+ Py.str duration +:+
    ", h=" +:+ Py.str h +:+ ", q = " +:+
    Py.str (Py.PInt q) +:+ "$" in
  ret (title, subtitle).

(** The assignment [self.title, self.param_desciption = captions]. *)
Definition set_captions (captions : string * string) : M state unit :=
  do self <- get_self ;
  set_self {| x := self.(x); xder := self.(xder); t := self.(t);
              params := self.(params); alpha := self.(alpha);
              dt := self.(dt); T := self.(T); n_eval := self.(n_eval);
              comp_time := self.(comp_time);
              forcing_params := self.(forcing_params);
              title := fst captions;
              param_desciption := snd captions |}.

(** The arguments of the constructor. *)
Record inputs : Type := {
  in_x : list float;
  in_xder : list float;
  in_t : list float;
  in_params : gmap string Py.num;
  in_alpha : Py.num;
  in_dt : Py.num;
  in_T : Py.num;
  in_n_eval : Py.num;
  in_comp_time : float;
  in_forcing_params : option (gmap string Py.num)
}.

(** The object under construction once the ten attributes are assigned; its
    captions are empty until [generate_captions] has run. *)
Definition blank (a : inputs) : VdP_Plotter :=
  {| x := in_x a; xder := in_xder a; t := in_t a; params := in_params a;
     alpha := in_alpha a; dt := in_dt a; T := in_T a; n_eval := in_n_eval a;
     comp_time := in_comp_time a; forcing_params := in_forcing_params a;
     title := ""; param_desciption := "" |}.

(** [VdP_Plotter(x, xder, t, params, alpha, dt, T, n_eval, comp_time,
    forcing_params)]: the attributes are assigned, then the captions. *)
Definition __init__ (a : inputs) : M log VdP_Plotter :=
  fun l =>
    let body :=
      do captions <- generate_captions ;
      set_captions captions in
    match body {| self := blank a; plt := l |} with
    | (Py.Ok _, s) => (Py.Ok (self s), plt s)
    | (Py.Raise e, s) => (Py.Raise e, plt s)
    end.

Definition show_plots : M state unit := on_plt (emit Show).

(** The keyword options that [phase] passes to [colored_line]:
    [cmap='magma_r', label=f"Bernstein Splines ({self.comp_time:.4f} s)",
    linewidth=2]. *)
Definition phase_kwargs (self : VdP_Plotter) : kwargs :=
  {[ "cmap" := KStr "magma_r";
     "label" := KStr ("Bernstein Splines (" +:+
                      Py.format_fixed 4 self.(comp_time) +:+ " s)");
     "linewidth" := KNum (Py.PInt 2) ]}.

(** [phase(self, show, save_filepath)].  The statements about the calls that
    follow [colored_line] are for two positions or more: from a single
    position the line gets a gradient of one colour, of which no table can
    be built, and where matplotlib first reads it is not modelled. *)
Definition phase `{Palette} `{Backend} (show : bool)
    (save_filepath : option string) : M state unit :=
  do self <- get_self ;
  do axs <- on_plt (subplots 1) ;
  let ax_phase := List.hd (axes 0 0) axs in
  do lines <-
    on_plt (colored_line self.(x) self.(xder) self.(t) ax_phase
              (0.15, 0.75)%float (phase_kwargs self)) ;
  on_plt (emit (Colorbar lines "$t$")) ;;
  let margin_pct := 0.1%float in
  do x_max <- lift_result (Py.max self.(x)) ;
  do x_min <- lift_result (Py.min self.(x)) ;
  let x_dist := (x_max - x_min)%float in
  let margin_x := (margin_pct * x_dist)%float in
  do x_min <- lift_result (Py.min self.(x)) ;
  do x_max <- lift_result (Py.max self.(x)) ;
  on_plt (set_xlim ax_phase (x_min - margin_x) (x_max + margin_x)) ;;
  do y_max <- lift_result (Py.max self.(xder)) ;
  do y_min <- lift_result (Py.min self.(xder)) ;
  let y_dist := (y_max - y_min)%float in
  let margin_y := (margin_pct * y_dist)%float in
  do y_min <- lift_result (Py.min self.(xder)) ;
  do y_max <- lift_result (Py.max self.(xder)) ;
  on_plt (set_ylim ax_phase (y_min - margin_y) (y_max + margin_y)) ;;
  on_plt (emit (AxSet ax_phase [("xlabel", "$x$"); ("ylabel", "$\dot{x}$")])) ;;
  on_plt (emit (Suptitle ("Phase portrait " +:+ self.(title)))) ;;
  on_plt (emit (Title self.(param_desciption))) ;;
  match save_filepath with
  | Some path => on_plt (savefig path)
  | None => ret tt
  end ;;
  when show (on_plt (emit Show)).

(** [signal(self, show, save_filepath)]. *)
Definition signal `{Backend} (show : bool) (save_filepath : option string)
    : M state unit :=
  do self <- get_self ;
  do axs <- on_plt (subplots 2) ;
  let ax0 := List.nth 0 axs (axes 0 0) in
  let ax1 := List.nth 1 axs (axes 0 1) in
  on_plt (plot ax0 self.(t) self.(x)) ;;
  on_plt (emit (AxSet ax0 [("ylabel", "$x$")])) ;;
  on_plt (plot ax1 self.(t) self.(xder)) ;;
  on_plt (emit (AxSet ax1 [("ylabel", "$\dot{x}$")])) ;;
  on_plt (emit (Xlabel "t")) ;;
  on_plt (emit (Suptitle ("Signal of " +:+ self.(title) +:+ newline +:+
                          self.(param_desciption)))) ;;
  match save_filepath with
  | Some path => on_plt (savefig path)
  | None => ret tt
  end ;;
  when show (on_plt (emit Show)).

(** ** Vocabulary of the statements *)

(** The chain [midpoint[i], point[i], midpoint[i+1]]. *)
Definition chain (mx my x y : list float) (i : nat) : option (list Np.point) :=
  a ← mx !! i; b ← my !! i; c ← x !! i; d ← y !! i;
  e ← mx !! S i; f ← my !! S i;
  Some [(a, b); (c, d); (e, f)].






(** The warnings of a log. *)
Definition warnings (l : log) : list string :=
  omap (fun e => match e with Warn m => Some m | _ => None end) l.

(** The gradient that [get_cmap] finds for given keyword options. *)
Definition cmap_of `{Palette} (kw : kwargs) : Colormap :=
  match kw !! "cmap" with
  | Some (KCmap c) => c
  | Some (KStr n) => Registered n
  | _ => Registered image_cmap
  end.

(** The collection that [colored_line] hands to the axes, and the one it
    returns on success: the same, labelled ["_child<k>"] if it has no label,
    [k] being the number of artists already on the axes. *)
Definition collection_made `{Palette} (segs : list (list Np.point)) (n : nat)
    (c : list float) (cmap_trunc : float * float) (kw : kwargs)
    : LineCollection :=
  {| segments := segs;
     props :=
       <["cmap" := KCmap (truncate_colormap (cmap_of kw) (fst cmap_trunc)
                            (snd cmap_trunc) n)]>
         (<["array" := KArr c]> (kw ∪ {[ "capstyle" := KStr "butt" ]})) |}.

Definition collection_of `{Palette} (segs : list (list Np.point)) (n : nat)
    (c : list float) (cmap_trunc : float * float) (kw : kwargs) (k : nat)
    : LineCollection :=
  let lc := collection_made segs n c cmap_trunc kw in
  if unlabelled lc then set_label lc (child_label k) else lc.

(** The warning that [colored_line] logs for given keyword options. *)
Definition array_warnings (kw : kwargs) : log :=
  if bool_decide (is_Some (kw !! "array")) then [Warn array_warning] else [].

(** The input points, and the midpoint of two of them as the program
    computes it. *)
Definition points (x y : list float) : list Np.point := combine x y.

Definition midpoint (p q : Np.point) : Np.point :=
  ((0.5 * (fst p + fst q))%float, (0.5 * (snd p + snd q))%float).

(** *** Captions *)

(** Whether the title says "forced": forcing parameters are present and
    their amplitude is not zero. *)
Definition forced (p : VdP_Plotter) : bool :=
  match forcing_params p with
  | Some fp => match fp !! "A" with
               | Some a => Py.ne_int a 0
               | None => false
               end
  | None => false
  end.

(** The title "[fractionally ]dampened [forced ]VdP Oscillator". *)
Definition title_of (p : VdP_Plotter) : string :=
  (if Py.eq_int (alpha p) 1 then "" else "fractionally ") +:+ "dampened " +:+
  (if forced p then "forced " else "") +:+ "VdP Oscillator".

(** The subtitle around its forcing part [mid]. *)
Definition subtitle_with (p : VdP_Plotter) (mu : Py.num) (q : Z)
    (mid : string) : string :=
  "$" +:+ (if Py.eq_int (alpha p) 1 then ""
           else "\alpha=" +:+ Py.str (alpha p) +:+ ", ") +:+
  "\mu=" +:+ Py.str mu +:+ mid +:+
  ". T = " +:+ Py.str (Py.np_round2 (T p)) +:+
  ", h=" +:+ Py.str (Py.np_round2 (dt p)) +:+
  ", q = " +:+ Py.str (Py.PInt q) +:+ "$".

(** The forcing part of the subtitle: the amplitude as [str] prints it and
    the frequency rounded to two decimals, or nothing. *)
Definition forcing_part (p : VdP_Plotter) : string :=
  match forcing_params p with
  | Some fp =>
      match fp !! "A", fp !! "omega" with
      | Some a, Some omega =>
          if Py.ne_int a 0
          then ", A=" +:+ Py.str a +:+ ", \omega=" +:+
               Py.str (Py.np_round2 omega)
          else ""
      | _, _ => ""
      end
  | None => ""
  end.

(** The inputs from which captions can be derived: [mu] is given, the
    duration and the step size can be rounded, the evaluation count converts
    to an integer, and forcing parameters, when present, give the amplitude
    and, unless it is zero, a frequency that can be rounded. *)
Definition captions_ready (p : VdP_Plotter) : bool :=
  bool_decide (is_Some (params p !! "mu")) &&
  Py.np_roundable (T p) && Py.np_roundable (dt p) &&
  Py.is_ok (Py.int (n_eval p)) &&
  match forcing_params p with
  | None => true
  | Some fp =>
      match fp !! "A" with
      | None => false
      | Some a =>
          if Py.ne_int a 0
          then match fp !! "omega" with
               | Some omega => Py.np_roundable omega
               | None => false
               end
          else true
      end
  end.

(** The constructor's arguments as the object stores them. *)
Definition inputs_of (p : VdP_Plotter) : inputs :=
  {| in_x := x p; in_xder := xder p; in_t := t p; in_params := params p;
     in_alpha := alpha p; in_dt := dt p; in_T := T p; in_n_eval := n_eval p;
     in_comp_time := comp_time p; in_forcing_params := forcing_params p |}.

(** A method that leaves the stored inputs as they are, whatever it
    returns or raises. *)
Definition keeps_inputs {A} (m : M state A) : Prop :=
  forall s, inputs_of (self (snd (m s))) = inputs_of (self s).

(** *** The phase portrait *)

(** The collection that [phase] draws, and the calls it makes. *)
Definition phase_collection `{Palette} (p : VdP_Plotter)
    (segs : list (list Np.point)) : LineCollection :=
  collection_made segs (length (x p)) (t p) (0.15, 0.75)%float
    (phase_kwargs p).

(** Whether the figure can be saved: no path is given, or [savefig] takes
    the path. *)
Definition can_save `{Backend} (save_filepath : option string) : bool :=
  match save_filepath with
  | Some path => bool_decide (savefig_error path = None)
  | None => true
  end.

Definition margin (lo hi : float) : float := (0.1 * (hi - lo))%float.

Definition tail_calls (show : bool) (save_filepath : option string) : log :=
  match save_filepath with Some path => [Savefig path] | None => [] end ++
  (if show then [Show] else []).


(** *** Concrete inputs *)

(** The scenario of the specification: five samples, [mu = 1], a classical
    exponent and no forcing. *)
Definition scenario : inputs :=
  {| in_x := [0; 1; 2; 1; 0]%float;
     in_xder := [1; 0; -1; 0; 1]%float;
     in_t := [0; 1; 2; 3; 4]%float;
     in_params := {[ "mu" := Py.PInt 1 ]};
     in_alpha := Py.PInt 1;
     in_dt := Py.PFloat 0.01;
     in_T := Py.PInt 4;
     in_n_eval := Py.PInt 400;
     in_comp_time := 0.1234567%float;
     in_forcing_params := None |}.

(** The object that the constructor builds for the scenario. *)
Definition scenario_plotter : VdP_Plotter :=
  {| x := in_x scenario; xder := in_xder scenario; t := in_t scenario;
     params := in_params scenario; alpha := in_alpha scenario;
     dt := in_dt scenario; T := in_T scenario; n_eval := in_n_eval scenario;
     comp_time := in_comp_time scenario;
     forcing_params := in_forcing_params scenario;
     title := "dampened VdP Oscillator";
     param_desciption := "$\mu=1. T = 4, h=0.01, q = 400$" |}.

(** The same run with given exponent and forcing parameters. *)
Definition scenario_with (alpha : Py.num) (amplitude omega : Py.num)
    : inputs :=
  {| in_x := in_x scenario; in_xder := in_xder scenario; in_t := in_t scenario;
     in_params := in_params scenario; in_alpha := alpha;
     in_dt := in_dt scenario; in_T := in_T scenario;
     in_n_eval := in_n_eval scenario; in_comp_time := in_comp_time scenario;
     in_forcing_params := Some {[ "A" := amplitude; "omega" := omega ]} |}.

(** *** Further vocabulary *)

(** The arguments [a] with other forcing parameters. *)
Definition with_forcing (a : inputs)
    (forcing : option (gmap string Py.num)) : inputs :=
  {| in_x := in_x a; in_xder := in_xder a; in_t := in_t a;
     in_params := in_params a; in_alpha := in_alpha a; in_dt := in_dt a;
     in_T := in_T a; in_n_eval := in_n_eval a;
     in_comp_time := in_comp_time a; in_forcing_params := forcing |}.


(** The object [p] with other positions. *)
Definition with_x (p : VdP_Plotter) (xs : list float) : VdP_Plotter :=
  {| x := xs; xder := xder p; t := t p; params := params p;
     alpha := alpha p; dt := dt p; T := T p; n_eval := n_eval p;
     comp_time := comp_time p; forcing_params := forcing_params p;
     title := title p; param_desciption := param_desciption p |}.

(** The calls that [signal] makes when it returns. *)
Definition signal_calls (p : VdP_Plotter) (fig : nat) (show : bool)
    (save_filepath : option string) : log :=
  [Subplots 2;
   Plot (axes fig 0) (t p) (x p);
   AxSet (axes fig 0) [("ylabel", "$x$")];
   Plot (axes fig 1) (t p) (xder p);
   AxSet (axes fig 1) [("ylabel", "$\dot{x}$")];
   Xlabel "t";
   Suptitle ("Signal of " +:+ title p +:+ newline +:+ param_desciption p)] ++
  tail_calls show save_filepath.

(** A computation on the log that only appends to it, and appends no call
    that opens a figure. *)
Definition appends_no_figure {A} (m : M log A) : Prop :=
  forall l, exists tail, snd (m l) = l ++ tail /\ figures tail = 0%nat.

(** A method that leaves the whole object as it is, captions included, only
    appends to the log, and opens no figure. *)
Definition quiet {A} (m : M state A) : Prop :=
  forall s,
    self (snd (m s)) = self s /\
    exists tail, plt (snd (m s)) = plt s ++ tail /\ figures tail = 0%nat.

(** *** Palettes and backends for running the definitions *)

Lemma clip_clip (v : float) : clip (clip v) = clip v.
Proof.
  assert (Hc : clip v = 1%float \/ clip v = 0%float \/ clip v = v).
  { unfold clip. destruct (is_nan v || (0 <? v)%float);
      [destruct (is_nan v || (v <? 1)%float)|]; auto. }
  destruct Hc as [-> | [-> | Hv]]; [reflexivity | reflexivity |].
  rewrite Hv. exact Hv.
Qed.

Lemma clip_rgba_clip_rgba (c : RGBA) : clip_rgba (clip_rgba c) = clip_rgba c.
Proof.
  destruct c as [[[r g] b] a]. unfold clip_rgba, red, green, blue, opacity.
  simpl. rewrite !clip_clip. reflexivity.
Qed.

Lemma nth_gamut (table : list RGBA) (i : nat) :
  Forall (fun c => clip_rgba c = c) table ->
  clip_rgba (List.nth i table (0, 0, 0, 0)%float) =
  List.nth i table (0, 0, 0, 0)%float.
Proof.
  intros Ht. revert i. induction Ht as [|c table Hc _ IH]; intros [|i]; simpl;
    try reflexivity; [exact Hc | apply IH].
Qed.

Lemma combine_gamut (r g b a : list float) :
  Forall (fun c => clip_rgba c = c)
    (combine (combine (combine (map clip r) (map clip g)) (map clip b))
       (map clip a)).
Proof.
  revert g b a. induction r as [|r0 r IH]; intros [|g0 g] [|b0 b] [|a0 a];
    simpl; try constructor.
  - unfold clip_rgba, red, green, blue, opacity. simpl.
    rewrite !clip_clip. reflexivity.
  - apply IH.
Qed.

Lemma lut_gamut (colors : list RGBA) :
  Forall (fun c => clip_rgba c = c) (lut colors).
Proof. unfold lut, lut_channel. apply combine_gamut. Qed.

Lemma lookup_gamut (colors : list RGBA) (v : float) :
  clip_rgba (lookup (lut colors) v) = lookup (lut colors) v.
Proof.
  unfold lookup. destruct (lut_index v) as [i|]; [|reflexivity].
  apply nth_gamut, lut_gamut.
Qed.

(** A grey ramp: every registered gradient gives the grey of its position,
    and knows the names "viridis", "magma_r" and "gray"; the cap styles are
    those of matplotlib, and every other option is taken. *)
Definition grey_rgba (cmap : Colormap) (v : float) : RGBA :=
  match cmap with
  | Registered _ => (clip v, clip v, clip v, 1%float)
  | from_list _ colors => lookup (lut colors) v
  end.

Definition known_names (n : string) : bool :=
  bool_decide (n ∈ ["viridis"; "magma_r"; "gray"]).

Definition capstyle_error (k : string) (v : kwval) : option Py.exn :=
  if decide (k = "capstyle")
  then match v with
       | KStr s =>
           if bool_decide (s ∈ ["butt"; "projecting"; "round"]) then None
           else Some Py.ValueError
       | _ => Some Py.ValueError
       end
  else None.

Lemma grey_gamut cmap v : clip_rgba (grey_rgba cmap v) = grey_rgba cmap v.
Proof.
  destruct cmap as [n|n colors]; [|apply lookup_gamut].
  unfold grey_rgba, clip_rgba, red, green, blue, opacity. simpl.
  rewrite !clip_clip. reflexivity.
Qed.

Definition grey : Palette :=
  {| rgba := grey_rgba;
     image_cmap := "viridis";
     registered := known_names;
     property_error := capstyle_error;
     array_cmap_error := Py.TypeError;
     rgba_gamut := grey_gamut;
     rgba_from_list := fun n colors v _ _ => eq_refl;
     capstyle_butt := eq_refl;
     magma_r_registered := eq_refl;
     label_taken := fun s => eq_refl;
     linewidth_taken := eq_refl |}.

(** matplotlib's "gray": the gradient from black to white through its table
    of 256 entries, under every registered name. *)
Definition black_white : list RGBA := [(0, 0, 0, 1); (1, 1, 1, 1)]%float.

Definition gray_rgba (cmap : Colormap) (v : float) : RGBA :=
  match cmap with
  | Registered _ => lookup (lut black_white) v
  | from_list _ colors => lookup (lut colors) v
  end.

Lemma gray_gamut cmap v : clip_rgba (gray_rgba cmap v) = gray_rgba cmap v.
Proof. destruct cmap; apply lookup_gamut. Qed.

Definition gray : Palette :=
  {| rgba := gray_rgba;
     image_cmap := "viridis";
     registered := known_names;
     property_error := capstyle_error;
     array_cmap_error := Py.TypeError;
     rgba_gamut := gray_gamut;
     rgba_from_list := fun n colors v _ _ => eq_refl;
     capstyle_butt := eq_refl;
     magma_r_registered := eq_refl;
     label_taken := fun s => eq_refl;
     linewidth_taken := eq_refl |}.

(** A backend that writes every file, and one that finds no directory
    "missing". *)
Definition writable : Backend := {| savefig_error := fun _ => None |}.

Definition no_missing_dir : Backend :=
  {| savefig_error := fun path =>
       if String.prefix "missing/" path then Some Py.FileNotFoundError
       else None |}.

(** ** The number model on known values *)

Section NumberFormatting.

(** The formatting functions on values whose Python output is known. *)
Example float_repr_examples :
  map Py.float_repr
    [0.1; 1; 0.123; 1e16; 1e-5; 1e15; 0.0001; 5e-324; (0.1 + 0.2); 2.675;
     1e22; -1.5e-7; 1.7976931348623157e308]%float =
  ["0.1"; "1.0"; "0.123"; "1e+16"; "1e-05"; "1000000000000000.0"; "0.0001";
   "5e-324"; "0.30000000000000004"; "2.675"; "1e+22"; "-1.5e-07";
   "1.7976931348623157e+308"].
Proof. vm_compute. reflexivity. Qed.

Example format_fixed_examples :
  map (Py.format_fixed 2) [0; 1; 0.15; 0.75; 2.675; 0.125; -0.001]%float =
  ["0.00"; "1.00"; "0.15"; "0.75"; "2.67"; "0.12"; "-0.00"] /\
  Py.format_fixed 4 0.1234567 = "0.1235".
Proof. vm_compute. split; reflexivity. Qed.

Example np_round2_examples :
  map Py.np_round2
    [Py.PInt 2; Py.PFloat 1; Py.PFloat 0.123; Py.PFloat 2.675;
     Py.PFloat 3.14159; Py.PFloat 0.125] =
  [Py.PInt 2; Py.PFloat 1; Py.PFloat 0.12; Py.PFloat 2.68; Py.PFloat 3.14;
   Py.PFloat 0.12].
Proof. vm_compute. reflexivity. Qed.

Example int_examples :
  map Py.int [Py.PInt 400; Py.PFloat 400; Py.PFloat 3.99; Py.PFloat (-3.99);
              Py.PFloat nan; Py.PFloat infinity] =
  [Py.Ok 400; Py.Ok 400; Py.Ok 3; Py.Ok (-3); Py.Raise Py.ValueError;
   Py.Raise Py.OverflowError].
Proof. vm_compute. reflexivity. Qed.

Example eq_int_examples :
  map (fun v => Py.eq_int v 1)
    [Py.PInt 1; Py.PFloat 1; Py.PFloat 0.5; Py.PFloat nan; Py.PInt 2] =
  [true; true; false; false; false] /\
  map (fun v => Py.ne_int v 0)
    [Py.PInt 0; Py.PFloat 0; Py.PFloat (-0); Py.PFloat nan; Py.PFloat 2] =
  [false; false; false; true; true].
Proof. vm_compute. split; reflexivity. Qed.

End NumberFormatting.

(** ** Facts about binary64 arithmetic *)

Section FloatFacts.

Lemma SF64add_comm (a b : spec_float) : SF64add a b = SF64add b a.
Proof.
  unfold SF64add, SFadd.
  destruct a as [sa|sa| |sa ma ea], b as [sb|sb| |sb mb eb]; try reflexivity;
    try (destruct sa, sb; reflexivity).
  rewrite (Z.min_comm eb ea), Z.add_comm. reflexivity.
Qed.

Lemma float_add_comm (a b : float) : (a + b)%float = (b + a)%float.
Proof. apply Prim2SF_inj. rewrite !add_spec. apply SF64add_comm. Qed.



End FloatFacts.

(** ** Facts about the array operations *)

Section ArrayFacts.

Lemma lookup_map {A B} (f : A -> B) (l : list A) (i : nat) :
  map f l !! i = f <$> (l !! i).
Proof.
  revert i. induction l as [|a l IH]; intros [|i]; simpl; auto.
Qed.

Lemma lookup_combine {A B} (a : list A) (b : list B) (i : nat) u v :
  a !! i = Some u -> b !! i = Some v -> combine a b !! i = Some (u, v).
Proof.
  revert b i. induction a as [|a0 a IH]; intros [|b0 b] [|i]; simpl;
    try discriminate; [congruence | apply IH].
Qed.

Lemma lookup_zip_add (a b : list float) (i : nat) u v :
  a !! i = Some u -> b !! i = Some v ->
  Np.zip_add a b !! i = Some (u + v)%float.
Proof.
  revert b i. induction a as [|a0 a IH]; intros [|b0 b] [|i]; simpl;
    try discriminate; [congruence | apply IH].
Qed.

Lemma length_zip_add (a b : list float) :
  length a = length b -> length (Np.zip_add a b) = length a.
Proof.
  revert b. induction a as [|a0 a IH]; intros [|b0 b]; simpl;
    try discriminate; auto.
Qed.

Lemma lookup_zip_app3 (a b c : list (list Np.point)) (i : nat) u v w :
  a !! i = Some u -> b !! i = Some v -> c !! i = Some w ->
  Np.zip_app3 a b c !! i = Some (u ++ v ++ w).
Proof.
  revert b c i.
  induction a as [|a0 a IH]; intros [|b0 b] [|c0 c] [|i]; simpl;
    try discriminate; [congruence | apply IH].
Qed.

Lemma length_zip_app3 (a b c : list (list Np.point)) :
  length a = length b -> length b = length c ->
  length (Np.zip_app3 a b c) = length a.
Proof.
  revert b c. induction a as [|a0 a IH]; intros [|b0 b] [|c0 c]; simpl;
    try discriminate; auto.
Qed.

(** The slices [a[1:]] and [a[:-1]] of a non-empty array have equal
    lengths, so their sum is defined. *)
Lemma add_slices (a : list float) :
  Np.add (Np.from1 a) (Np.upto_last a) =
  Py.Ok (Np.zip_add (Np.from1 a) (Np.upto_last a)).
Proof.
  unfold Np.add, Np.from1, Np.upto_last.
  rewrite length_drop, length_take.
  replace (length a - 1 =? (length a - 1) `min` length a)%nat with true; auto.
  symmetry. apply Nat.eqb_eq. lia.
Qed.

(** The explicit form of the midpoint array of a non-empty array. *)
Lemma midpts_eq (a : list float) (a0 an : float) :
  a !! 0%nat = Some a0 -> a !! (length a - 1)%nat = Some an ->
  midpts a =
  Py.Ok (a0 :: Np.scale 0.5 (Np.zip_add (Np.from1 a) (Np.upto_last a)) ++ [an]).
Proof.
  intros H0 Hn. unfold midpts, Np.first, Np.final.
  rewrite H0. cbn [Py.and_then]. rewrite add_slices. cbn [Py.and_then].
  rewrite Hn. reflexivity.
Qed.

Lemma midpts_inv (a m : list float) :
  midpts a = Py.Ok m ->
  exists a0 an,
    a !! 0%nat = Some a0 /\ a !! (length a - 1)%nat = Some an /\
    m = a0 :: Np.scale 0.5 (Np.zip_add (Np.from1 a) (Np.upto_last a)) ++ [an].
Proof.
  unfold midpts, Np.first, Np.final.
  destruct (a !! 0%nat) as [a0|]; [|discriminate]. cbn [Py.and_then].
  rewrite add_slices. cbn [Py.and_then].
  destruct (a !! (length a - 1)%nat) as [an|]; [|discriminate].
  intros [= <-]. exists a0, an. auto.
Qed.

Lemma midpts_ok (a : list float) :
  a <> [] -> exists m, midpts a = Py.Ok m.
Proof.
  intros Ha.
  destruct (a !! 0%nat) as [a0|] eqn:H0.
  2:{ apply lookup_ge_None in H0. destruct a; simpl in *; [congruence | lia]. }
  destruct (a !! (length a - 1)%nat) as [an|] eqn:Hn.
  2:{ apply lookup_ge_None in Hn. destruct a; simpl in *; [congruence | lia]. }
  eexists. apply (midpts_eq _ _ _ H0 Hn).
Qed.

Lemma length_interior (a : list float) :
  length (Np.scale 0.5 (Np.zip_add (Np.from1 a) (Np.upto_last a))) =
  (length a - 1)%nat.
Proof.
  unfold Np.scale, Np.from1, Np.upto_last.
  rewrite length_map, length_zip_add; rewrite ?length_drop, ?length_take; lia.
Qed.

Lemma midpts_length (a m : list float) :
  midpts a = Py.Ok m -> length m = S (length a).
Proof.
  intros Hm. destruct (midpts_inv _ _ Hm) as (a0 & an & H0 & _ & ->).
  apply lookup_lt_Some in H0. simpl.
  rewrite length_app, length_interior. simpl. lia.
Qed.

Lemma midpts_first (a m : list float) :
  midpts a = Py.Ok m -> m !! 0%nat = a !! 0%nat.
Proof.
  intros Hm. destruct (midpts_inv _ _ Hm) as (a0 & an & H0 & _ & ->).
  rewrite H0. reflexivity.
Qed.

Lemma midpts_last (a m : list float) :
  midpts a = Py.Ok m -> m !! length a = a !! (length a - 1)%nat.
Proof.
  intros Hm. destruct (midpts_inv _ _ Hm) as (a0 & an & H0 & Hn & ->).
  apply lookup_lt_Some in H0. rewrite Hn.
  destruct (length a) as [|n] eqn:Hl; [lia|].
  change ((a0 :: Np.scale 0.5 (Np.zip_add (Np.from1 a) (Np.upto_last a))
             ++ [an]) !! S n)
    with ((Np.scale 0.5 (Np.zip_add (Np.from1 a) (Np.upto_last a))
             ++ [an]) !! n).
  rewrite lookup_app_r; rewrite length_interior, Hl; [|lia].
  replace (n - (S n - 1))%nat with 0%nat by lia. reflexivity.
Qed.

(** An interior midpoint, in the order in which the program adds. *)
Lemma midpts_interior (a m : list float) (i : nat) (u v : float) :
  midpts a = Py.Ok m -> a !! i = Some u -> a !! S i = Some v ->
  m !! S i = Some (0.5 * (v + u))%float.
Proof.
  intros Hm Hu Hv. destruct (midpts_inv _ _ Hm) as (a0 & an & _ & _ & ->).
  assert (Hlt : (S i < length a)%nat) by (eapply lookup_lt_Some; eauto).
  change ((a0 :: Np.scale 0.5 (Np.zip_add (Np.from1 a) (Np.upto_last a))
             ++ [an]) !! S i)
    with ((Np.scale 0.5 (Np.zip_add (Np.from1 a) (Np.upto_last a))
             ++ [an]) !! i).
  rewrite lookup_app_l by (rewrite length_interior; lia).
  unfold Np.scale. rewrite lookup_map.
  rewrite (lookup_zip_add _ _ i v u); [reflexivity | |].
  - unfold Np.from1. rewrite lookup_drop. exact Hv.
  - unfold Np.upto_last. rewrite lookup_take_lt by lia. exact Hu.
Qed.

Lemma column_stack_ok (a b : list float) :
  length a = length b -> Np.column_stack a b = Py.Ok (combine a b).
Proof. intros Hl. unfold Np.column_stack. rewrite Hl, Nat.eqb_refl. auto. Qed.

Lemma concatenate_axis1_ok (a b c : list (list Np.point)) :
  length a = length b -> length b = length c ->
  Np.concatenate_axis1 a b c = Py.Ok (Np.zip_app3 a b c).
Proof.
  intros Hab Hbc. unfold Np.concatenate_axis1.
  rewrite Hab, Hbc, !Nat.eqb_refl. reflexivity.
Qed.

(** The segments of two arrays of the same positive length. *)
Lemma build_segments_spec (x y : list float) :
  length x = length y -> x <> [] ->
  exists mx my segs,
    midpts x = Py.Ok mx /\ midpts y = Py.Ok my /\
    build_segments x y = Py.Ok segs /\
    length segs = length x /\
    forall i, (i < length x)%nat ->
      is_Some (segs !! i) /\ segs !! i = chain mx my x y i.
Proof.
  intros Hlen Hx.
  assert (Hy : y <> []) by (destruct x, y; simpl in *; congruence).
  destruct (midpts_ok x Hx) as [mx Hmx].
  destruct (midpts_ok y Hy) as [my Hmy].
  pose proof (midpts_length _ _ Hmx) as Lx.
  pose proof (midpts_length _ _ Hmy) as Ly.
  assert (L1 : length (Np.upto_last mx) = length x)
    by (unfold Np.upto_last; rewrite length_take; lia).
  assert (L2 : length (Np.upto_last my) = length x)
    by (unfold Np.upto_last; rewrite length_take; lia).
  assert (L3 : length (Np.from1 mx) = length x)
    by (unfold Np.from1; rewrite length_drop; lia).
  assert (L4 : length (Np.from1 my) = length x)
    by (unfold Np.from1; rewrite length_drop; lia).
  exists mx, my,
    (Np.zip_app3
       (Np.newaxis (combine (Np.upto_last mx) (Np.upto_last my)))
       (Np.newaxis (combine x y))
       (Np.newaxis (combine (Np.from1 mx) (Np.from1 my)))).
  split; [exact Hmx|]. split; [exact Hmy|]. split; [|split].
  - unfold build_segments. rewrite Hmx, Hmy. cbn [Py.and_then].
    rewrite !column_stack_ok by congruence. cbn [Py.and_then].
    apply concatenate_axis1_ok; unfold Np.newaxis;
      rewrite !length_map, !length_combine; lia.
  - rewrite length_zip_app3; unfold Np.newaxis;
      rewrite !length_map, !length_combine; lia.
  - intros i Hi.
    destruct (lookup_lt_is_Some_2 mx i) as [a Ha]; [lia|].
    destruct (lookup_lt_is_Some_2 my i) as [b Hb]; [lia|].
    destruct (lookup_lt_is_Some_2 x i) as [c Hc]; [lia|].
    destruct (lookup_lt_is_Some_2 y i) as [d Hd]; [lia|].
    destruct (lookup_lt_is_Some_2 mx (S i)) as [e He]; [lia|].
    destruct (lookup_lt_is_Some_2 my (S i)) as [f Hf]; [lia|].
    unfold chain. rewrite Ha, Hb, Hc, Hd, He, Hf. simpl.
    assert (Hs : Np.zip_app3
                   (Np.newaxis (combine (Np.upto_last mx) (Np.upto_last my)))
                   (Np.newaxis (combine x y))
                   (Np.newaxis (combine (Np.from1 mx) (Np.from1 my))) !! i
                 = Some [(a, b); (c, d); (e, f)]).
    { apply (lookup_zip_app3 _ _ _ i [(a, b)] [(c, d)] [(e, f)]);
        unfold Np.newaxis; rewrite lookup_map.
      - rewrite (lookup_combine _ _ i a b); [reflexivity | |];
          unfold Np.upto_last; rewrite lookup_take_lt by lia; assumption.
      - rewrite (lookup_combine _ _ i c d); [reflexivity | assumption..].
      - rewrite (lookup_combine _ _ i e f); [reflexivity | |];
          unfold Np.from1; rewrite lookup_drop; assumption. }
    split; [exists [(a, b); (c, d); (e, f)]; exact Hs | exact Hs].
Qed.

End ArrayFacts.

(** ** Facts about [colored_line] *)

Section ColoredLine.

Context `{Palette}.

Lemma lookup_with_default (kw : kwargs) (k : string) :
  k <> "capstyle" ->
  (kw ∪ ({[ "capstyle" := KStr "butt" ]} : kwargs)) !! k = kw !! k.
Proof.
  intros Hk. rewrite lookup_union, lookup_singleton_ne by congruence.
  destruct (kw !! k); reflexivity.
Qed.

Lemma cmap_ok_with_default (kw : kwargs) :
  cmap_ok (kw ∪ {[ "capstyle" := KStr "butt" ]}) = cmap_ok kw.
Proof.
  unfold cmap_ok. rewrite lookup_with_default by discriminate. reflexivity.
Qed.

Lemma accepted_with_default (kw : kwargs) :
  accepted (kw ∪ {[ "capstyle" := KStr "butt" ]}) = accepted kw.
Proof.
  unfold accepted. rewrite cmap_ok_with_default. f_equal.
  apply bool_decide_ext. split; intros Hall k v Hk.
  - apply Hall. apply lookup_union_Some_l. exact Hk.
  - apply lookup_union_Some_raw in Hk as [Hk | [_ Hk]]; [apply Hall, Hk|].
    apply lookup_singleton_Some in Hk as [<- <-].
    unfold option_error. simpl. apply capstyle_butt.
Qed.

Lemma children_app (ax : Axes) (l1 l2 : log) :
  children ax (l1 ++ l2) = (children ax l1 + children ax l2)%nat.
Proof.
  unfold children, log in *. induction l1 as [|e l1 IH]; [reflexivity|].
  simpl. rewrite !filter_cons.
  destruct (decide (adds_child ax e = true)); simpl; rewrite IH; reflexivity.
Qed.

Lemma children_warnings (ax : Axes) (kw : kwargs) :
  children ax (array_warnings kw) = 0%nat.
Proof.
  unfold array_warnings. destruct (bool_decide _); reflexivity.
Qed.

(** The collection is labelled after everything else is set: the label
    touches no other property. *)
Lemma collection_of_segments segs n c cmap_trunc (kw : kwargs) k :
  segments (collection_of segs n c cmap_trunc kw k) = segs.
Proof. unfold collection_of. destruct (unlabelled _); reflexivity. Qed.

Lemma collection_of_lookup segs n c cmap_trunc (kw : kwargs) k key :
  key <> "label" ->
  props (collection_of segs n c cmap_trunc kw k) !! key =
  props (collection_made segs n c cmap_trunc kw) !! key.
Proof.
  intros Hk. unfold collection_of. destruct (unlabelled _); [|reflexivity].
  unfold set_label. simpl. apply lookup_insert_ne. congruence.
Qed.

Lemma collection_of_array segs n c cmap_trunc (kw : kwargs) k :
  get_array (collection_of segs n c cmap_trunc kw k) = Some (KArr c).
Proof.
  unfold get_array. rewrite collection_of_lookup by discriminate.
  unfold collection_made. simpl.
  rewrite lookup_insert_ne by discriminate. apply lookup_insert_eq.
Qed.

Lemma collection_of_cmap segs n c cmap_trunc (kw : kwargs) k :
  get_cmap (collection_of segs n c cmap_trunc kw k) =
  truncate_colormap (cmap_of kw) (fst cmap_trunc) (snd cmap_trunc) n.
Proof.
  unfold get_cmap. rewrite collection_of_lookup by discriminate.
  unfold collection_made. simpl. rewrite lookup_insert_eq. reflexivity.
Qed.

Lemma colored_line_ok x y c ax cmap_trunc (kw : kwargs) (l : log) segs :
  build_segments x y = Py.Ok segs -> accepted kw = true ->
  colored_line x y c ax cmap_trunc kw l =
  (Py.Ok (collection_of segs (length x) c cmap_trunc kw (children ax l)),
   l ++ array_warnings kw ++
   [AddCollection ax
      (collection_of segs (length x) c cmap_trunc kw (children ax l))]).
Proof.
  intros Hs Hk.
  assert (Hc : get_cmap
                 (set_array
                    {| segments := segs;
                       props := kw ∪ {[ "capstyle" := KStr "butt" ]} |} c)
               = cmap_of kw).
  { unfold get_cmap, cmap_of, set_array. simpl.
    rewrite lookup_insert_ne by discriminate.
    rewrite lookup_with_default by discriminate. reflexivity. }
  assert (Hch : children ax (l ++ array_warnings kw) = children ax l).
  { rewrite children_app, children_warnings. lia. }
  unfold colored_line, bind, when, lift_result, emit, ret, new_LineCollection,
    add_collection.
  rewrite Hs, accepted_with_default, Hk.
  unfold array_warnings in *.
  destruct (bool_decide (is_Some (kw !! "array"))); simpl in *;
    rewrite Hc, ?Hch, ?app_nil_r;
    unfold collection_of, collection_made, set_cmap, set_array; simpl;
    rewrite <- ?app_assoc; reflexivity.
Qed.

Lemma colored_line_raise x y c ax cmap_trunc (kw : kwargs) (l : log) e :
  build_segments x y = Py.Raise e ->
  colored_line x y c ax cmap_trunc kw l = (Py.Raise e, l ++ array_warnings kw).
Proof.
  intros Hs.
  unfold colored_line, bind, when, lift_result, emit, ret, array_warnings.
  destruct (bool_decide (is_Some (kw !! "array"))); simpl; rewrite Hs;
    rewrite ?app_nil_r; reflexivity.
Qed.

Lemma chain_Some mx my x y i s :
  chain mx my x y i = Some s ->
  exists a b c d e f,
    mx !! i = Some a /\ my !! i = Some b /\ x !! i = Some c /\
    y !! i = Some d /\ mx !! S i = Some e /\ my !! S i = Some f /\
    s = [(a, b); (c, d); (e, f)].
Proof.
  unfold chain. intros Hs.
  destruct (mx !! i) as [a|]; [|discriminate].
  destruct (my !! i) as [b|]; [|discriminate].
  destruct (x !! i) as [c|]; [|discriminate].
  destruct (y !! i) as [d|]; [|discriminate].
  destruct (mx !! S i) as [e|]; [|discriminate].
  destruct (my !! S i) as [f|]; [|discriminate].
  simpl in Hs. injection Hs as <-. repeat eexists.
Qed.

(** The call succeeds on arrays of the same positive length, and its
    segments are the chains. *)
Lemma colored_line_chains x y c ax cmap_trunc (kw : kwargs) (l : log) :
  length x = length y -> x <> [] -> accepted kw = true ->
  exists mx my segs,
    midpts x = Py.Ok mx /\ midpts y = Py.Ok my /\
    colored_line x y c ax cmap_trunc kw l =
    (Py.Ok (collection_of segs (length x) c cmap_trunc kw (children ax l)),
     l ++ array_warnings kw ++
     [AddCollection ax
        (collection_of segs (length x) c cmap_trunc kw (children ax l))]) /\
    length segs = length x /\
    forall i, (i < length x)%nat ->
      is_Some (segs !! i) /\ segs !! i = chain mx my x y i.
Proof.
  intros Hlen Hx Hk.
  destruct (build_segments_spec x y Hlen Hx)
    as (mx & my & segs & Hmx & Hmy & Hs & Hl & Hc).
  exists mx, my, segs. repeat split; auto.
  - apply colored_line_ok; assumption.
  - apply Hc; assumption.
  - apply Hc; assumption.
Qed.

End ColoredLine.

(** ** The segments of [colored_line] *)

Section Segments.

Context `{Palette}.


(** The midpoint array of one coordinate. *)
Lemma midpts_spec (a : list float) :
  (2 <= length a)%nat ->
  exists m,
    midpts a = Py.Ok m /\ length m = (length a + 1)%nat /\
    (exists u, a !! 0%nat = Some u /\ m !! 0%nat = Some u) /\
    (exists v, a !! (length a - 1)%nat = Some v /\ m !! length a = Some v) /\
    forall i, (1 <= i < length a)%nat ->
      exists u v, a !! (i - 1)%nat = Some u /\ a !! i = Some v /\
                  m !! i = Some (0.5 * (u + v))%float.
Proof.
  intros HN.
  assert (Ha : a <> []) by (destruct a; simpl in *; [lia | discriminate]).
  destruct (midpts_ok a Ha) as [m Hm]. exists m.
  split; [exact Hm|]. split.
  { rewrite (midpts_length _ _ Hm). lia. }
  split.
  { destruct (lookup_lt_is_Some_2 a 0) as [u Hu]; [lia|].
    exists u. split; [exact Hu|]. rewrite (midpts_first _ _ Hm). exact Hu. }
  split.
  { destruct (lookup_lt_is_Some_2 a (length a - 1)) as [v Hv]; [lia|].
    exists v. split; [exact Hv|]. rewrite (midpts_last _ _ Hm). exact Hv. }
  intros i Hi.
  destruct (lookup_lt_is_Some_2 a (i - 1)) as [u Hu]; [lia|].
  destruct (lookup_lt_is_Some_2 a i) as [v Hv]; [lia|].
  exists u, v. split; [exact Hu|]. split; [exact Hv|].
  destruct i as [|i]; [lia|].
  replace (S i - 1)%nat with i in Hu by lia.
  rewrite (midpts_interior _ _ _ _ _ Hm Hu Hv), float_add_comm. reflexivity.
Qed.

(** C2.  For N >= 2 points the midpoint sequence that [colored_line] computes
    (the arrays [x_midpts] and [y_midpts], read as points) has length N+1,
    starts with the first input point, ends with the last input point, and
    its entry i, for i in 1..N-1, is 0.5 * (point[i-1] + point[i]),
    coordinate by coordinate in binary64 arithmetic.  For N = 2 this is a
    sequence of length 3. *)
Theorem colored_line_midpoints (x y : list float) :
  length x = length y -> (2 <= length x)%nat ->
  exists mx my,
    midpts x = Py.Ok mx /\ midpts y = Py.Ok my /\
    length (points mx my) = (length x + 1)%nat /\
    (exists p, points x y !! 0%nat = Some p /\ points mx my !! 0%nat = Some p) /\
    (exists p, points x y !! (length x - 1)%nat = Some p /\
               points mx my !! length x = Some p) /\
    (forall i, (1 <= i < length x)%nat ->
       exists p q, points x y !! (i - 1)%nat = Some p /\
                   points x y !! i = Some q /\
                   points mx my !! i = Some (midpoint p q)) /\
    (length x = 2%nat -> length (points mx my) = 3%nat).
Proof.
  intros Hlen HN.
  destruct (midpts_spec x HN) as (mx & Hmx & Lx & (x0 & Hx0 & Hmx0) &
                                  (xn & Hxn & Hmxn) & Hxi).
  destruct (midpts_spec y ltac:(lia)) as (my & Hmy & Ly & (y0 & Hy0 & Hmy0) &
                                          (yn & Hyn & Hmyn) & Hyi).
  assert (Lp : length (points mx my) = (length x + 1)%nat).
  { unfold points. rewrite length_combine. lia. }
  exists mx, my. split; [exact Hmx|]. split; [exact Hmy|].
  split; [exact Lp|]. unfold points in *. split; [|split; [|split]].
  - exists (x0, y0). split; apply lookup_combine; assumption.
  - exists (xn, yn). rewrite <- Hlen in *.
    split; apply lookup_combine; assumption.
  - intros i Hi.
    destruct (Hxi i Hi) as (u & v & Hu & Hv & Hm).
    destruct (Hyi i ltac:(lia)) as (u' & v' & Hu' & Hv' & Hm').
    exists (u, u'), (v, v'). unfold midpoint. simpl.
    repeat split; apply lookup_combine; assumption.
  - lia.
Qed.

Lemma lookup_combine_inv {A B} (a : list A) (b : list B) (i : nat) p :
  combine a b !! i = Some p -> a !! i = Some (fst p) /\ b !! i = Some (snd p).
Proof.
  revert b i. induction a as [|a0 a IH]; intros [|b0 b] [|i]; simpl;
    try discriminate; [intros [= <-]; auto | apply IH].
Qed.

(** The midpoint of two points is computed in binary64: it is infinite when
    the sum of two finite coordinates overflows. *)
Example midpoint_overflow :
  midpoint (1e308, 0)%float (1e308, 1)%float = (infinity, 0.5)%float.
Proof. reflexivity. Qed.

(** C10.  For N >= 2 points the sub-segments form one path from the first
    input point to the last: the first sub-segment is the first point
    twice, then its midpoint with the second point; the last sub-segment is
    the midpoint of the last two points, then the last point twice; every
    sub-segment has its input point in the middle, and it ends in the
    midpoint with the next input point, where the next sub-segment starts.
    Every vertex is an input point or the midpoint, as binary64 arithmetic
    computes it, of two consecutive input points. *)
Theorem colored_line_ends x y c ax cmap_trunc (kw : kwargs) (l : log) :
  length x = length y -> (2 <= length x)%nat -> accepted kw = true ->
  exists lc l' p0 p1 pm pn,
    colored_line x y c ax cmap_trunc kw l = (Py.Ok lc, l') /\
    length (segments lc) = length x /\
    points x y !! 0%nat = Some p0 /\ points x y !! 1%nat = Some p1 /\
    points x y !! (length x - 2)%nat = Some pm /\
    points x y !! (length x - 1)%nat = Some pn /\
    segments lc !! 0%nat = Some [p0; p0; midpoint p0 p1] /\
    segments lc !! (length x - 1)%nat = Some [midpoint pm pn; pn; pn] /\
    (forall i p, points x y !! i = Some p ->
       exists a b, segments lc !! i = Some [a; p; b]) /\
    (forall i p q,
       points x y !! i = Some p -> points x y !! S i = Some q ->
       exists a b,
         segments lc !! i = Some [a; p; midpoint p q] /\
         segments lc !! S i = Some [midpoint p q; q; b]) /\
    (forall s v, s ∈ segments lc -> v ∈ s ->
       v ∈ points x y \/
       exists i p q, points x y !! i = Some p /\ points x y !! S i = Some q /\
                     v = midpoint p q).
Proof.
  intros Hlen HN Hk.
  assert (Hx : x <> []) by (destruct x; simpl in *; [lia | discriminate]).
  destruct (colored_line_chains x y c ax cmap_trunc kw l Hlen Hx Hk)
    as (mx & my & segs & Hmx & Hmy & Hcl & Hl & Hc).
  destruct (midpts_spec x HN) as (mx' & Hmx' & Lx & (x0 & Hx0 & Hmx0) &
                                  (xn & Hxn & Hmxn) & Hxi).
  destruct (midpts_spec y ltac:(lia)) as (my' & Hmy' & Ly & (y0 & Hy0 & Hmy0) &
                                          (yn & Hyn & Hmyn) & Hyi).
  assert (mx' = mx) as -> by congruence.
  assert (my' = my) as -> by congruence.
  rewrite <- Hlen in *.
  (* the sub-segment of a point *)
  assert (Hseg : forall i u u', x !! i = Some u -> y !! i = Some u' ->
            exists a b e f,
              mx !! i = Some a /\ my !! i = Some b /\
              mx !! S i = Some e /\ my !! S i = Some f /\
              segs !! i = Some [(a, b); (u, u'); (e, f)]).
  { intros i u u' Hu Hu'.
    assert (Hi : (i < length x)%nat) by (eapply lookup_lt_Some; exact Hu).
    destruct (Hc i Hi) as [[s Hs] Hch]. rewrite Hs in Hch. symmetry in Hch.
    destruct (chain_Some _ _ _ _ _ _ Hch)
      as (a & b & c0 & d & e & f & Ha & Hb & Hc0 & Hd & He & Hf & ->).
    exists a, b, e, f. rewrite Hs. repeat split; try assumption.
    repeat f_equal; congruence. }
  (* the joint between two consecutive points *)
  assert (Hjoin : forall i u v u' v',
            x !! i = Some u -> x !! S i = Some v ->
            y !! i = Some u' -> y !! S i = Some v' ->
            mx !! S i = Some (0.5 * (u + v))%float /\
            my !! S i = Some (0.5 * (u' + v'))%float).
  { intros i u v u' v' Hu Hv Hu' Hv'.
    assert (Hi : (S i < length x)%nat) by (eapply lookup_lt_Some; exact Hv).
    destruct (Hxi (S i) ltac:(lia)) as (a & b & Ha & Hb & Hm).
    destruct (Hyi (S i) ltac:(lia)) as (a' & b' & Ha' & Hb' & Hm').
    replace (S i - 1)%nat with i in Ha, Ha' by lia.
    split; congruence. }
  destruct (lookup_lt_is_Some_2 x 1) as [x1 Hx1]; [lia|].
  destruct (lookup_lt_is_Some_2 y 1) as [y1 Hy1]; [lia|].
  destruct (lookup_lt_is_Some_2 x (length x - 2)) as [xm Hxm]; [lia|].
  destruct (lookup_lt_is_Some_2 y (length x - 2)) as [ym Hym]; [lia|].
  (* every vertex of a chain is a point or a midpoint *)
  assert (Hmid : forall i a b, (i <= length x)%nat ->
            mx !! i = Some a -> my !! i = Some b ->
            (a, b) ∈ points x y \/
            exists j p q, points x y !! j = Some p /\
                          points x y !! S j = Some q /\ (a, b) = midpoint p q).
  { intros i a b Hi Ha Hb.
    destruct (decide (i = 0%nat)) as [->|Hi0].
    { left. apply list_elem_of_lookup. exists 0%nat.
      apply lookup_combine; congruence. }
    destruct (decide (i = length x)) as [->|Hin].
    { left. apply list_elem_of_lookup. exists (length x - 1)%nat.
      apply lookup_combine; congruence. }
    right. destruct (Hxi i ltac:(lia)) as (u & v & Hu & Hv & Hm).
    destruct (Hyi i ltac:(lia)) as (u' & v' & Hu' & Hv' & Hm').
    exists (i - 1)%nat, (u, u'), (v, v').
    replace (S (i - 1)) with i by lia. unfold midpoint. simpl.
    split; [apply lookup_combine; assumption|].
    split; [apply lookup_combine; assumption|]. congruence. }
  eexists _, _, (x0, y0), (x1, y1), (xm, ym), (xn, yn).
  split; [exact Hcl|]. rewrite collection_of_segments. unfold points.
  split; [exact Hl|].
  split; [apply lookup_combine; assumption|].
  split; [apply lookup_combine; assumption|].
  split; [apply lookup_combine; assumption|].
  split; [apply lookup_combine; assumption|].
  split; [|split; [|split; [|split]]].
  - destruct (Hseg 0%nat x0 y0 Hx0 Hy0) as (a & b & e & f & Ha & Hb & He & Hf & Hs).
    destruct (Hjoin 0%nat x0 x1 y0 y1 Hx0 Hx1 Hy0 Hy1) as [He' Hf'].
    rewrite Hs. unfold midpoint. simpl. repeat f_equal; congruence.
  - destruct (Hseg (length x - 1)%nat xn yn Hxn Hyn)
      as (a & b & e & f & Ha & Hb & He & Hf & Hs).
    replace (S (length x - 1)) with (length x) in He, Hf by lia.
    destruct (Hjoin (length x - 2)%nat xm xn ym yn) as [Ha' Hb'];
      try assumption;
      try (replace (S (length x - 2)) with (length x - 1)%nat by lia;
           assumption).
    replace (S (length x - 2)) with (length x - 1)%nat in Ha', Hb' by lia.
    rewrite Hs. unfold midpoint. simpl. repeat f_equal; congruence.
  - intros i [u u'] Hp. apply lookup_combine_inv in Hp as [Hu Hu'].
    destruct (Hseg i u u' Hu Hu') as (a & b & e & f & _ & _ & _ & _ & Hs).
    exists (a, b), (e, f). exact Hs.
  - intros i [u u'] [v v'] Hp Hq.
    apply lookup_combine_inv in Hp as [Hu Hu'].
    apply lookup_combine_inv in Hq as [Hv Hv']. simpl in *.
    destruct (Hseg i u u' Hu Hu') as (a & b & e & f & _ & _ & He & Hf & Hs).
    destruct (Hseg (S i) v v' Hv Hv')
      as (a' & b' & e' & f' & Ha' & Hb' & _ & _ & Hs').
    destruct (Hjoin i u v u' v' Hu Hv Hu' Hv') as [Hm Hm'].
    exists (a, b), (e', f'). rewrite Hs, Hs'. unfold midpoint. simpl.
    split; repeat f_equal; congruence.
  - intros s v Hs Hv.
    apply list_elem_of_lookup in Hs as [i Hs].
    assert (Hi : (i < length x)%nat).
    { rewrite <- Hl. eapply lookup_lt_Some. exact Hs. }
    destruct (Hc i Hi) as [_ Hch]. rewrite Hs in Hch. symmetry in Hch.
    destruct (chain_Some _ _ _ _ _ _ Hch)
      as (a & b & c0 & d & e & f & Ha & Hb & Hc0 & Hd & He & Hf & ->).
    apply elem_of_cons in Hv as [->|Hv]; [apply (Hmid i); auto; lia|].
    apply elem_of_cons in Hv as [->|Hv].
    { left. apply list_elem_of_lookup. exists i. apply lookup_combine; auto. }
    apply elem_of_cons in Hv as [->|Hv]; [apply (Hmid (S i)); auto; lia|].
    apply elem_of_nil in Hv. contradiction.
Qed.

End Segments.


Lemma colored_line_midpoints_witness :
  length [0; 2]%float = length [1; 5]%float /\
  (2 <= length [0; 2]%float)%nat /\
  exists mx my,
    midpts [0; 2]%float = Py.Ok mx /\ midpts [1; 5]%float = Py.Ok my /\
    length (points mx my) = 3%nat /\
    points mx my !! 0%nat = Some (0, 1)%float /\
    points mx my !! 2%nat = Some (2, 5)%float.
Proof.
  assert (Hlen : length [0; 2]%float = length [1; 5]%float) by reflexivity.
  assert (HN : (2 <= length [0; 2]%float)%nat) by (simpl; lia).
  split; [exact Hlen|]. split; [exact HN|].
  destruct (colored_line_midpoints [0; 2]%float [1; 5]%float Hlen HN)
    as (mx & my & Hmx & Hmy & _ & (p0 & Hp0 & Hm0) & (pn & Hpn & Hmn) & _ & H3).
  exists mx, my. split; [exact Hmx|]. split; [exact Hmy|].
  split; [apply H3; reflexivity|].
  injection Hp0 as <-. injection Hpn as <-. split; [exact Hm0 | exact Hmn].
Defined.

Lemma colored_line_ends_witness :
  length (in_x scenario) = length (in_xder scenario) /\
  (2 <= length (in_x scenario))%nat /\
  exists lc l',
    @colored_line grey (in_x scenario) (in_xder scenario) (in_t scenario)
      (axes 0 0) default_cmap_trunc ∅ [] = (Py.Ok lc, l') /\
    segments lc !! 0%nat = Some [(0, 1); (0, 1); (0.5, 0.5)]%float /\
    segments lc !! 4%nat = Some [(0.5, 0.5); (0, 1); (0, 1)]%float /\
    exists a b,
      segments lc !! 1%nat = Some [a; (1, 0); (1.5, -0.5)]%float /\
      segments lc !! 2%nat = Some [(1.5, -0.5); (2, -1); b]%float.
Proof.
  assert (Hlen : length (in_x scenario) = length (in_xder scenario))
    by reflexivity.
  assert (HN : (2 <= length (in_x scenario))%nat) by (simpl; lia).
  assert (Hk : @accepted grey ∅ = true) by reflexivity.
  split; [exact Hlen|]. split; [exact HN|].
  destruct (@colored_line_ends grey (in_x scenario) (in_xder scenario)
              (in_t scenario) (axes 0 0) default_cmap_trunc ∅ []
              Hlen HN Hk)
    as (lc & l' & p0 & p1 & pm & pn & Hcl & _ & Hp0 & Hp1 & Hpm & Hpn &
        H0 & Hn & _ & Hadj & _).
  injection Hp0 as <-. injection Hp1 as <-.
  injection Hpm as <-. injection Hpn as <-.
  exists lc, l'. split; [exact Hcl|]. split; [exact H0|]. split; [exact Hn|].
  exact (Hadj 1%nat (1, 0)%float (2, -1)%float eq_refl eq_refl).
Defined.

(** ** The monad on a state *)

Section Monad.

Lemma bind_ok {S A B} (m : M S A) (k : A -> M S B) s a s' :
  m s = (Py.Ok a, s') -> bind m k s = k a s'.
Proof. unfold bind. intros ->. reflexivity. Qed.


Lemma keeps_ret {A} (a : A) : keeps_inputs (ret a).
Proof. intros s. reflexivity. Qed.

Lemma keeps_lift_result {A} (r : Py.result A) : keeps_inputs (lift_result r).
Proof. intros s. reflexivity. Qed.

Lemma keeps_get_self : keeps_inputs get_self.
Proof. intros s. reflexivity. Qed.

Lemma keeps_on_plt {A} (m : M log A) : keeps_inputs (on_plt m).
Proof. intros s. unfold on_plt. destruct (m (plt s)). reflexivity. Qed.

Lemma keeps_bind {A B} (m : M state A) (k : A -> M state B) :
  keeps_inputs m -> (forall a, keeps_inputs (k a)) -> keeps_inputs (bind m k).
Proof.
  intros Hm Hk s. unfold bind. specialize (Hm s).
  destruct (m s) as [[a|e] s']; simpl in *; [|exact Hm].
  rewrite (Hk a s'). exact Hm.
Qed.

Lemma keeps_when (b : bool) (m : M state unit) :
  keeps_inputs m -> keeps_inputs (when b m).
Proof. intros Hm. destruct b; [exact Hm | apply keeps_ret]. Qed.

Lemma keeps_set_captions (c : string * string) : keeps_inputs (set_captions c).
Proof. intros s. reflexivity. Qed.

End Monad.

Create HintDb frame.
#[local] Hint Resolve keeps_ret keeps_lift_result keeps_get_self keeps_on_plt
  keeps_when keeps_set_captions : frame.

Ltac frame_step :=
  lazymatch goal with
  | |- keeps_inputs (bind _ _) => apply keeps_bind; [|intros]
  | |- keeps_inputs (let '(_, _) := ?p in _) => destruct p
  | |- keeps_inputs (match ?o with Some _ => _ | None => _ end) => destruct o
  | |- keeps_inputs (if ?b then _ else _) => destruct b
  | |- _ => auto with frame
  end.

Section Frame.

Context `{Palette} {backend : Backend}.

Lemma keeps_generate_captions : keeps_inputs generate_captions.
Proof. unfold generate_captions. repeat frame_step. Qed.

Lemma keeps_phase show save : keeps_inputs (phase show save).
Proof. unfold phase. repeat frame_step. Qed.

Lemma keeps_signal show save : keeps_inputs (signal show save).
Proof. unfold signal. repeat frame_step. Qed.

Lemma keeps_show_plots : keeps_inputs show_plots.
Proof. unfold show_plots. auto with frame. Qed.

End Frame.

(** ** Computations that only append to the log *)

Section Quiet.

Lemma figures_app (l1 l2 : log) :
  figures (l1 ++ l2) = (figures l1 + figures l2)%nat.
Proof.
  unfold figures, log in *. induction l1 as [|e l1 IH]; [reflexivity|].
  simpl. rewrite !filter_cons.
  destruct (decide (is_subplots e = true)); simpl; rewrite IH; reflexivity.
Qed.

Lemma appends_ret {A} (a : A) : appends_no_figure (ret a).
Proof. intros l. exists []. rewrite app_nil_r. auto. Qed.

Lemma appends_lift_result {A} (r : Py.result A) :
  appends_no_figure (lift_result r).
Proof. intros l. exists []. rewrite app_nil_r. auto. Qed.

Lemma appends_emit (e : event) :
  is_subplots e = false -> appends_no_figure (emit e).
Proof.
  intros He l. exists [e]. split; [reflexivity|].
  unfold figures, log in *. rewrite filter_cons.
  destruct (decide (is_subplots e = true)) as [Ht|_];
    [congruence | reflexivity].
Qed.

Lemma appends_bind {A B} (m : M log A) (k : A -> M log B) :
  appends_no_figure m -> (forall a, appends_no_figure (k a)) ->
  appends_no_figure (bind m k).
Proof.
  intros Hm Hk l. unfold bind. destruct (Hm l) as (t1 & H1 & F1).
  destruct (m l) as [[a|e] l']; simpl in *; [|eauto].
  destruct (Hk a l') as (t2 & H2 & F2).
  exists (t1 ++ t2). rewrite H2, H1, app_assoc, figures_app, F1, F2. auto.
Qed.

Lemma appends_when (b : bool) (m : M log unit) :
  appends_no_figure m -> appends_no_figure (when b m).
Proof. intros Hm. destruct b; [exact Hm | apply appends_ret]. Qed.

Lemma appends_plot ax xs ys : appends_no_figure (plot ax xs ys).
Proof.
  unfold plot. destruct (length xs =? length ys)%nat.
  - apply appends_emit. reflexivity.
  - apply appends_lift_result.
Qed.

Lemma appends_add_collection ax lc : appends_no_figure (add_collection ax lc).
Proof. intros l. unfold add_collection. eexists. split; reflexivity. Qed.

Lemma appends_set_xlim ax lo hi : appends_no_figure (set_xlim ax lo hi).
Proof.
  unfold set_xlim. destruct (isfinite lo && isfinite hi).
  - apply appends_emit. reflexivity.
  - apply appends_lift_result.
Qed.

Lemma appends_set_ylim ax lo hi : appends_no_figure (set_ylim ax lo hi).
Proof.
  unfold set_ylim. destruct (isfinite lo && isfinite hi).
  - apply appends_emit. reflexivity.
  - apply appends_lift_result.
Qed.

Lemma appends_savefig `{Backend} path : appends_no_figure (savefig path).
Proof.
  unfold savefig. destruct (savefig_error path).
  - apply appends_lift_result.
  - apply appends_emit. reflexivity.
Qed.

Lemma appends_colored_line `{Palette} x y c ax cmap_trunc (kw : kwargs) :
  appends_no_figure (colored_line x y c ax cmap_trunc kw).
Proof.
  unfold colored_line.
  apply appends_bind; [apply appends_when, appends_emit; reflexivity|].
  intros _. apply appends_bind; [apply appends_lift_result|]. intros segs.
  apply appends_bind; [apply appends_lift_result|]. intros lc.
  apply appends_add_collection.
Qed.

Lemma quiet_ret {A} (a : A) : quiet (ret a).
Proof. intros s. split; [reflexivity|]. exists []. rewrite app_nil_r. auto. Qed.

Lemma quiet_lift_result {A} (r : Py.result A) : quiet (lift_result r).
Proof. intros s. split; [reflexivity|]. exists []. rewrite app_nil_r. auto. Qed.

Lemma quiet_get_self : quiet get_self.
Proof. intros s. split; [reflexivity|]. exists []. rewrite app_nil_r. auto. Qed.

Lemma quiet_on_plt {A} (m : M log A) : appends_no_figure m -> quiet (on_plt m).
Proof.
  intros Hm s. unfold on_plt. destruct (Hm (plt s)) as (tail & Ht & Hf).
  destruct (m (plt s)) as [r l']. simpl in *. split; [reflexivity|]. eauto.
Qed.

Lemma quiet_bind {A B} (m : M state A) (k : A -> M state B) :
  quiet m -> (forall a, quiet (k a)) -> quiet (bind m k).
Proof.
  intros Hm Hk s. unfold bind. destruct (Hm s) as (S1 & t1 & H1 & F1).
  destruct (m s) as [[a|e] s']; simpl in *; [|eauto].
  destruct (Hk a s') as (S2 & t2 & H2 & F2).
  split; [congruence|].
  exists (t1 ++ t2). rewrite H2, H1, app_assoc, figures_app, F1, F2. auto.
Qed.

Lemma quiet_when (b : bool) (m : M state unit) : quiet m -> quiet (when b m).
Proof. intros Hm. destruct b; [exact Hm | apply quiet_ret]. Qed.

(** A method that opens a figure with [n] axes and is quiet afterwards. *)
Lemma opens_one {A} (n : nat) (k : VdP_Plotter -> list Axes -> M state A) s :
  (forall p axs, quiet (k p axs)) ->
  self (snd (bind get_self (fun p => bind (on_plt (subplots n)) (k p)) s))
  = self s /\
  exists tail,
    plt (snd (bind get_self (fun p => bind (on_plt (subplots n)) (k p)) s))
    = plt s ++ Subplots n :: tail /\ figures tail = 0%nat.
Proof.
  intros Hk.
  assert (E : bind get_self (fun p => bind (on_plt (subplots n)) (k p)) s =
              k (self s) (map (axes (figures (plt s))) (seq 0 n))
                {| self := self s; plt := plt s ++ [Subplots n] |})
    by reflexivity.
  rewrite E.
  destruct (Hk (self s) (map (axes (figures (plt s))) (seq 0 n))
              {| self := self s; plt := plt s ++ [Subplots n] |})
    as (Hs & tail & Ht & Hf).
  simpl in *. split; [exact Hs|].
  exists tail. rewrite Ht, <- app_assoc. auto.
Qed.

(** After a step that returned, a quiet rest keeps the object and the log
    of that step. *)
Lemma quiet_rest {A} (m : M state A) (s : state) :
  quiet m ->
  self (snd (m s)) = self s /\
  exists tail, plt (snd (m s)) = plt s ++ tail.
Proof.
  intros Hm. destruct (Hm s) as (Hs & tail & Ht & _). eauto.
Qed.

End Quiet.

Create HintDb quiet.
#[local] Hint Resolve appends_ret appends_lift_result appends_plot
  appends_colored_line appends_when appends_set_xlim appends_set_ylim
  appends_savefig quiet_ret quiet_lift_result quiet_get_self
  quiet_on_plt quiet_when : quiet.
#[local] Hint Extern 1 (appends_no_figure (emit _)) =>
  (apply appends_emit; reflexivity) : quiet.

Ltac quiet_step :=
  lazymatch goal with
  | |- quiet (bind _ _) => apply quiet_bind; [|intros]
  | |- quiet (match ?o with Some _ => _ | None => _ end) => destruct o
  | |- _ => auto with quiet
  end.

(** ** Captions *)

Section Captions.

Lemma np_round_ok (v : Py.num) :
  Py.np_roundable v = true -> Py.np_round v = Py.Ok (Py.np_round2 v).
Proof. unfold Py.np_round. intros ->. reflexivity. Qed.

Lemma np_round_raise (v : Py.num) :
  Py.np_roundable v = false -> Py.np_round v = Py.Raise Py.TypeError.
Proof. unfold Py.np_round. intros ->. reflexivity. Qed.

(** The conditions of [captions_ready], one by one. *)
Lemma captions_ready_inv (p : VdP_Plotter) :
  captions_ready p = true ->
  is_Some (params p !! "mu") /\ Py.np_roundable (T p) = true /\
  Py.np_roundable (dt p) = true /\ Py.is_ok (Py.int (n_eval p)) = true /\
  match forcing_params p with
  | None => True
  | Some fp =>
      exists a, fp !! "A" = Some a /\
        (Py.ne_int a 0 = true ->
         exists omega, fp !! "omega" = Some omega /\
                       Py.np_roundable omega = true)
  end.
Proof.
  unfold captions_ready. intros Hr.
  apply andb_prop in Hr as [Hr Hf]. apply andb_prop in Hr as [Hr Hq].
  apply andb_prop in Hr as [Hr Hdt]. apply andb_prop in Hr as [Hmu HT].
  apply bool_decide_eq_true in Hmu.
  repeat (split; [assumption|]).
  destruct (forcing_params p) as [fp|]; [|exact I].
  destruct (fp !! "A") as [a|]; [|discriminate].
  exists a. split; [reflexivity|]. intros Hne. rewrite Hne in Hf.
  destruct (fp !! "omega") as [omega|]; [|discriminate]. eauto.
Qed.

Lemma forcing_captions_ready (p : VdP_Plotter) :
  captions_ready p = true ->
  forcing_captions (forcing_params p) =
  Py.Ok (if forced p then "forced " else "", forcing_part p).
Proof.
  intros Hr. destruct (captions_ready_inv p Hr) as (_ & _ & _ & _ & Hf).
  unfold forcing_captions, forced, forcing_part, Py.getitem, Py.and_then.
  destruct (forcing_params p) as [fp|]; [|reflexivity].
  destruct Hf as (a & HA & Hom). rewrite HA.
  destruct (Py.ne_int a 0).
  - destruct (Hom eq_refl) as (omega & Ho & Hro).
    rewrite Ho, (np_round_ok _ Hro). reflexivity.
  - destruct (fp !! "omega"); reflexivity.
Qed.

(** On ready inputs [generate_captions] returns, leaves the state as it is,
    and gives the title and the subtitle of the templates. *)
Lemma generate_captions_ready (s : state) :
  captions_ready (self s) = true ->
  exists mu q,
    params (self s) !! "mu" = Some mu /\ Py.int (n_eval (self s)) = Py.Ok q /\
    generate_captions s =
    (Py.Ok (title_of (self s),
            subtitle_with (self s) mu q (forcing_part (self s))), s).
Proof.
  intros Hr. pose proof (forcing_captions_ready _ Hr) as Hf.
  destruct (captions_ready_inv _ Hr) as ([mu Hmu] & HT & Hdt & Hq & _).
  destruct (Py.int (n_eval (self s))) as [q|] eqn:Eq; [|discriminate].
  exists mu, q. split; [exact Hmu|]. split; [reflexivity|].
  unfold generate_captions, bind, get_self, lift_result, ret, Py.getitem.
  rewrite Hf, Hmu, (np_round_ok _ HT), (np_round_ok _ Hdt), Eq.
  unfold title_of, subtitle_with.
  destruct (Py.eq_int (alpha (self s)) 1); reflexivity.
Qed.




Lemma append_assoc (a b c : string) : (a +:+ b) +:+ c = a +:+ (b +:+ c).
Proof.
  induction a as [|ch a IH]; [reflexivity|].
  change (String ch ((a +:+ b) +:+ c) = String ch (a +:+ (b +:+ c))).
  f_equal. exact IH.
Qed.

Lemma prefix_app (n b : string) : String.prefix n (n +:+ b) = true.
Proof.
  induction n as [|c n IH]; simpl; [destruct b; reflexivity|].
  destruct (ascii_dec c c); [exact IH | contradiction].
Qed.

Lemma contains_here (n h : string) :
  String.prefix n h = true -> Py.contains n h = true.
Proof. intros Hp. destruct h; cbn [Py.contains]; rewrite Hp; reflexivity. Qed.

Lemma contains_app_r (n a h : string) :
  Py.contains n h = true -> Py.contains n (a +:+ h) = true.
Proof.
  intros Hh. induction a as [|c a IH]; [exact Hh|].
  change (Py.contains n (String c a +:+ h))
    with (String.prefix n (String c (a +:+ h)) || Py.contains n (a +:+ h)).
  rewrite IH. apply orb_true_r.
Qed.

(** C3.  On inputs from which captions can be derived, the constructor
    stores the title "[fractionally ]dampened [forced ]VdP Oscillator":
    "fractionally " is there exactly when the argument alpha is not 1 and
    "forced " exactly when the argument forcing_params is given with an
    amplitude A that is not 0, and [generate_captions] on the object gives
    that title again.  With alpha = 1 and no forcing the title is
    "dampened VdP Oscillator"; with alpha = 0.5 and amplitude 0 it contains
    "fractionally" and not "forced"; with an amplitude that is not 0 it is
    "[fractionally ]dampened forced VdP Oscillator". *)
Theorem generated_title (a : inputs) (l : log) :
  captions_ready (blank a) = true ->
  exists p,
    __init__ a l = (Py.Ok p, l) /\
    title p =
      (if Py.eq_int (in_alpha a) 1 then "" else "fractionally ") +:+
      "dampened " +:+
      match in_forcing_params a with
      | Some fp =>
          match fp !! "A" with
          | Some amplitude => if Py.ne_int amplitude 0 then "forced " else ""
          | None => ""
          end
      | None => ""
      end +:+ "VdP Oscillator" /\
    Py.contains "fractionally" (title p) = Py.ne_int (in_alpha a) 1 /\
    Py.contains "forced" (title p) =
      match in_forcing_params a with
      | Some fp =>
          match fp !! "A" with
          | Some amplitude => Py.ne_int amplitude 0
          | None => false
          end
      | None => false
      end /\
    fst (generate_captions {| self := p; plt := l |}) =
      Py.Ok (title p, param_desciption p) /\
    (Py.eq_int (in_alpha a) 1 = true -> in_forcing_params a = None ->
     title p = "dampened VdP Oscillator") /\
    (forall fp amplitude,
       in_alpha a = Py.PFloat 0.5 -> in_forcing_params a = Some fp ->
       fp !! "A" = Some amplitude -> Py.eq_int amplitude 0 = true ->
       title p = "fractionally dampened VdP Oscillator" /\
       Py.contains "fractionally" (title p) = true /\
       Py.contains "forced" (title p) = false) /\
    (forall fp amplitude,
       in_forcing_params a = Some fp -> fp !! "A" = Some amplitude ->
       Py.ne_int amplitude 0 = true ->
       title p =
         (if Py.eq_int (in_alpha a) 1 then "" else "fractionally ") +:+
         "dampened forced VdP Oscillator" /\
       Py.contains "forced" (title p) = true).
Proof.
  intros Hr.
  destruct (generate_captions_ready {| self := blank a; plt := l |} Hr)
    as (mu & q & Hmu & Hq & Hg).
  unfold __init__. rewrite (bind_ok _ _ _ _ _ Hg). simpl.
  eexists. split; [reflexivity|]. simpl.
  assert (Ht : title_of (blank a) =
               (if Py.eq_int (in_alpha a) 1 then "" else "fractionally ") +:+
               "dampened " +:+
               match in_forcing_params a with
               | Some fp =>
                   match fp !! "A" with
                   | Some amplitude =>
                       if Py.ne_int amplitude 0 then "forced " else ""
                   | None => ""
                   end
               | None => ""
               end +:+ "VdP Oscillator").
  { unfold title_of, forced. simpl.
    destruct (in_forcing_params a) as [fp|]; [|reflexivity].
    destruct (fp !! "A") as [amplitude|]; [|reflexivity].
    destruct (Py.ne_int amplitude 0); reflexivity. }
  split; [exact Ht|]. rewrite Ht.
  split; [|split; [|split; [|split; [|split]]]].
  - unfold Py.ne_int. destruct (Py.eq_int (in_alpha a) 1);
      destruct (in_forcing_params a) as [fp|];
      try destruct (fp !! "A") as [amplitude|];
      try destruct (negb (Py.eq_int amplitude 0)); reflexivity.
  - destruct (Py.eq_int (in_alpha a) 1);
      destruct (in_forcing_params a) as [fp|];
      try destruct (fp !! "A") as [amplitude|];
      try destruct (Py.ne_int amplitude 0); reflexivity.
  - rewrite <- Ht.
    set (p := {| x := in_x a; title := title_of (blank a) |}).
    assert (Hp : captions_ready p = true) by exact Hr.
    destruct (generate_captions_ready {| self := p; plt := l |} Hp)
      as (mu' & q' & Hmu' & Hq' & Hg').
    rewrite Hg'. simpl in *.
    assert (mu' = mu) as -> by congruence.
    assert (q' = q) as -> by congruence. reflexivity.
  - intros Ha Hf. rewrite Ha, Hf. reflexivity.
  - intros fp amplitude Ha Hf HA H0. rewrite Ha, Hf, HA.
    unfold Py.ne_int. rewrite H0. repeat split; reflexivity.
  - intros fp amplitude Hf HA Hne. rewrite Hf, HA, Hne.
    destruct (Py.eq_int (in_alpha a) 1); split; reflexivity.
Qed.

Lemma generated_title_witness :
  captions_ready (blank scenario) = true /\
  captions_ready
    (blank (scenario_with (Py.PFloat 0.5) (Py.PInt 2) (Py.PFloat 1))) = true /\
  (exists p, __init__ scenario [] = (Py.Ok p, []) /\
             title p = "dampened VdP Oscillator") /\
  (exists p,
     __init__ (scenario_with (Py.PFloat 0.5) (Py.PInt 2) (Py.PFloat 1)) []
       = (Py.Ok p, []) /\
     title p = "fractionally dampened forced VdP Oscillator" /\
     Py.contains "forced" (title p) = true).
Proof.
  assert (Hr : captions_ready (blank scenario) = true) by reflexivity.
  assert (Hr' : captions_ready
                  (blank (scenario_with (Py.PFloat 0.5) (Py.PInt 2)
                            (Py.PFloat 1))) = true) by reflexivity.
  split; [exact Hr|]. split; [exact Hr'|]. split.
  - destruct (generated_title scenario [] Hr)
      as (p & Hi & _ & _ & _ & _ & Ht & _).
    exists p. split; [exact Hi|]. apply Ht; reflexivity.
  - destruct (generated_title
                (scenario_with (Py.PFloat 0.5) (Py.PInt 2) (Py.PFloat 1)) []
                Hr')
      as (p & Hi & _ & _ & _ & _ & _ & _ & Hforced).
    exists p. split; [exact Hi|].
    exact (Hforced {[ "A" := Py.PInt 2; "omega" := Py.PFloat 1 ]} (Py.PInt 2)
             eq_refl eq_refl eq_refl).
Defined.

(** The forcing part of the subtitle, by cases. *)
Lemma forcing_part_forced (p : VdP_Plotter) :
  captions_ready p = true -> forced p = true ->
  exists fp amplitude omega,
    forcing_params p = Some fp /\ fp !! "A" = Some amplitude /\
    fp !! "omega" = Some omega /\
    forcing_part p =
      ", A=" +:+ Py.str amplitude +:+ ", \omega=" +:+
      Py.str (Py.np_round2 omega).
Proof.
  intros Hr Hf. destruct (captions_ready_inv p Hr) as (_ & _ & _ & _ & Hfp).
  unfold forced, forcing_part in *.
  destruct (forcing_params p) as [fp|]; [|discriminate].
  destruct Hfp as (amplitude & HA & Hom). rewrite HA in *.
  destruct (Hom Hf) as (omega & Ho & _).
  exists fp, amplitude, omega. rewrite Ho, Hf. repeat split; auto.
Qed.

Lemma forcing_part_unforced (p : VdP_Plotter) :
  forced p = false -> forcing_part p = "".
Proof.
  unfold forced, forcing_part. intros Hf.
  destruct (forcing_params p) as [fp|]; [|reflexivity].
  destruct (fp !! "A") as [amplitude|]; [|reflexivity].
  rewrite Hf. destruct (fp !! "omega"); reflexivity.
Qed.

(** C5, as the program has it.  On inputs from which captions can be
    derived the stored subtitle is
    "$[\alpha=.., ]\mu=..<forcing part>. T = .., h=.., q = ..$".  When
    forcing parameters are present with amplitude A != 0 the forcing part is
    ", A=" followed by the amplitude as [str] prints it (not rounded) and
    ", \omega=" followed by the angular frequency rounded to two decimals;
    amplitude 2 and omega 1.0 give a subtitle containing ", A=2" and
    "\omega=1.0".  When forcing parameters are absent, or present with
    A = 0, the forcing part is empty. *)
Theorem generated_subtitle (a : inputs) (l : log) :
  captions_ready (blank a) = true ->
  exists p mu q mid,
    __init__ a l = (Py.Ok p, l) /\
    in_params a !! "mu" = Some mu /\ Py.int (in_n_eval a) = Py.Ok q /\
    param_desciption p = subtitle_with (blank a) mu q mid /\
    (forced (blank a) = true ->
     exists fp amplitude omega,
       in_forcing_params a = Some fp /\ fp !! "A" = Some amplitude /\
       fp !! "omega" = Some omega /\
       mid = ", A=" +:+ Py.str amplitude +:+ ", \omega=" +:+
             Py.str (Py.np_round2 omega)) /\
    (forced (blank a) = false -> mid = "") /\
    (forall fp amplitude,
       in_forcing_params a = Some fp -> fp !! "A" = Some amplitude ->
       amplitude = Py.PInt 2 \/ amplitude = Py.PFloat 2 ->
       fp !! "omega" = Some (Py.PFloat 1) ->
       Py.contains ", A=2" (param_desciption p) = true /\
       Py.contains "\omega=1.0" (param_desciption p) = true).
Proof.
  intros Hr.
  destruct (generate_captions_ready {| self := blank a; plt := l |} Hr)
    as (mu & q & Hmu & Hq & Hg).
  unfold __init__. rewrite (bind_ok _ _ _ _ _ Hg). simpl.
  eexists _, mu, q, (forcing_part (blank a)).
  split; [reflexivity|]. split; [exact Hmu|]. split; [exact Hq|].
  split; [reflexivity|]. split; [|split].
  - intros Hf. apply (forcing_part_forced _ Hr Hf).
  - apply forcing_part_unforced.
  - intros fp amplitude Hfp HA H2 Ho. simpl.
    assert (Hm : exists rest,
               forcing_part (blank a) = ", A=2" +:+ rest +:+ ", \omega=1.0").
    { unfold forcing_part. simpl. rewrite Hfp, HA, Ho.
      destruct H2 as [-> | ->]; [exists "" | exists ".0"]; reflexivity. }
    destruct Hm as [rest Hm]. unfold subtitle_with.
    rewrite Hm, !append_assoc. split.
    + do 4 apply contains_app_r. apply contains_here, prefix_app.
    + do 6 apply contains_app_r. reflexivity.
Qed.

Lemma generated_subtitle_witness :
  captions_ready (blank (scenario_with (Py.PInt 1) (Py.PInt 2) (Py.PFloat 1)))
    = true /\
  exists p,
    __init__ (scenario_with (Py.PInt 1) (Py.PInt 2) (Py.PFloat 1)) []
      = (Py.Ok p, []) /\
    Py.contains ", A=2" (param_desciption p) = true /\
    Py.contains "\omega=1.0" (param_desciption p) = true.
Proof.
  split; [reflexivity|].
  destruct (generated_subtitle
              (scenario_with (Py.PInt 1) (Py.PInt 2) (Py.PFloat 1)) [] eq_refl)
    as (p & mu & q & mid & Hi & _ & _ & _ & _ & _ & Hex).
  exists p. split; [exact Hi|].
  apply (Hex {[ "A" := Py.PInt 2; "omega" := Py.PFloat 1 ]} (Py.PInt 2));
    auto; reflexivity.
Defined.

(** C5 as stated fails on the amplitude: with A = 0.123 the subtitle prints
    "A=0.123", whereas the amplitude rounded to two decimals prints as
    "0.12". *)
Lemma subtitle_amplitude_not_rounded :
  exists p,
    __init__ (scenario_with (Py.PInt 1) (Py.PFloat 0.123) (Py.PFloat 1)) []
      = (Py.Ok p, []) /\
    param_desciption p = "$\mu=1, A=0.123, \omega=1.0. T = 4, h=0.01, q = 400$" /\
    Py.str (Py.np_round2 (Py.PFloat 0.123)) = "0.12" /\
    Py.contains (", A=" +:+ Py.str (Py.np_round2 (Py.PFloat 0.123)) +:+ ",")
      (param_desciption p) = false.
Proof.
  eexists. split; [vm_compute; reflexivity|]. vm_compute. auto.
Qed.

End Captions.

(** ** The phase portrait *)

Section Phase.

Context `{Palette} {backend : Backend}.

Lemma min_nonempty (a : list float) v : Py.min a = Py.Ok v -> a <> [].
Proof. destruct a; [discriminate | discriminate]. Qed.

Lemma phase_kwargs_accepted p : accepted (phase_kwargs p) = true.
Proof.
  unfold accepted. apply andb_true_intro. split.
  - unfold cmap_ok, phase_kwargs.
    rewrite lookup_insert_eq. apply magma_r_registered.
  - apply bool_decide_eq_true. intros k v Hk. unfold phase_kwargs in Hk.
    apply lookup_insert_Some in Hk as [[<- <-] | [_ Hk]]; [reflexivity|].
    apply lookup_insert_Some in Hk as [[<- <-] | [_ Hk]];
      [apply label_taken|].
    apply lookup_singleton_Some in Hk as [<- <-]. apply linewidth_taken.
Qed.

Lemma phase_kwargs_labelled p segs :
  unlabelled (phase_collection p segs) = false.
Proof.
  unfold unlabelled, phase_collection, collection_made. cbn [props].
  rewrite !lookup_insert_ne by discriminate.
  rewrite lookup_with_default by discriminate.
  unfold phase_kwargs. rewrite lookup_insert_ne by discriminate.
  rewrite lookup_insert_eq. reflexivity.
Qed.

Lemma phase_collection_of p segs k :
  collection_of segs (length (x p)) (t p) (0.15, 0.75)%float (phase_kwargs p) k
  = phase_collection p segs.
Proof.
  unfold collection_of.
  change (collection_made segs (length (x p)) (t p) (0.15, 0.75)%float
            (phase_kwargs p)) with (phase_collection p segs).
  rewrite phase_kwargs_labelled. reflexivity.
Qed.

Lemma phase_kwargs_no_array p : array_warnings (phase_kwargs p) = [].
Proof. reflexivity. Qed.

Lemma on_plt_ok {A} (m : M log A) (s : state) a l' :
  m (plt s) = (Py.Ok a, l') ->
  on_plt m s = (Py.Ok a, {| self := self s; plt := l' |}).
Proof. unfold on_plt. intros ->. reflexivity. Qed.

Lemma on_plt_raise {A} (m : M log A) (s : state) e l' :
  m (plt s) = (Py.Raise e, l') ->
  on_plt m s = (Py.Raise e, {| self := self s; plt := l' |}).
Proof. unfold on_plt. intros ->. reflexivity. Qed.

(** The line of [phase]. *)
Lemma phase_colored_line p ax l segs :
  build_segments (x p) (xder p) = Py.Ok segs ->
  colored_line (x p) (xder p) (t p) ax (0.15, 0.75)%float (phase_kwargs p) l =
  (Py.Ok (phase_collection p segs),
   l ++ [AddCollection ax (phase_collection p segs)]).
Proof.
  intros Hs.
  rewrite (colored_line_ok _ _ _ _ _ _ _ _ Hs (phase_kwargs_accepted p)).
  rewrite phase_kwargs_no_array, phase_collection_of. reflexivity.
Qed.

(** [phase] up to the colour bar: a figure, the line, its colour bar; what
    follows keeps the object and appends to the log. *)
Lemma phase_start p show save l segs :
  build_segments (x p) (xder p) = Py.Ok segs ->
  exists rest : M state unit,
    quiet rest /\
    phase show save {| self := p; plt := l |} =
    rest {| self := p;
            plt := ((l ++ [Subplots 1]) ++
                    [AddCollection (axes (figures l) 0)
                       (phase_collection p segs)]) ++
                   [Colorbar (phase_collection p segs) "$t$"] |}.
Proof.
  intros Hs. eexists. split; cycle 1.
  - unfold phase.
    erewrite bind_ok by reflexivity. cbv beta.
    erewrite bind_ok by reflexivity. cbv beta. cbn [List.hd map seq].
    erewrite bind_ok
      by (apply on_plt_ok; cbn [plt]; apply (phase_colored_line _ _ _ _ Hs)).
    cbv beta.
    erewrite bind_ok by reflexivity. cbv beta. cbn [self plt].
    reflexivity.
  - repeat quiet_step.
Qed.

(** The object after [phase], and the first calls, whether it returns or
    raises later. *)
Lemma phase_prefix p show save l segs :
  build_segments (x p) (xder p) = Py.Ok segs ->
  self (snd (phase show save {| self := p; plt := l |})) = p /\
  exists tail,
    plt (snd (phase show save {| self := p; plt := l |})) =
    l ++ [Subplots 1;
          AddCollection (axes (figures l) 0) (phase_collection p segs);
          Colorbar (phase_collection p segs) "$t$"] ++ tail.
Proof.
  intros Hs. destruct (phase_start p show save l segs Hs) as (rest & Hq & ->).
  match goal with
  | |- context [rest ?s] =>
      destruct (quiet_rest rest s Hq) as (Hself & tail & Htail)
  end.
  split; [exact Hself|]. exists tail. rewrite Htail. cbn [plt].
  rewrite <- !app_assoc. reflexivity.
Qed.


(** When a limit of the positions is not finite, [phase] raises after the
    colour bar; when those are finite and a limit of the velocities is not,
    after the x-limits. *)
Lemma phase_bad_xlim p show save l x_min x_max :
  length (x p) = length (xder p) ->
  Py.min (x p) = Py.Ok x_min -> Py.max (x p) = Py.Ok x_max ->
  isfinite (x_min - margin x_min x_max) &&
  isfinite (x_max + margin x_min x_max) = false ->
  exists segs,
    build_segments (x p) (xder p) = Py.Ok segs /\
    phase show save {| self := p; plt := l |} =
    (Py.Raise Py.ValueError,
     {| self := p;
        plt := l ++ [Subplots 1;
                     AddCollection (axes (figures l) 0)
                       (phase_collection p segs);
                     Colorbar (phase_collection p segs) "$t$"] |}).
Proof.
  intros Hlen Hxmin Hxmax Fx.
  pose proof (min_nonempty _ _ Hxmin) as Hx.
  destruct (build_segments_spec _ _ Hlen Hx)
    as (mx & my & segs & _ & _ & Hs & _ & _).
  exists segs. split; [exact Hs|].
  unfold phase, bind, get_self, on_plt, subplots. simpl.
  rewrite (phase_colored_line _ _ _ _ Hs).
  unfold lift_result, emit. simpl.
  rewrite Hxmin, Hxmax. simpl.
  unfold set_xlim, margin in *. rewrite Fx. simpl.
  rewrite <- !app_assoc. reflexivity.
Qed.









End Phase.



(** ** Gradient truncation *)

Section Truncation.

Context `{Palette}.

Lemma length_linspace (a b : float) (n : nat) :
  length (Np.linspace a b n) = n.
Proof.
  unfold Np.linspace, Np.upto_last.
  destruct (1 <? n)%nat eqn:Hn.
  - apply Nat.ltb_lt in Hn.
    rewrite length_app, length_take, length_map.
    destruct (0 <? n - 1)%nat; [destruct (_ =? 0)%float|];
      rewrite !length_map, length_seq; simpl; lia.
  - rewrite length_map.
    destruct (0 <? n - 1)%nat; [destruct (_ =? 0)%float|];
      rewrite !length_map, length_seq; reflexivity.
Qed.

Lemma linspace_last (a b : float) (n : nat) :
  (2 <= n)%nat -> Np.linspace a b n !! (n - 1)%nat = Some b.
Proof.
  intros Hn. unfold Np.linspace, Np.upto_last.
  replace (1 <? n)%nat with true by (symmetry; apply Nat.ltb_lt; lia).
  rewrite lookup_app_r; rewrite length_take, length_map;
    (destruct (0 <? n - 1)%nat; [destruct (_ =? 0)%float|]);
    rewrite !length_map, length_seq; try lia;
    replace (n - 1 - (n - 1) `min` n)%nat with 0%nat by lia; reflexivity.
Qed.

(** The samples before the last one are evenly spaced: sample [i] is
    [i * step + start]. *)
Lemma linspace_spaced (a b : float) (n i : nat) :
  (2 <= n)%nat -> (i < n - 1)%nat ->
  (((b - a) / Np.float_of_nat (n - 1)) =? 0)%float = false ->
  Np.linspace a b n !! i =
  Some (Np.float_of_nat i * ((b - a) / Np.float_of_nat (n - 1)) + a)%float.
Proof.
  intros Hn Hi Hstep. unfold Np.linspace, Np.upto_last.
  replace (1 <? n)%nat with true by (symmetry; apply Nat.ltb_lt; lia).
  replace (0 <? n - 1)%nat with true by (symmetry; apply Nat.ltb_lt; lia).
  rewrite Hstep.
  rewrite lookup_app_l by (rewrite length_take, !length_map, length_seq; lia).
  rewrite lookup_take_lt by (rewrite !length_map, length_seq; lia).
  rewrite !lookup_map, lookup_seq_lt by lia. reflexivity.
Qed.

Lemma phase_trunc_name :
  trunc_name "magma_r" 0.15 0.75 = "trunc(magma_r,0.15,0.75)".
Proof. vm_compute. reflexivity. Qed.

Lemma length_append (a b : string) :
  String.length (a +:+ b) = (String.length a + String.length b)%nat.
Proof. induction a as [|c a IH]; simpl; [reflexivity | now rewrite IH]. Qed.

(** The name of a truncated gradient is longer than the name it wraps. *)
Lemma trunc_name_longer (n : string) (a b : float) :
  (String.length n < String.length (trunc_name n a b))%nat.
Proof. unfold trunc_name. rewrite !length_append. simpl. lia. Qed.

Lemma truncate_name_ne (cmap : Colormap) (a b : float) (n : nat) :
  name (truncate_colormap (truncate_colormap cmap a b n) a b n) <>
  name (truncate_colormap cmap a b n).
Proof.
  intros Heq.
  change (trunc_name (trunc_name (name cmap) a b) a b =
          trunc_name (name cmap) a b) in Heq.
  pose proof (trunc_name_longer (trunc_name (name cmap) a b) a b) as Hl.
  rewrite Heq in Hl. lia.
Qed.

(** The table of a gradient made by [from_list] has 256 entries; the first
    is the first colour and the last is the last colour, so that the
    gradient gives its first colour at 0 and its last colour at 1. *)
Lemma lut_channel_length (vals y : list float) :
  length (lut_channel vals y) = 256%nat.
Proof.
  unfold lut_channel. rewrite length_map, !length_app, length_map.
  vm_compute. reflexivity.
Qed.

Lemma lut_channel_first (vals y : list float) :
  List.nth 0 (lut_channel vals y) 0%float = clip (List.nth 0 y 0%float).
Proof. reflexivity. Qed.

Lemma nth_map_clip (l : list float) (i : nat) :
  List.nth i (map clip l) 0%float = clip (List.nth i l 0%float).
Proof. exact (List.map_nth clip l 0%float i). Qed.

Lemma lut_channel_last (vals y : list float) :
  List.nth 255 (lut_channel vals y) 0%float =
  clip (List.nth (length y - 1) y 0%float).
Proof.
  unfold lut_channel. rewrite nth_map_clip. reflexivity.
Qed.

Lemma lut_nth (colors : list RGBA) (i : nat) :
  List.nth i (lut colors) (0, 0, 0, 0)%float =
  (List.nth i (lut_channel (Np.linspace 0 1 (length colors))
                 (map red colors)) 0,
   List.nth i (lut_channel (Np.linspace 0 1 (length colors))
                 (map green colors)) 0,
   List.nth i (lut_channel (Np.linspace 0 1 (length colors))
                 (map blue colors)) 0,
   List.nth i (lut_channel (Np.linspace 0 1 (length colors))
                 (map opacity colors)) 0)%float.
Proof.
  unfold lut, RGBA. cbv zeta.
  rewrite List.combine_nth
    by (rewrite !List.length_combine, !lut_channel_length; reflexivity).
  rewrite List.combine_nth
    by (rewrite !List.length_combine, !lut_channel_length; reflexivity).
  rewrite List.combine_nth by (rewrite !lut_channel_length; reflexivity).
  reflexivity.
Qed.

Lemma nth_channel (f : RGBA -> float) (colors : list RGBA) (i : nat) :
  f (0, 0, 0, 0)%float = 0%float ->
  List.nth i (map f colors) 0%float = f (List.nth i colors (0, 0, 0, 0)%float).
Proof. intros Hf. rewrite <- Hf at 1. apply List.map_nth. Qed.

Lemma lookup_first (colors : list RGBA) :
  lookup (lut colors) 0 = clip_rgba (List.nth 0 colors (0, 0, 0, 0)%float).
Proof.
  unfold lookup. replace (lut_index 0) with (Some 0%nat) by reflexivity.
  rewrite lut_nth, !lut_channel_first.
  rewrite !nth_channel by reflexivity. reflexivity.
Qed.

Lemma lookup_last (colors : list RGBA) :
  lookup (lut colors) 1 =
  clip_rgba (List.nth (length colors - 1) colors (0, 0, 0, 0)%float).
Proof.
  unfold lookup.
  replace (lut_index 1) with (Some 255%nat) by (vm_compute; reflexivity).
  rewrite lut_nth, !lut_channel_last, !length_map.
  rewrite !nth_channel by reflexivity. reflexivity.
Qed.

(** A gradient truncated with bounds (0, 1) and two steps gives the two
    colours it was made from at 0 and at 1. *)
Lemma truncate_two_ends (cmap : Colormap) :
  call (truncate_colormap cmap 0 1 2) (Np.linspace 0 1 2) =
  call cmap (Np.linspace 0 1 2).
Proof.
  replace (Np.linspace 0 1 2) with [0; 1]%float by reflexivity.
  unfold truncate_colormap.
  replace (Np.linspace 0 1 2) with [0; 1]%float by reflexivity.
  unfold call. cbn [map].
  assert (Hg : Forall (fun c => clip_rgba c = c)
                 [rgba cmap 0; rgba cmap 1]%float)
    by (repeat constructor; apply rgba_gamut).
  rewrite !rgba_from_list by (simpl; lia || exact Hg).
  rewrite lookup_first, lookup_last. cbn [List.nth length Nat.sub].
  rewrite !rgba_gamut. reflexivity.
Qed.

(** C6, as the program has it.  With bounds (0, 1) and step count k,
    [truncate_colormap] gives the gradient named "trunc(<name>,0.00,1.00)"
    that [from_list] makes of the colours of the original at the k points of
    [linspace(0, 1, k)]: k points that end at 1 and, before that, are
    [i * step] for [step = 1 / (k - 1)].  Truncating the result again, with
    whatever bounds and step count were used, makes a gradient of the
    colours of the truncated gradient at the same points, and wraps the name
    once more.  For bounds (0, 1) and two steps the gradient truncated twice
    is made of the same two colours as the gradient truncated once, and
    gives the same colour at every position; [truncate_not_idempotent] shows
    that three steps, or other bounds, change the colours. *)
Theorem truncate_unit_interval (cmap : Colormap) (k : nat) :
  ((1 <= k)%nat ->
   truncate_colormap cmap 0 1 k =
     from_list ("trunc(" +:+ name cmap +:+ ",0.00,1.00)")
       (call cmap (Np.linspace 0 1 k))) /\
  length (Np.linspace 0 1 k) = k /\
  ((2 <= k)%nat ->
   Np.linspace 0 1 k !! (k - 1)%nat = Some 1%float /\
   forall i, (i < k - 1)%nat ->
     (((1 - 0) / Np.float_of_nat (k - 1)) =? 0)%float = false ->
     Np.linspace 0 1 k !! i =
     Some (Np.float_of_nat i * ((1 - 0) / Np.float_of_nat (k - 1)) + 0)%float) /\
  (forall a b n,
    (1 <= n)%nat ->
    truncate_colormap (truncate_colormap cmap a b n) a b n =
      from_list (trunc_name (trunc_name (name cmap) a b) a b)
        (call (truncate_colormap cmap a b n) (Np.linspace a b n)) /\
    name (truncate_colormap (truncate_colormap cmap a b n) a b n) <>
      name (truncate_colormap cmap a b n)) /\
  call (truncate_colormap cmap 0 1 2) (Np.linspace 0 1 2) =
    call cmap (Np.linspace 0 1 2) /\
  forall v,
    rgba (truncate_colormap (truncate_colormap cmap 0 1 2) 0 1 2) v =
    rgba (truncate_colormap cmap 0 1 2) v.
Proof.
  split; [intros _; reflexivity|]. split; [apply length_linspace|]. split.
  { intros Hk. split; [apply linspace_last; exact Hk|].
    intros i Hi Hstep. apply linspace_spaced; assumption. }
  split.
  { intros a b n _. split; [reflexivity | apply truncate_name_ne]. }
  split; [apply truncate_two_ends|].
  intros v. unfold truncate_colormap at 1.
  rewrite truncate_two_ends. unfold truncate_colormap.
  assert (Hg : Forall (fun c => clip_rgba c = c)
                 (call cmap (Np.linspace 0 1 2))).
  { unfold call. apply Forall_map, Forall_forall. intros u _.
    apply rgba_gamut. }
  assert (Hl : (2 <= length (call cmap (Np.linspace 0 1 2)))%nat)
    by (unfold call; rewrite length_map, length_linspace; lia).
  rewrite !rgba_from_list by assumption. reflexivity.
Qed.

End Truncation.

Lemma truncate_unit_interval_witness :
  (1 <= 5)%nat /\ (2 <= 5)%nat /\
  @truncate_colormap gray (Registered "gray") 0 1 5 =
    from_list "trunc(gray,0.00,1.00)"
      (@call gray (Registered "gray") [0; 0.25; 0.5; 0.75; 1]%float) /\
  Np.linspace 0 1 5 = [0; 0.25; 0.5; 0.75; 1]%float /\
  Np.linspace 0 1 5 !! 4%nat = Some 1%float /\
  Np.linspace 0 1 5 !! 1%nat = Some (1 * ((1 - 0) / 4) + 0)%float /\
  @call gray (@truncate_colormap gray (Registered "gray") 0 1 2)
    (Np.linspace 0 1 2) = [(0, 0, 0, 1); (1, 1, 1, 1)]%float.
Proof.
  assert (H1 : (1 <= 5)%nat) by lia.
  assert (H5 : (2 <= 5)%nat) by lia.
  split; [exact H1|]. split; [exact H5|].
  destruct (@truncate_unit_interval gray (Registered "gray") 5)
    as (Ht & _ & Hk & _ & Hc & _).
  split; [rewrite (Ht H1); reflexivity|]. split; [reflexivity|].
  destruct (Hk H5) as [Hlast Hsp]. split; [exact Hlast|].
  split; [apply (Hsp 1%nat); [simpl; lia | reflexivity]|].
  rewrite Hc. vm_compute. reflexivity.
Defined.

(** C6 as stated fails on the colours.  Take matplotlib's "gray", from black
    to white.  Truncated with bounds (0, 1) and three steps it is made of
    the greys 0, 0.50196 and 1; truncated again with the same bounds and
    step count it is made of the greys 0, 0.50391 and 1, and at the position
    0.5 the two gradients give different colours.  With the default bounds
    (0.2, 0.8) the first truncation starts at the grey 0.2 and the second at
    the grey 0.32078. *)
Lemma truncate_not_idempotent :
  @call gray (@truncate_colormap gray (Registered "gray") 0 1 3)
    (Np.linspace 0 1 3) <>
  @call gray (Registered "gray") (Np.linspace 0 1 3) /\
  @rgba gray
    (@truncate_colormap gray
       (@truncate_colormap gray (Registered "gray") 0 1 3) 0 1 3) 0.5 <>
  @rgba gray (@truncate_colormap gray (Registered "gray") 0 1 3) 0.5 /\
  map (fun c => Py.format_fixed 5 (red c))
    (@call gray (Registered "gray") (Np.linspace 0 1 3)) =
    ["0.00000"; "0.50196"; "1.00000"] /\
  map (fun c => Py.format_fixed 5 (red c))
    (@call gray (@truncate_colormap gray (Registered "gray") 0 1 3)
       (Np.linspace 0 1 3)) =
    ["0.00000"; "0.50391"; "1.00000"] /\
  map (fun c => Py.format_fixed 5 (red c))
    (@call gray (Registered "gray") (Np.linspace 0.2 0.8 3)) =
    ["0.20000"; "0.50196"; "0.80000"] /\
  map (fun c => Py.format_fixed 5 (red c))
    (@call gray (@truncate_colormap gray (Registered "gray") 0.2 0.8 3)
       (Np.linspace 0.2 0.8 3)) =
    ["0.32078"; "0.50313"; "0.68078"].
Proof.
  split; [vm_compute; discriminate|].
  split; [vm_compute; discriminate|].
  repeat split; vm_compute; reflexivity.
Qed.

(** ** Keyword options and the gradient of [colored_line] *)

Section Options.

Context `{Palette} {backend : Backend}.

Lemma colored_line_rejected x y c ax cmap_trunc (kw : kwargs) (l : log) segs :
  build_segments x y = Py.Ok segs -> accepted kw = false ->
  colored_line x y c ax cmap_trunc kw l =
  (Py.Raise (init_error (kw ∪ {[ "capstyle" := KStr "butt" ]})),
   l ++ array_warnings kw).
Proof.
  intros Hs Hk.
  unfold colored_line, bind, when, lift_result, emit, ret, new_LineCollection,
    array_warnings.
  rewrite Hs, accepted_with_default, Hk.
  destruct (bool_decide (is_Some (kw !! "array"))); simpl;
    rewrite ?app_nil_r; reflexivity.
Qed.

(** Whatever the outcome, the only warning of a call is the one about the
    "array" option. *)
Lemma colored_line_warnings x y c ax cmap_trunc (kw : kwargs) (l : log) :
  warnings (snd (colored_line x y c ax cmap_trunc kw l)) =
  warnings l ++ warnings (array_warnings kw).
Proof.
  destruct (build_segments x y) as [segs|e] eqn:Hs.
  - destruct (accepted kw) eqn:Hk.
    + rewrite (colored_line_ok _ _ _ _ _ _ _ _ Hs Hk). simpl.
      unfold warnings. rewrite !omap_app. simpl. rewrite app_nil_r.
      reflexivity.
    + rewrite (colored_line_rejected _ _ _ _ _ _ _ _ Hs Hk). simpl.
      unfold warnings. rewrite omap_app. reflexivity.
  - rewrite (colored_line_raise _ _ _ _ _ _ _ _ Hs). simpl.
    unfold warnings. rewrite omap_app. reflexivity.
Qed.

Lemma array_warnings_present (kw : kwargs) v :
  kw !! "array" = Some v -> array_warnings kw = [Warn array_warning].
Proof.
  intros Hv. unfold array_warnings.
  rewrite bool_decide_eq_true_2; [reflexivity | rewrite Hv; eauto].
Qed.

Lemma array_warnings_absent (kw : kwargs) :
  kw !! "array" = None -> array_warnings kw = [].
Proof.
  intros Hv. unfold array_warnings.
  rewrite bool_decide_eq_false_2; [reflexivity|].
  rewrite Hv. intros [? ?]. discriminate.
Qed.

(** The "array" option does not decide whether a call returns or raises. *)
Lemma colored_line_array_harmless x y c ax cmap_trunc (kw : kwargs)
    (l : log) (a : list float) :
  kw !! "array" = Some (KArr a) ->
  Py.is_ok (fst (colored_line x y c ax cmap_trunc kw l)) =
  Py.is_ok (fst (colored_line x y c ax cmap_trunc (delete "array" kw) l)).
Proof.
  intros Ha.
  assert (Hk : accepted (delete "array" kw) = accepted kw).
  { unfold accepted, cmap_ok. rewrite lookup_delete_ne by discriminate.
    f_equal. apply bool_decide_ext. split; intros Hall k v Hk.
    - destruct (decide (k = "array")) as [->|Hne].
      + rewrite Ha in Hk. injection Hk as <-. reflexivity.
      + apply Hall. rewrite lookup_delete_ne by congruence. exact Hk.
    - apply lookup_delete_Some in Hk as [_ Hk]. apply Hall, Hk. }
  destruct (build_segments x y) as [segs|e] eqn:Hs.
  - destruct (accepted kw) eqn:Hacc.
    + rewrite (colored_line_ok _ _ _ _ _ kw _ _ Hs Hacc).
      rewrite (colored_line_ok _ _ _ _ _ (delete "array" kw) _ _ Hs)
        by exact Hk.
      reflexivity.
    + rewrite (colored_line_rejected _ _ _ _ _ kw _ _ Hs Hacc).
      rewrite (colored_line_rejected _ _ _ _ _ (delete "array" kw) _ _ Hs)
        by exact Hk.
      reflexivity.
  - rewrite !(colored_line_raise _ _ _ _ _ _ _ _ Hs). reflexivity.
Qed.

(** C7.  A call whose keyword options hold a raw colour array under
    "array" logs the warning, whether it then succeeds or raises, and it
    returns exactly when the same call without that option returns; on
    arrays x and y of the same positive length, with options that the
    collection accepts, it returns, and the colour array of the returned
    collection is [c], not the supplied one.  A call without "array" logs
    no warning. *)
Theorem colored_line_array_override x y c ax cmap_trunc (kw : kwargs)
    (l : log) (a : list float) :
  kw !! "array" = Some (KArr a) -> accepted kw = true ->
  length x = length y -> x <> [] ->
  (exists lc l',
     colored_line x y c ax cmap_trunc kw l = (Py.Ok lc, l') /\
     warnings l' = warnings l ++ [array_warning] /\
     get_array lc = Some (KArr c)) /\
  (forall x0 y0 c0,
     warnings (snd (colored_line x0 y0 c0 ax cmap_trunc kw l)) =
       warnings l ++ [array_warning] /\
     Py.is_ok (fst (colored_line x0 y0 c0 ax cmap_trunc kw l)) =
       Py.is_ok (fst (colored_line x0 y0 c0 ax cmap_trunc
                        (delete "array" kw) l))) /\
  (forall (kw0 : kwargs) x0 y0 c0,
     kw0 !! "array" = None ->
     warnings (snd (colored_line x0 y0 c0 ax cmap_trunc kw0 l)) = warnings l).
Proof.
  intros Ha Hk Hlen Hx. split; [|split].
  - destruct (colored_line_chains x y c ax cmap_trunc kw l Hlen Hx Hk)
      as (mx & my & segs & _ & _ & Hcl & _ & _).
    eexists _, _. split; [exact Hcl|]. split.
    + rewrite (array_warnings_present _ _ Ha).
      unfold warnings. rewrite !omap_app. reflexivity.
    + apply collection_of_array.
  - intros x0 y0 c0. split.
    + rewrite colored_line_warnings, (array_warnings_present _ _ Ha).
      reflexivity.
    + apply (colored_line_array_harmless _ _ _ _ _ _ _ a Ha).
  - intros kw0 x0 y0 c0 H0.
    rewrite colored_line_warnings, (array_warnings_absent _ H0).
    apply app_nil_r.
Qed.

(** C8.  On N >= 2 points, with options that the collection accepts,
    [colored_line] returns the collection with the gradient
    [truncate_colormap(map, cmap_trunc[0], cmap_trunc[1], n=N)] set on it,
    where [map] is the gradient named by the options.  That gradient is made
    of exactly N colours: the colour of [map] at each of the N positions of
    [linspace(cmap_trunc[0], cmap_trunc[1], N)], in order.  The last
    position is [cmap_trunc[1]] itself and position i before it is
    [i * step + cmap_trunc[0]] with [step = (cmap_trunc[1] - cmap_trunc[0])
    / (N - 1)]: the gradient is sampled from the lower bound of the range
    to the upper bound in N - 1 equal steps, and nowhere else.  The gradient
    is set before the collection is added to the axes; the default range is
    (0, 1).  [phase] passes the range (0.15, 0.75) and the gradient
    "magma_r": the collection it adds carries the colours of "magma_r" at
    the positions of [linspace(0.15, 0.75, N)], N being the number of
    positions, the last of which is 0.75. *)
Theorem colored_line_gradient xs ys c ax cmap_trunc (kw : kwargs) (l : log) :
  length xs = length ys -> (2 <= length xs)%nat -> accepted kw = true ->
  (exists lc colors samples,
     colored_line xs ys c ax cmap_trunc kw l =
       (Py.Ok lc, l ++ array_warnings kw ++ [AddCollection ax lc]) /\
     length (segments lc) = length xs /\
     get_cmap lc =
       truncate_colormap (cmap_of kw) (fst cmap_trunc) (snd cmap_trunc)
         (length xs) /\
     get_cmap lc =
       from_list (trunc_name (name (cmap_of kw)) (fst cmap_trunc)
                    (snd cmap_trunc)) colors /\
     samples = Np.linspace (fst cmap_trunc) (snd cmap_trunc) (length xs) /\
     length samples = length xs /\ length colors = length xs /\
     (forall i, (i < length xs)%nat ->
        exists v, samples !! i = Some v /\
                  colors !! i = Some (rgba (cmap_of kw) v)) /\
     samples !! (length xs - 1)%nat = Some (snd cmap_trunc) /\
     (forall i, (i < length xs - 1)%nat ->
        ((snd cmap_trunc - fst cmap_trunc) / Np.float_of_nat (length xs - 1)
         =? 0)%float = false ->
        samples !! i =
        Some (Np.float_of_nat i *
              ((snd cmap_trunc - fst cmap_trunc) /
               Np.float_of_nat (length xs - 1)) + fst cmap_trunc)%float)) /\
  default_cmap_trunc = (0, 1)%float /\
  (forall p show save l0,
     length (x p) = length (xder p) -> (2 <= length (x p))%nat ->
     exists lc colors tail,
       plt (snd (phase show save {| self := p; plt := l0 |})) =
         l0 ++ [Subplots 1; AddCollection (axes (figures l0) 0) lc] ++ tail /\
       get_cmap lc =
         truncate_colormap (Registered "magma_r") 0.15 0.75
           (length (x p)) /\
       get_cmap lc = from_list "trunc(magma_r,0.15,0.75)" colors /\
       colors =
         map (rgba (Registered "magma_r"))
           (Np.linspace 0.15 0.75 (length (x p))) /\
       length colors = length (x p) /\
       Np.linspace 0.15 0.75 (length (x p)) !! (length (x p) - 1)%nat =
         Some 0.75%float /\
       colors !! (length (x p) - 1)%nat =
         Some (rgba (Registered "magma_r") 0.75)).
Proof.
  intros Hlen HN Hk.
  assert (Hx : xs <> []) by (destruct xs; simpl in *; [lia | discriminate]).
  split; [|split; [reflexivity|]].
  - destruct (colored_line_chains xs ys c ax cmap_trunc kw l Hlen Hx Hk)
      as (mx & my & segs & _ & _ & Hcl & Hl & _).
    eexists _, _, _. split; [exact Hcl|].
    rewrite collection_of_segments, collection_of_cmap.
    split; [exact Hl|]. split; [reflexivity|]. split; [reflexivity|].
    split; [reflexivity|]. split; [apply length_linspace|].
    split; [unfold call; rewrite length_map; apply length_linspace|].
    split; [|split].
    + intros i Hi.
      destruct (lookup_lt_is_Some_2
                  (Np.linspace (fst cmap_trunc) (snd cmap_trunc) (length xs)) i)
        as [v Hv]; [rewrite length_linspace; exact Hi|].
      exists v. split; [exact Hv|]. unfold call.
      rewrite lookup_map, Hv. reflexivity.
    + apply linspace_last. exact HN.
    + intros i Hi Hstep. apply linspace_spaced; assumption.
  - intros p show save l0 Hl HNp.
    assert (Hxp : x p <> [])
      by (intros E; rewrite E in HNp; simpl in HNp; lia).
    destruct (build_segments_spec _ _ Hl Hxp)
      as (_ & _ & segs & _ & _ & Hs & _ & _).
    destruct (phase_prefix p show save l0 segs Hs) as (_ & tail & Hp).
    exists (phase_collection p segs). eexists. eexists.
    split; [rewrite Hp; reflexivity|].
    assert (Hg : get_cmap (phase_collection p segs) =
                 truncate_colormap (Registered "magma_r") 0.15 0.75
                   (length (x p))).
    { unfold get_cmap, phase_collection, collection_made. cbn [props].
      rewrite lookup_insert_eq. reflexivity. }
    split; [exact Hg|]. rewrite Hg. unfold truncate_colormap. cbn [name].
    rewrite phase_trunc_name. split; [reflexivity|]. split; [reflexivity|].
    split; [unfold call; rewrite length_map; apply length_linspace|].
    split; [apply linspace_last; exact HNp|].
    unfold call. rewrite lookup_map, (linspace_last _ _ _ HNp). reflexivity.
Qed.

End Options.

Lemma colored_line_array_override_witness :
  ({[ "array" := KArr [9; 9]%float ]} : kwargs) !! "array"
    = Some (KArr [9; 9]%float) /\
  exists lc l',
    @colored_line grey [0; 2]%float [1; 5]%float [3; 4]%float (axes 0 0)
      default_cmap_trunc {[ "array" := KArr [9; 9]%float ]} [] = (Py.Ok lc, l') /\
    warnings l' = [array_warning] /\
    get_array lc = Some (KArr [3; 4]%float).
Proof.
  assert (Ha : ({[ "array" := KArr [9; 9]%float ]} : kwargs) !! "array"
               = Some (KArr [9; 9]%float)) by reflexivity.
  assert (Hk : @accepted grey {[ "array" := KArr [9; 9]%float ]} = true)
    by reflexivity.
  assert (Hlen : length [0; 2]%float = length [1; 5]%float) by reflexivity.
  assert (Hx : [0; 2]%float <> []) by discriminate.
  split; [exact Ha|].
  destruct (@colored_line_array_override grey [0; 2]%float [1; 5]%float
              [3; 4]%float (axes 0 0) default_cmap_trunc
              {[ "array" := KArr [9; 9]%float ]} [] [9; 9]%float
              Ha Hk Hlen Hx)
    as ((lc & l' & Hcl & Hw & Hc) & _).
  exists lc, l'. split; [exact Hcl|]. split; [exact Hw | exact Hc].
Defined.

Lemma colored_line_gradient_witness :
  length (in_x scenario) = length (in_xder scenario) /\
  (2 <= length (in_x scenario))%nat /\
  @accepted grey {[ "cmap" := KStr "magma_r" ]} = true /\
  exists lc colors,
    fst (@colored_line grey (in_x scenario) (in_xder scenario)
           (in_t scenario) (axes 0 0) (0.15, 0.75)%float
           {[ "cmap" := KStr "magma_r" ]} []) = Py.Ok lc /\
    @get_cmap grey lc = from_list "trunc(magma_r,0.15,0.75)" colors /\
    length colors = 5%nat /\
    Np.linspace 0.15 0.75 5 =
      [0.15; 0.3; 0.44999999999999996; 0.6; 0.75]%float /\
    colors !! 0%nat = Some (0.15, 0.15, 0.15, 1)%float /\
    colors !! 4%nat = Some (0.75, 0.75, 0.75, 1)%float.
Proof.
  assert (Hlen : length (in_x scenario) = length (in_xder scenario))
    by reflexivity.
  assert (HN : (2 <= length (in_x scenario))%nat) by (simpl; lia).
  assert (Hk : @accepted grey {[ "cmap" := KStr "magma_r" ]} = true)
    by reflexivity.
  split; [exact Hlen|]. split; [exact HN|]. split; [exact Hk|].
  destruct (@colored_line_gradient grey writable (in_x scenario)
              (in_xder scenario) (in_t scenario) (axes 0 0) (0.15, 0.75)%float
              {[ "cmap" := KStr "magma_r" ]} [] Hlen HN Hk)
    as ((lc & colors & samples & Hcl & _ & _ & Hg & Hsam & _ & Hc & Hcol & _) & _).
  exists lc, colors. rewrite Hcl. split; [reflexivity|].
  split; [exact Hg|]. split; [exact Hc|].
  assert (Hv : Np.linspace 0.15 0.75 5 =
               [0.15; 0.3; 0.44999999999999996; 0.6; 0.75]%float)
    by reflexivity.
  split; [exact Hv|].
  destruct (Hcol 0%nat ltac:(simpl; lia)) as (v0 & Hv0 & Hc0).
  destruct (Hcol 4%nat ltac:(simpl; lia)) as (v4 & Hv4 & Hc4).
  rewrite Hsam in Hv0, Hv4. cbn [fst snd] in Hv0, Hv4.
  change (length (in_x scenario)) with 5%nat in Hv0, Hv4.
  rewrite Hv in Hv0, Hv4. injection Hv0 as <-. injection Hv4 as <-.
  split; [exact Hc0 | exact Hc4].
Defined.

(** ** The stored inputs *)

Section Inputs.

Context `{Palette} {backend : Backend}.

(** C9.  The object that the constructor returns stores the arguments it
    was given, and [generate_captions], [phase], [signal] and [show_plots]
    leave every stored input as it is, whether they return or raise: on any
    state whose object stores the inputs [a], the object after the call
    stores [a]. *)
Theorem inputs_never_mutated (a : inputs) (l l' : log) (p : VdP_Plotter) :
  __init__ a l = (Py.Ok p, l') ->
  inputs_of p = a /\
  forall s, inputs_of (self s) = a ->
    inputs_of (self (snd (generate_captions s))) = a /\
    inputs_of (self (snd (show_plots s))) = a /\
    forall show save,
      inputs_of (self (snd (phase show save s))) = a /\
      inputs_of (self (snd (signal show save s))) = a.
Proof.
  intros Hi. split.
  - unfold __init__ in Hi.
    assert (Hk : keeps_inputs
                   (do captions <- generate_captions; set_captions captions)).
    { apply keeps_bind; [apply keeps_generate_captions|].
      intros c. apply keeps_set_captions. }
    specialize (Hk {| self := blank a; plt := l |}).
    destruct ((do captions <- generate_captions; set_captions captions)
                {| self := blank a; plt := l |}) as [[u|e] s'];
      [|discriminate].
    injection Hi as <- _. simpl in Hk. rewrite Hk. destruct a; reflexivity.
  - intros s Hs.
    split; [rewrite keeps_generate_captions; exact Hs|].
    split; [rewrite keeps_show_plots; exact Hs|].
    intros show save.
    split; [rewrite keeps_phase | rewrite keeps_signal]; exact Hs.
Qed.

End Inputs.

Lemma inputs_never_mutated_witness :
  __init__ scenario [] = (Py.Ok scenario_plotter, []) /\
  inputs_of scenario_plotter = scenario /\
  inputs_of (self (snd (@phase grey writable true (Some "phase.png")
                          {| self := scenario_plotter; plt := [] |})))
    = scenario /\
  inputs_of (self (snd (@signal writable false None
                          {| self := scenario_plotter; plt := [] |})))
    = scenario.
Proof.
  assert (Hi : __init__ scenario [] = (Py.Ok scenario_plotter, []))
    by (vm_compute; reflexivity).
  destruct (@inputs_never_mutated grey writable scenario [] []
              scenario_plotter Hi)
    as [Hp Hops].
  destruct (Hops {| self := scenario_plotter; plt := [] |} Hp) as (_ & _ & Hps).
  destruct (Hps true (Some "phase.png")) as [Hphase _].
  destruct (Hps false None) as [_ Hsignal].
  split; [exact Hi|]. split; [exact Hp|].
  split; [exact Hphase | exact Hsignal].
Defined.

(** * Further properties of the module *)

(** ** When [colored_line] raises *)

Section ColoredLineErrors.

Context `{Palette}.

Lemma midpts_empty : midpts [] = Py.Raise Py.IndexError.
Proof. reflexivity. Qed.

Lemma build_segments_empty (x y : list float) :
  x = [] \/ y = [] -> build_segments x y = Py.Raise Py.IndexError.
Proof.
  intros [-> | ->]; [reflexivity|].
  destruct x as [|x0 x]; [reflexivity|].
  destruct (midpts_ok (x0 :: x) ltac:(discriminate)) as [m Hm].
  unfold build_segments. rewrite Hm. reflexivity.
Qed.

Lemma build_segments_mismatch (x y : list float) :
  x <> [] -> y <> [] -> length x <> length y ->
  build_segments x y = Py.Raise Py.ValueError.
Proof.
  intros Hx Hy Hlen.
  destruct (midpts_ok x Hx) as [mx Hmx].
  destruct (midpts_ok y Hy) as [my Hmy].
  pose proof (midpts_length _ _ Hmx) as Lx.
  pose proof (midpts_length _ _ Hmy) as Ly.
  unfold build_segments. rewrite Hmx, Hmy. cbn [Py.and_then].
  unfold Np.column_stack at 1. unfold Np.upto_last at 1 2.
  rewrite !length_take, Lx, Ly.
  replace ((S (length x) - 1) `min` S (length x) =?
           (S (length y) - 1) `min` S (length y))%nat with false; [reflexivity|].
  symmetry. apply Nat.eqb_neq. lia.
Qed.

(** The three ways in which the segments are or are not built. *)
Lemma build_segments_cases (x y : list float) :
  (x = [] \/ y = []) /\ build_segments x y = Py.Raise Py.IndexError \/
  (x <> [] /\ y <> [] /\ length x <> length y) /\
    build_segments x y = Py.Raise Py.ValueError \/
  (x <> [] /\ length x = length y) /\
    exists segs, build_segments x y = Py.Ok segs.
Proof.
  destruct (decide (x = [])) as [Hx|Hx].
  { left. split; [auto | apply build_segments_empty; auto]. }
  destruct (decide (y = [])) as [Hy|Hy].
  { left. split; [auto | apply build_segments_empty; auto]. }
  destruct (decide (length x = length y)) as [Hl|Hl].
  - right. right. split; [auto|].
    destruct (build_segments_spec x y Hl Hx) as (_ & _ & segs & _ & _ & Hs & _).
    eauto.
  - right. left. split; [auto | apply build_segments_mismatch; auto].
Qed.

(** X1.  With an empty [x] or an empty [y], [colored_line] raises
    [IndexError]; the only call it has made by then is the warning about
    "array", if that option was given: nothing is added to the axes. *)
Theorem colored_line_empty x y c ax cmap_trunc (kw : kwargs) (l : log) :
  x = [] \/ y = [] ->
  colored_line x y c ax cmap_trunc kw l =
  (Py.Raise Py.IndexError, l ++ array_warnings kw).
Proof.
  intros He. apply colored_line_raise, build_segments_empty, He.
Qed.

(** X2.  With non-empty [x] and [y] of different lengths, [colored_line]
    raises [ValueError] (from the stacking of the coordinates), and nothing
    is added to the axes. *)
Theorem colored_line_mismatch x y c ax cmap_trunc (kw : kwargs) (l : log) :
  x <> [] -> y <> [] -> length x <> length y ->
  colored_line x y c ax cmap_trunc kw l =
  (Py.Raise Py.ValueError, l ++ array_warnings kw).
Proof.
  intros Hx Hy Hl. apply colored_line_raise, build_segments_mismatch; auto.
Qed.

(** X3.  [colored_line] returns exactly when [x] is not empty, [y] has the
    length of [x], and the keyword options are accepted by the collection;
    the colour values [c] and the gradient range play no part in that. *)
Theorem colored_line_returns_iff x y c ax cmap_trunc (kw : kwargs) (l : log) :
  Py.is_ok (fst (colored_line x y c ax cmap_trunc kw l)) = true <->
  x <> [] /\ length x = length y /\ accepted kw = true.
Proof.
  destruct (build_segments_cases x y)
    as [[He Hs] | [[(Hx & Hy & Hl) Hs] | [[Hx Hl] [segs Hs]]]].
  - rewrite (colored_line_raise _ _ _ _ _ _ _ _ Hs). simpl. split.
    + discriminate.
    + intros (Hx & Hl & _). destruct He as [-> | ->]; [congruence|].
      destruct x; simpl in *; [congruence | discriminate].
  - rewrite (colored_line_raise _ _ _ _ _ _ _ _ Hs). simpl. split.
    + discriminate.
    + intros (_ & Hl' & _). contradiction.
  - destruct (accepted kw) eqn:Hk.
    + rewrite (colored_line_ok _ _ _ _ _ _ _ _ Hs Hk). simpl. tauto.
    + rewrite (colored_line_rejected _ _ _ _ _ _ _ _ Hs Hk). simpl. split.
      * discriminate.
      * intros (_ & _ & Hf). discriminate.
Qed.

End ColoredLineErrors.

(** On the palette [grey]: a gradient name that is not registered, a number
    given as the gradient and an unknown cap style are refused with
    [ValueError], and nothing is added to the axes. *)
Example colored_line_refusals :
  @colored_line grey [0; 1]%float [0; 1]%float [0; 1]%float (axes 0 0)
    default_cmap_trunc {[ "cmap" := KStr "nosuchmap" ]} [] =
    (Py.Raise Py.ValueError, []) /\
  @colored_line grey [0; 1]%float [0; 1]%float [0; 1]%float (axes 0 0)
    default_cmap_trunc {[ "cmap" := KNum (Py.PInt 5) ]} [] =
    (Py.Raise Py.ValueError, []) /\
  @colored_line grey [0; 1]%float [0; 1]%float [0; 1]%float (axes 0 0)
    default_cmap_trunc {[ "capstyle" := KStr "bogus" ]} [] =
    (Py.Raise Py.ValueError, []).
Proof. repeat split; vm_compute; reflexivity. Qed.

Lemma colored_line_empty_witness :
  (([] : list float) = [] \/ [1; 2]%float = []) /\
  @colored_line grey [] [1; 2]%float [0; 1]%float (axes 0 0)
    default_cmap_trunc ∅ [] = (Py.Raise Py.IndexError, []).
Proof.
  assert (He : ([] : list float) = [] \/ [1; 2]%float = []) by (left; reflexivity).
  split; [exact He|].
  exact (@colored_line_empty grey [] [1; 2]%float [0; 1]%float (axes 0 0)
           default_cmap_trunc ∅ [] He).
Defined.

Lemma colored_line_mismatch_witness :
  [0; 1; 2]%float <> [] /\ [1; 2]%float <> [] /\
  length [0; 1; 2]%float <> length [1; 2]%float /\
  @colored_line grey [0; 1; 2]%float [1; 2]%float [0; 1; 2]%float (axes 0 0)
    default_cmap_trunc ∅ [] = (Py.Raise Py.ValueError, []).
Proof.
  assert (Hx : [0; 1; 2]%float <> []) by discriminate.
  assert (Hy : [1; 2]%float <> []) by discriminate.
  assert (Hl : length [0; 1; 2]%float <> length [1; 2]%float)
    by (simpl; lia).
  repeat (split; [assumption|]).
  exact (@colored_line_mismatch grey [0; 1; 2]%float [1; 2]%float
           [0; 1; 2]%float (axes 0 0) default_cmap_trunc ∅ [] Hx Hy Hl).
Defined.

(** ** What [colored_line] does with its options and colour values *)

Section ColoredLineOptions.

Context `{Palette}.

Lemma collection_made_lookup segs n c cmap_trunc (kw : kwargs) key :
  key <> "array" -> key <> "cmap" -> key <> "capstyle" ->
  props (collection_made segs n c cmap_trunc kw) !! key = kw !! key.
Proof.
  intros Ha Hc Hs. unfold collection_made. cbn [props].
  rewrite !lookup_insert_ne by congruence.
  apply lookup_with_default. exact Hs.
Qed.

(** X4.  On the returned collection the cap style is "butt" unless the
    caller gave one, in which case the caller's is kept; every option other
    than "array", "cmap", "capstyle" and "label" reaches the collection as
    it was given, and an option that was not given is not set.  The label
    is the caller's, unless none or the empty one was given: then the axes
    label the collection "_child<k>", k being the number of artists they
    already hold. *)
Theorem colored_line_options x y c ax cmap_trunc (kw : kwargs) (l : log) :
  length x = length y -> x <> [] -> accepted kw = true ->
  exists lc l',
    colored_line x y c ax cmap_trunc kw l = (Py.Ok lc, l') /\
    props lc !! "capstyle" =
      Some (match kw !! "capstyle" with Some v => v | None => KStr "butt" end) /\
    (forall k, k <> "array" -> k <> "cmap" -> k <> "capstyle" ->
               k <> "label" -> props lc !! k = kw !! k) /\
    props lc !! "label" =
      Some (match kw !! "label" with
            | None | Some (KStr EmptyString) =>
                KStr ("_child" +:+ pretty (children ax l))
            | Some v => v
            end).
Proof.
  intros Hlen Hx Hk.
  destruct (colored_line_chains x y c ax cmap_trunc kw l Hlen Hx Hk)
    as (mx & my & segs & _ & _ & Hcl & _ & _).
  eexists _, _. split; [exact Hcl|]. split; [|split].
  - rewrite collection_of_lookup by discriminate.
    unfold collection_made. cbn [props].
    rewrite !lookup_insert_ne by discriminate.
    rewrite lookup_union, lookup_singleton_eq.
    destruct (kw !! "capstyle"); reflexivity.
  - intros k Ha Hc Hs Hlab.
    rewrite collection_of_lookup by exact Hlab.
    apply collection_made_lookup; assumption.
  - unfold collection_of, unlabelled.
    rewrite (collection_made_lookup _ _ _ _ _ "label") by discriminate.
    destruct (kw !! "label") as [[[|ch s0]| | |]|] eqn:Hlab;
      unfold set_label, child_label; cbn [props];
      rewrite ?lookup_insert_eq; try reflexivity;
      rewrite (collection_made_lookup _ _ _ _ _ "label") by discriminate;
      exact Hlab.
Qed.

(** X5.  The colour values are not checked against the points: whatever
    the length of [c], the call returns the same segments and the same
    gradient, and [c] becomes the colour array of the collection. *)
Theorem colored_line_colors_unchecked x y c c' ax cmap_trunc (kw : kwargs)
    (l : log) :
  length x = length y -> x <> [] -> accepted kw = true ->
  exists lc lc' l1 l2,
    colored_line x y c ax cmap_trunc kw l = (Py.Ok lc, l1) /\
    colored_line x y c' ax cmap_trunc kw l = (Py.Ok lc', l2) /\
    segments lc = segments lc' /\ get_cmap lc = get_cmap lc' /\
    get_array lc = Some (KArr c) /\ get_array lc' = Some (KArr c').
Proof.
  intros Hlen Hx Hk.
  destruct (build_segments_spec x y Hlen Hx) as (_ & _ & segs & _ & _ & Hs & _).
  eexists _, _, _, _.
  split; [apply (colored_line_ok _ _ _ _ _ _ _ _ Hs Hk)|].
  split; [apply (colored_line_ok _ _ _ _ _ _ _ _ Hs Hk)|].
  rewrite !collection_of_segments, !collection_of_cmap, !collection_of_array.
  auto.
Qed.

End ColoredLineOptions.

Lemma colored_line_options_witness :
  exists lc l',
    @colored_line grey [0; 2]%float [1; 5]%float [3; 4]%float (axes 0 0)
      default_cmap_trunc
      {[ "linewidth" := KNum (Py.PInt 2); "capstyle" := KStr "round" ]} []
      = (Py.Ok lc, l') /\
    props lc !! "capstyle" = Some (KStr "round") /\
    props lc !! "linewidth" = Some (KNum (Py.PInt 2)) /\
    props lc !! "joinstyle" = None /\
    props lc !! "label" = Some (KStr "_child0").
Proof.
  assert (Hlen : length [0; 2]%float = length [1; 5]%float) by reflexivity.
  assert (Hx : [0; 2]%float <> []) by discriminate.
  assert (Hk : @accepted grey {[ "linewidth" := KNum (Py.PInt 2);
                                 "capstyle" := KStr "round" ]} = true)
    by reflexivity.
  destruct (@colored_line_options grey [0; 2]%float [1; 5]%float [3; 4]%float
              (axes 0 0) default_cmap_trunc
              {[ "linewidth" := KNum (Py.PInt 2); "capstyle" := KStr "round" ]}
              [] Hlen Hx Hk)
    as (lc & l' & Hcl & Hcap & Hpass & Hlab).
  exists lc, l'. split; [exact Hcl|]. split; [exact Hcap|].
  split; [apply Hpass; discriminate|].
  split; [apply Hpass; discriminate | exact Hlab].
Defined.

Lemma colored_line_colors_unchecked_witness :
  exists lc lc',
    fst (@colored_line grey [0; 2]%float [1; 5]%float [3; 4]%float (axes 0 0)
           default_cmap_trunc ∅ []) = Py.Ok lc /\
    fst (@colored_line grey [0; 2]%float [1; 5]%float [7]%float (axes 0 0)
           default_cmap_trunc ∅ []) = Py.Ok lc' /\
    segments lc = segments lc' /\ get_array lc' = Some (KArr [7]%float).
Proof.
  assert (Hlen : length [0; 2]%float = length [1; 5]%float) by reflexivity.
  assert (Hx : [0; 2]%float <> []) by discriminate.
  assert (Hk : @accepted grey ∅ = true) by reflexivity.
  destruct (@colored_line_colors_unchecked grey [0; 2]%float [1; 5]%float
              [3; 4]%float [7]%float (axes 0 0) default_cmap_trunc ∅ []
              Hlen Hx Hk)
    as (lc & lc' & l1 & l2 & H1 & H2 & Hs & _ & _ & Ha).
  exists lc, lc'. rewrite H1, H2. auto.
Defined.

(** ** The direction of the polyline *)

Section Reversal.

(** The midpoints of the reversed array are the reversed midpoints: the two
    orders of the sum give the same binary64 value. *)
Lemma midpts_reverse (a m : list float) :
  midpts a = Py.Ok m -> midpts (reverse a) = Py.Ok (reverse m).
Proof.
  intros Hm.
  pose proof (midpts_length _ _ Hm) as Lm.
  assert (Ha : a <> []).
  { destruct (midpts_inv _ _ Hm) as (a0 & an & H0 & _).
    intros E. rewrite E in H0. discriminate. }
  assert (Hr : reverse a <> []).
  { intros Hr. apply (f_equal length) in Hr. rewrite length_reverse in Hr.
    destruct a; simpl in *; [congruence | lia]. }
  assert (Hpos : (0 < length a)%nat) by (destruct a; simpl; [congruence | lia]).
  destruct (midpts_ok _ Hr) as [m' Hm'].
  pose proof (midpts_length _ _ Hm') as Lm'. rewrite length_reverse in Lm'.
  rewrite Hm'. f_equal. apply list_eq. intros i.
  destruct (decide (i < S (length a))%nat) as [Hi|Hi].
  2:{ rewrite !(proj2 (lookup_ge_None _ _));
        rewrite ?length_reverse; try lia; reflexivity. }
  rewrite (reverse_lookup m) by lia. rewrite Lm.
  destruct (decide (i = 0%nat)) as [->|Hi0].
  { rewrite (midpts_first _ _ Hm'), reverse_lookup by lia.
    replace (S (length a) - 1)%nat with (length a) by lia.
    rewrite (midpts_last _ _ Hm). reflexivity. }
  destruct (decide (i = length a)) as [->|HiN].
  { pose proof (midpts_last _ _ Hm') as Hl. rewrite length_reverse in Hl.
    rewrite Hl, reverse_lookup by lia.
    replace (length a - S (length a - 1))%nat with 0%nat by lia.
    replace (S (length a) - S (length a))%nat with 0%nat by lia.
    symmetry. apply (midpts_first _ _ Hm). }
  destruct i as [|j]; [congruence|].
  destruct (lookup_lt_is_Some_2 a (length a - S (S j))) as [u Hu]; [lia|].
  destruct (lookup_lt_is_Some_2 a (S (length a - S (S j)))) as [v Hv]; [lia|].
  rewrite (midpts_interior _ _ j v u Hm').
  - replace (S (length a) - S (S j))%nat with (S (length a - S (S j))) by lia.
    rewrite (midpts_interior _ _ _ u v Hm Hu Hv), float_add_comm. reflexivity.
  - rewrite reverse_lookup by lia.
    replace (length a - S j)%nat with (S (length a - S (S j))) by lia.
    exact Hv.
  - rewrite reverse_lookup by lia. exact Hu.
Qed.

Lemma chain_reverse (mx my x y : list float) (i : nat) :
  length mx = S (length x) -> length my = S (length x) ->
  length y = length x -> (i < length x)%nat ->
  chain (reverse mx) (reverse my) (reverse x) (reverse y) i =
  reverse <$> chain mx my x y (length x - S i).
Proof.
  intros Lmx Lmy Ly Hi. unfold chain.
  rewrite !reverse_lookup by lia. rewrite Lmx, Lmy, Ly.
  replace (S (length x) - S i)%nat with (S (length x - S i)) by lia.
  replace (S (length x) - S (S i))%nat with (length x - S i)%nat by lia.
  destruct (lookup_lt_is_Some_2 mx (S (length x - S i))) as [a Ha]; [lia|].
  destruct (lookup_lt_is_Some_2 my (S (length x - S i))) as [b Hb]; [lia|].
  destruct (lookup_lt_is_Some_2 x (length x - S i)) as [c Hc]; [lia|].
  destruct (lookup_lt_is_Some_2 y (length x - S i)) as [d Hd]; [lia|].
  destruct (lookup_lt_is_Some_2 mx (length x - S i)) as [e He]; [lia|].
  destruct (lookup_lt_is_Some_2 my (length x - S i)) as [f Hf]; [lia|].
  rewrite Ha, Hb, Hc, Hd, He, Hf. reflexivity.
Qed.

(** X6.  Drawing the polyline backwards gives the same sub-segments
    backwards: for x and y of the same positive length, the segments built
    from the reversed arrays are the segments of the original arrays in
    reverse order, each with its three vertices reversed, coordinate for
    coordinate the same binary64 values. *)
Theorem build_segments_reverse (x y : list float) :
  length x = length y -> x <> [] ->
  exists segs,
    build_segments x y = Py.Ok segs /\
    build_segments (reverse x) (reverse y) =
      Py.Ok (reverse (map reverse segs)).
Proof.
  intros Hlen Hx.
  destruct (build_segments_spec x y Hlen Hx)
    as (mx & my & segs & Hmx & Hmy & Hs & Hl & Hc).
  assert (Hrx : reverse x <> []).
  { intros Hr. apply (f_equal length) in Hr. rewrite length_reverse in Hr.
    destruct x; simpl in *; [congruence | lia]. }
  assert (Hrl : length (reverse x) = length (reverse y))
    by (rewrite !length_reverse; exact Hlen).
  destruct (build_segments_spec _ _ Hrl Hrx)
    as (mx' & my' & segs' & Hmx' & Hmy' & Hs' & Hl' & Hc').
  rewrite (midpts_reverse _ _ Hmx) in Hmx'. injection Hmx' as <-.
  rewrite (midpts_reverse _ _ Hmy) in Hmy'. injection Hmy' as <-.
  rewrite length_reverse in Hl', Hc'.
  exists segs. split; [exact Hs|]. rewrite Hs'. f_equal.
  apply list_eq. intros i.
  destruct (decide (i < length x)%nat) as [Hi|Hi].
  - destruct (Hc' i Hi) as [_ ->].
    rewrite reverse_lookup by (rewrite length_map; lia).
    rewrite length_map, Hl, lookup_map.
    destruct (Hc (length x - S i)%nat ltac:(lia)) as [_ ->].
    apply chain_reverse; try lia.
    + apply (midpts_length _ _ Hmx).
    + rewrite (midpts_length _ _ Hmy). lia.
  - rewrite !(proj2 (lookup_ge_None _ _));
      rewrite ?length_reverse, ?length_map; try lia; reflexivity.
Qed.

End Reversal.

Lemma build_segments_reverse_witness :
  length [0; 1; 3]%float = length [5; 4; 2]%float /\
  [0; 1; 3]%float <> [] /\
  build_segments [0; 1; 3]%float [5; 4; 2]%float =
    Py.Ok [[(0, 5); (0, 5); (0.5, 4.5)]; [(0.5, 4.5); (1, 4); (2, 3)];
           [(2, 3); (3, 2); (3, 2)]]%float /\
  build_segments [3; 1; 0]%float [2; 4; 5]%float =
    Py.Ok [[(3, 2); (3, 2); (2, 3)]; [(2, 3); (1, 4); (0.5, 4.5)];
           [(0.5, 4.5); (0, 5); (0, 5)]]%float.
Proof.
  assert (Hlen : length [0; 1; 3]%float = length [5; 4; 2]%float)
    by reflexivity.
  assert (Hx : [0; 1; 3]%float <> []) by discriminate.
  split; [exact Hlen|]. split; [exact Hx|].
  destruct (build_segments_reverse [0; 1; 3]%float [5; 4; 2]%float Hlen Hx)
    as (segs & Hs & Hr).
  assert (Hv : build_segments [0; 1; 3]%float [5; 4; 2]%float =
               Py.Ok [[(0, 5); (0, 5); (0.5, 4.5)]; [(0.5, 4.5); (1, 4); (2, 3)];
                      [(2, 3); (3, 2); (3, 2)]]%float) by reflexivity.
  split; [exact Hv|].
  rewrite Hv in Hs. injection Hs as <-. exact Hr.
Defined.

(** ** The samples and the name of a truncated gradient *)

Section TruncationSamples.

Context `{Palette}.

(** X7.  For a step count n >= 2 the truncated gradient is made of exactly
    n colours and the last one is the colour of the source gradient at
    [maxval] itself: the upper bound is hit exactly, whatever rounding the
    steps before it went through. *)
Theorem truncate_colormap_samples (cmap : Colormap) (minval maxval : float)
    (n : nat) :
  (2 <= n)%nat ->
  exists colors,
    truncate_colormap cmap minval maxval n =
      from_list (trunc_name (name cmap) minval maxval) colors /\
    length colors = n /\
    colors !! (n - 1)%nat = Some (rgba cmap maxval).
Proof.
  intros Hn. eexists. split; [reflexivity|]. unfold call. split.
  - rewrite length_map. apply length_linspace.
  - rewrite lookup_map, (linspace_last _ _ _ Hn). reflexivity.
Qed.

End TruncationSamples.

Lemma truncate_colormap_samples_witness :
  (2 <= 4)%nat /\
  exists colors,
    @truncate_colormap grey (Registered "magma_r") 0.15 0.75 4 =
      from_list "trunc(magma_r,0.15,0.75)" colors /\
    length colors = 4%nat /\
    colors !! 3%nat = Some (0.75, 0.75, 0.75, 1)%float.
Proof.
  assert (Hn : (2 <= 4)%nat) by lia.
  split; [exact Hn|].
  destruct (@truncate_colormap_samples grey (Registered "magma_r") 0.15 0.75 4
              Hn) as (colors & Ht & Hl & Hlast).
  exists colors. split; [exact Ht|]. split; [exact Hl | exact Hlast].
Defined.

Section TruncationNames.

Lemma append_cancel_r (a b r : string) : a +:+ r = b +:+ r -> a = b.
Proof.
  intros Heq.
  assert (Hl : String.length a = String.length b).
  { apply (f_equal String.length) in Heq. rewrite !length_append in Heq. lia. }
  revert b Heq Hl.
  induction a as [|c a IH]; intros [|d b] Heq Hl; try discriminate.
  - reflexivity.
  - change (String c (a +:+ r) = String d (b +:+ r)) in Heq.
    injection Heq as -> Heq. f_equal. apply IH; [exact Heq|].
    simpl in Hl. lia.
Qed.

(** X8.  The name of a truncated gradient tells the source gradients apart:
    with the same bounds, different source names give different names.  It
    does not tell the bounds apart: bounds that agree to two decimals, such
    as 0.151 and 0.152, give the same name. *)
Theorem trunc_name_identifies :
  (forall n n' a b, trunc_name n a b = trunc_name n' a b -> n = n') /\
  (0.151 <> 0.152)%float /\
  forall n b, trunc_name n 0.151 b = trunc_name n 0.152 b.
Proof.
  split; [|split].
  - intros n n' a b Heq. unfold trunc_name in Heq.
    cbn [String.append] in Heq.
    injection Heq as Heq.
    change (n +:+ ("," +:+ Py.format_fixed 2 a +:+ "," +:+
                   Py.format_fixed 2 b +:+ ")") =
            n' +:+ ("," +:+ Py.format_fixed 2 a +:+ "," +:+
                    Py.format_fixed 2 b +:+ ")")) in Heq.
    apply (append_cancel_r _ _ _ Heq).
  - intros Heq. apply (f_equal Prim2SF) in Heq. vm_compute in Heq.
    discriminate.
  - intros n b. unfold trunc_name.
    replace (Py.format_fixed 2 0.151) with (Py.format_fixed 2 0.152)
      by (vm_compute; reflexivity).
    reflexivity.
Qed.

End TruncationNames.

(** ** The constructor and its captions *)

Section Constructor.




(** X11.  Forcing parameters whose amplitude is zero count as no forcing:
    the frequency is not read, and [generate_captions] gives the title and
    the subtitle (or raises the exception) that it gives for the same
    inputs without forcing parameters. *)
Theorem zero_amplitude_is_unforced (a : inputs) (l : log)
    (fp : gmap string Py.num) (amplitude : Py.num) :
  in_forcing_params a = Some fp -> fp !! "A" = Some amplitude ->
  Py.eq_int amplitude 0 = true ->
  fst (generate_captions {| self := blank a; plt := l |}) =
  fst (generate_captions {| self := blank (with_forcing a None); plt := l |}).
Proof.
  intros Hf HA H0.
  unfold generate_captions, bind, get_self, lift_result, ret,
    forcing_captions, Py.getitem, Py.and_then, Py.ne_int. simpl.
  rewrite Hf, HA, H0.
  destruct (Py.eq_int (in_alpha a) 1), (in_params a !! "mu"),
    (Py.np_round (in_T a)), (Py.np_round (in_dt a)),
    (Py.int (in_n_eval a)); reflexivity.
Qed.

End Constructor.


Lemma zero_amplitude_is_unforced_witness :
  fst (generate_captions
         {| self := blank (with_forcing scenario (Some {[ "A" := Py.PFloat 0 ]}));
            plt := [] |}) =
  Py.Ok ("dampened VdP Oscillator", "$\mu=1. T = 4, h=0.01, q = 400$").
Proof.
  assert (HA : ({[ "A" := Py.PFloat 0 ]} : gmap string Py.num) !! "A"
               = Some (Py.PFloat 0)) by reflexivity.
  assert (H0 : Py.eq_int (Py.PFloat 0) 0 = true) by reflexivity.
  rewrite (zero_amplitude_is_unforced
             (with_forcing scenario (Some {[ "A" := Py.PFloat 0 ]})) []
             {[ "A" := Py.PFloat 0 ]} (Py.PFloat 0) eq_refl HA H0).
  vm_compute. reflexivity.
Defined.

(** ** When the renders raise, and what [signal] draws *)

Lemma plot_ok ax xs ys l :
  length xs = length ys -> plot ax xs ys l = (Py.Ok tt, l ++ [Plot ax xs ys]).
Proof.
  intros Hl. unfold plot. rewrite Hl, Nat.eqb_refl. reflexivity.
Qed.

Lemma plot_raise ax xs ys l :
  length xs <> length ys -> plot ax xs ys l = (Py.Raise Py.ValueError, l).
Proof.
  intros Hl. apply Nat.eqb_neq in Hl. unfold plot. rewrite Hl. reflexivity.
Qed.

Section RenderErrors.

Context `{Palette} {backend : Backend}.

Lemma phase_raise p show save l e :
  build_segments (x p) (xder p) = Py.Raise e ->
  phase show save {| self := p; plt := l |} =
  (Py.Raise e, {| self := p; plt := l ++ [Subplots 1] |}).
Proof.
  intros Hs. unfold phase, bind, get_self, on_plt, subplots. simpl.
  rewrite (colored_line_raise _ _ _ _ _ _ _ _ Hs), phase_kwargs_no_array.
  rewrite app_nil_r. reflexivity.
Qed.

(** X12.  [phase] on a trajectory without positions or without velocities
    raises [IndexError], and on positions and velocities of different
    lengths it raises [ValueError]; in both cases the figure has been
    created by then and nothing else has happened: no collection added, no
    limits set, nothing saved or shown, and the object is as it was. *)
Theorem phase_raises p show save l :
  (x p = [] \/ xder p = [] ->
   phase show save {| self := p; plt := l |} =
   (Py.Raise Py.IndexError, {| self := p; plt := l ++ [Subplots 1] |})) /\
  (x p <> [] -> xder p <> [] -> length (x p) <> length (xder p) ->
   phase show save {| self := p; plt := l |} =
   (Py.Raise Py.ValueError, {| self := p; plt := l ++ [Subplots 1] |})).
Proof.
  split.
  - intros He. apply phase_raise, build_segments_empty, He.
  - intros Hx Hy Hl. apply phase_raise, build_segments_mismatch; auto.
Qed.

(** [signal] up to the super-title, on arrays of one length. *)
Lemma signal_drawn p show save l :
  length (t p) = length (x p) -> length (t p) = length (xder p) ->
  signal show save {| self := p; plt := l |} =
  (match save with
   | Some path => on_plt (savefig path)
   | None => ret tt
   end ;; when show (on_plt (emit Show)))
    {| self := p; plt := l ++ signal_calls p (figures l) false None |}.
Proof.
  intros Hx Hv.
  unfold signal.
  erewrite bind_ok by reflexivity. cbv beta.
  erewrite bind_ok by reflexivity. cbv beta. cbn [List.nth map seq self plt].
  erewrite bind_ok by (apply on_plt_ok, plot_ok; exact Hx). cbv beta.
  erewrite bind_ok by reflexivity. cbv beta. cbn [self plt].
  erewrite bind_ok by (apply on_plt_ok, plot_ok; exact Hv). cbv beta.
  erewrite bind_ok by reflexivity. cbv beta.
  erewrite bind_ok by reflexivity. cbv beta.
  erewrite bind_ok by reflexivity. cbv beta. cbn [self plt].
  unfold signal_calls, tail_calls. rewrite <- !app_assoc. reflexivity.
Qed.

(** What [signal] does when it returns, and when the figure cannot be
    saved. *)
Lemma signal_ok p show save l :
  length (t p) = length (x p) -> length (t p) = length (xder p) ->
  can_save save = true ->
  signal show save {| self := p; plt := l |} =
  (Py.Ok tt,
   {| self := p; plt := l ++ signal_calls p (figures l) show save |}).
Proof.
  intros Hx Hv Hsave. rewrite (signal_drawn _ _ _ _ Hx Hv).
  unfold signal_calls, tail_calls, bind, on_plt, savefig, can_save, when, ret,
    emit in *.
  destruct save as [path|].
  - apply bool_decide_eq_true in Hsave. rewrite Hsave.
    destruct show; cbn [plt self]; rewrite <- ?app_assoc; reflexivity.
  - destruct show; cbn [plt self]; rewrite <- ?app_assoc; reflexivity.
Qed.

Lemma signal_unsaved p show path e l :
  length (t p) = length (x p) -> length (t p) = length (xder p) ->
  savefig_error path = Some e ->
  signal show (Some path) {| self := p; plt := l |} =
  (Py.Raise e,
   {| self := p; plt := l ++ signal_calls p (figures l) false None |}).
Proof.
  intros Hx Hv He. rewrite (signal_drawn _ _ _ _ Hx Hv).
  unfold bind, on_plt, savefig, lift_result. cbn [plt self].
  rewrite He. reflexivity.
Qed.

(** X13.  When the times, the positions and the velocities have one length,
    [signal] makes these calls, in this order: a figure with two axes,
    positions against time on the first, velocities against time on the
    second, the label "t", the super-title "Signal of <title>" with the
    subtitle on a second line; then it saves the figure if a path was
    given, and shows it if asked for.  It returns when the figure can be
    saved; when [savefig] raises, [signal] raises the same exception after
    the drawing calls, and nothing is shown.  The object is as it was. *)
Theorem signal_returns p show save l :
  length (t p) = length (x p) -> length (t p) = length (xder p) ->
  (can_save save = true ->
   signal show save {| self := p; plt := l |} =
   (Py.Ok tt,
    {| self := p; plt := l ++ signal_calls p (figures l) show save |})) /\
  (forall path e,
     save = Some path -> savefig_error path = Some e ->
     signal show save {| self := p; plt := l |} =
     (Py.Raise e,
      {| self := p; plt := l ++ signal_calls p (figures l) false None |})).
Proof.
  intros Hx Hv. split.
  - intros Hsave. apply signal_ok; assumption.
  - intros path e -> He. apply signal_unsaved; assumption.
Qed.

(** X14.  [signal] raises [ValueError] when the positions or the velocities
    do not have the length of the times.  If it is the positions, only the
    figure has been created; if it is the velocities, the first axes have
    been drawn already.  Nothing is saved or shown. *)
Theorem signal_raises p show save l :
  (length (t p) <> length (x p) ->
   signal show save {| self := p; plt := l |} =
   (Py.Raise Py.ValueError, {| self := p; plt := l ++ [Subplots 2] |})) /\
  (length (t p) = length (x p) -> length (t p) <> length (xder p) ->
   signal show save {| self := p; plt := l |} =
   (Py.Raise Py.ValueError,
    {| self := p;
       plt := l ++ [Subplots 2; Plot (axes (figures l) 0) (t p) (x p);
                    AxSet (axes (figures l) 0) [("ylabel", "$x$")]] |})).
Proof.
  split.
  - intros Hx.
    unfold signal, bind, get_self, on_plt, subplots.
    cbn [self plt List.nth map seq].
    rewrite (plot_raise _ _ _ _ Hx). reflexivity.
  - intros Hx Hv.
    unfold signal, bind, get_self, on_plt, subplots.
    cbn [self plt List.nth map seq].
    rewrite (plot_ok _ _ _ _ Hx). cbn [emit plt self].
    rewrite (plot_raise _ _ _ _ Hv).
    rewrite <- !app_assoc. reflexivity.
Qed.

End RenderErrors.

Lemma phase_raises_witness :
  (x (with_x scenario_plotter []) = [] /\
   @phase grey writable true (Some "phase.png")
     {| self := with_x scenario_plotter []; plt := [] |} =
   (Py.Raise Py.IndexError,
    {| self := with_x scenario_plotter []; plt := [Subplots 1] |})) /\
  (length (x (with_x scenario_plotter [0; 1]%float)) <>
   length (xder (with_x scenario_plotter [0; 1]%float)) /\
   @phase grey writable true (Some "phase.png")
     {| self := with_x scenario_plotter [0; 1]%float; plt := [] |} =
   (Py.Raise Py.ValueError,
    {| self := with_x scenario_plotter [0; 1]%float;
       plt := [Subplots 1] |})).
Proof.
  split.
  - split; [reflexivity|].
    apply (proj1 (@phase_raises grey writable (with_x scenario_plotter [])
                    true (Some "phase.png") [])).
    left. reflexivity.
  - assert (Hl : length (x (with_x scenario_plotter [0; 1]%float)) <>
                 length (xder (with_x scenario_plotter [0; 1]%float)))
      by (simpl; lia).
    split; [exact Hl|].
    apply (proj2 (@phase_raises grey writable
                    (with_x scenario_plotter [0; 1]%float)
                    true (Some "phase.png") [])).
    + discriminate.
    + discriminate.
    + exact Hl.
Defined.

Lemma signal_returns_witness :
  length (t scenario_plotter) = length (x scenario_plotter) /\
  length (t scenario_plotter) = length (xder scenario_plotter) /\
  @can_save writable (Some "signal.png") = true /\
  @signal writable false (Some "signal.png")
    {| self := scenario_plotter; plt := [] |} =
  (Py.Ok tt,
   {| self := scenario_plotter;
      plt := [Subplots 2;
              Plot (axes 0 0) (t scenario_plotter) (x scenario_plotter);
              AxSet (axes 0 0) [("ylabel", "$x$")];
              Plot (axes 0 1) (t scenario_plotter) (xder scenario_plotter);
              AxSet (axes 0 1) [("ylabel", "$\dot{x}$")];
              Xlabel "t";
              Suptitle ("Signal of dampened VdP Oscillator" +:+ newline +:+
                        "$\mu=1. T = 4, h=0.01, q = 400$");
              Savefig "signal.png"] |}) /\
  @signal no_missing_dir true (Some "missing/signal.png")
    {| self := scenario_plotter; plt := [] |} =
  (Py.Raise Py.FileNotFoundError,
   {| self := scenario_plotter;
      plt := [Subplots 2;
              Plot (axes 0 0) (t scenario_plotter) (x scenario_plotter);
              AxSet (axes 0 0) [("ylabel", "$x$")];
              Plot (axes 0 1) (t scenario_plotter) (xder scenario_plotter);
              AxSet (axes 0 1) [("ylabel", "$\dot{x}$")];
              Xlabel "t";
              Suptitle ("Signal of dampened VdP Oscillator" +:+ newline +:+
                        "$\mu=1. T = 4, h=0.01, q = 400$")] |}).
Proof.
  assert (Hx : length (t scenario_plotter) = length (x scenario_plotter))
    by reflexivity.
  assert (Hv : length (t scenario_plotter) = length (xder scenario_plotter))
    by reflexivity.
  assert (Hs : @can_save writable (Some "signal.png") = true) by reflexivity.
  split; [exact Hx|]. split; [exact Hv|]. split; [exact Hs|]. split.
  - exact (proj1 (@signal_returns writable scenario_plotter false
                    (Some "signal.png") [] Hx Hv) Hs).
  - exact (proj2 (@signal_returns no_missing_dir scenario_plotter true
                    (Some "missing/signal.png") [] Hx Hv)
             "missing/signal.png" Py.FileNotFoundError eq_refl eq_refl).
Defined.

Lemma signal_raises_witness :
  length (t (with_x scenario_plotter [0; 1]%float)) <>
  length (x (with_x scenario_plotter [0; 1]%float)) /\
  @signal writable true None
    {| self := with_x scenario_plotter [0; 1]%float; plt := [] |} =
  (Py.Raise Py.ValueError,
   {| self := with_x scenario_plotter [0; 1]%float; plt := [Subplots 2] |}).
Proof.
  assert (Hx : length (t (with_x scenario_plotter [0; 1]%float)) <>
               length (x (with_x scenario_plotter [0; 1]%float)))
    by (simpl; lia).
  split; [exact Hx|].
  exact (proj1 (@signal_raises writable (with_x scenario_plotter [0; 1]%float)
                  true None []) Hx).
Defined.

(** ** What a render leaves behind *)

Section RenderFrame.

Context `{Palette} {backend : Backend}.

(** X15.  Whether they return or raise, [phase] and [signal] leave the
    object as it was, captions included; they keep every call made before
    them, open exactly one figure, as their first call, and none after it.
    [show_plots] makes the one call [plt.show()], and [generate_captions]
    makes no call and assigns nothing: the captions it returns are stored by
    the constructor only. *)
Theorem renders_leave_object (show : bool) (save : option string) (s : state) :
  (self (snd (phase show save s)) = self s /\
   exists tail, plt (snd (phase show save s)) = plt s ++ Subplots 1 :: tail /\
                figures tail = 0%nat) /\
  (self (snd (signal show save s)) = self s /\
   exists tail, plt (snd (signal show save s)) = plt s ++ Subplots 2 :: tail /\
                figures tail = 0%nat) /\
  snd (show_plots s) = {| self := self s; plt := plt s ++ [Show] |} /\
  snd (generate_captions s) = s.
Proof.
  split; [|split; [|split]].
  - unfold phase. apply opens_one. intros p axs. repeat quiet_step.
  - unfold signal. apply opens_one. intros p axs. repeat quiet_step.
  - reflexivity.
  - unfold generate_captions, bind, get_self, lift_result, ret.
    destruct (forcing_captions (forcing_params (self s))) as [[fs fss]|e];
      [|reflexivity].
    simpl. destruct (Py.eq_int (alpha (self s)) 1);
      destruct (Py.getitem (params (self s)) "mu"); simpl; try reflexivity;
      destruct (Py.np_round (T (self s))); simpl; try reflexivity;
      destruct (Py.np_round (dt (self s))); simpl; try reflexivity;
      destruct (Py.int (n_eval (self s))); reflexivity.
Qed.

(** X19.  When a limit that [phase] asks for is not finite (the margin
    added to a large position overflows, or a position is not-a-number),
    [phase] raises [ValueError] at [set_xlim]: the line and its colour bar
    have been drawn by then, and no limit, label or title is set, nothing is
    saved or shown. *)
Theorem phase_limits_overflow p show save l x_min x_max :
  length (x p) = length (xder p) -> (2 <= length (x p))%nat ->
  Py.min (x p) = Py.Ok x_min -> Py.max (x p) = Py.Ok x_max ->
  isfinite (x_min - 0.1 * (x_max - x_min)) &&
  isfinite (x_max + 0.1 * (x_max - x_min)) = false ->
  exists lc,
    phase show save {| self := p; plt := l |} =
    (Py.Raise Py.ValueError,
     {| self := p;
        plt := l ++ [Subplots 1; AddCollection (axes (figures l) 0) lc;
                     Colorbar lc "$t$"] |}).
Proof.
  intros Hlen _ Hxmin Hxmax Hfin.
  destruct (phase_bad_xlim p show save l x_min x_max Hlen Hxmin Hxmax Hfin)
    as (segs & _ & Hp).
  exists (phase_collection p segs). exact Hp.
Qed.

End RenderFrame.

(** ** From the constructor to the renders *)

Section Composition.

Context `{Palette} {backend : Backend}.





End Composition.

Lemma renders_leave_object_witness :
  self (snd (@phase grey writable true (Some "phase.png")
               {| self := scenario_plotter; plt := [Show] |}))
  = scenario_plotter /\
  snd (generate_captions {| self := blank scenario; plt := [Show] |}) =
  {| self := blank scenario; plt := [Show] |}.
Proof.
  split.
  - exact (proj1 (proj1 (@renders_leave_object grey writable true
                           (Some "phase.png")
                           {| self := scenario_plotter; plt := [Show] |}))).
  - exact (proj2 (proj2 (proj2
             (@renders_leave_object grey writable false None
                {| self := blank scenario; plt := [Show] |})))).
Defined.

Lemma phase_limits_overflow_witness :
  exists lc,
    @phase grey writable true None
      {| self := with_x scenario_plotter [0; 1.7e308; 0; 0; 0]%float;
         plt := [] |} =
    (Py.Raise Py.ValueError,
     {| self := with_x scenario_plotter [0; 1.7e308; 0; 0; 0]%float;
        plt := [Subplots 1; AddCollection (axes 0 0) lc;
                Colorbar lc "$t$"] |}).
Proof.
  assert (Hlen : length (x (with_x scenario_plotter
                              [0; 1.7e308; 0; 0; 0]%float)) =
                 length (xder (with_x scenario_plotter
                                 [0; 1.7e308; 0; 0; 0]%float)))
    by reflexivity.
  assert (HN : (2 <= length (x (with_x scenario_plotter
                                  [0; 1.7e308; 0; 0; 0]%float)))%nat)
    by (simpl; lia).
  exact (@phase_limits_overflow grey writable
           (with_x scenario_plotter [0; 1.7e308; 0; 0; 0]%float) true None []
           0%float 1.7e308%float Hlen HN eq_refl eq_refl eq_refl).
Defined.



(** ** The line that [phase] draws *)

Section PhaseLine.

Context `{Palette} {backend : Backend}.

(** X18.  On at least two positions and as many velocities, the first two
    calls of [phase] on its new axes add a line and draw the colour bar,
    labelled "$t$", of that same line.  The line has one segment for each
    position, is coloured by the stored times (whatever their number), has
    the label "Bernstein Splines (<comp_time, four decimals> s)", the line
    width 2 and the cap style "butt", and its gradient is named
    "trunc(magma_r,0.15,0.75)". *)
Theorem phase_line p show save l :
  (2 <= length (x p))%nat -> length (x p) = length (xder p) ->
  exists lc colors rest,
    plt (snd (phase show save {| self := p; plt := l |})) =
      l ++ [Subplots 1; AddCollection (axes (figures l) 0) lc;
            Colorbar lc "$t$"] ++ rest /\
    length (segments lc) = length (x p) /\
    get_array lc = Some (KArr (t p)) /\
    props lc !! "label" =
      Some (KStr ("Bernstein Splines (" +:+
                  Py.format_fixed 4 (comp_time p) +:+ " s)")) /\
    props lc !! "linewidth" = Some (KNum (Py.PInt 2)) /\
    props lc !! "capstyle" = Some (KStr "butt") /\
    get_cmap lc = from_list "trunc(magma_r,0.15,0.75)" colors /\
    length colors = length (x p).
Proof.
  intros Hn Hl.
  assert (Hx : x p <> []) by (intros E; rewrite E in Hn; simpl in Hn; lia).
  destruct (build_segments_spec _ _ Hl Hx)
    as (_ & _ & segs & _ & _ & Hs & Hsl & _).
  destruct (phase_prefix p show save l segs Hs) as (_ & tail & Hp).
  exists (phase_collection p segs),
    (call (Registered "magma_r") (Np.linspace 0.15 0.75 (length (x p)))),
    tail.
  split; [exact Hp|]. split; [exact Hsl|].
  unfold get_array, get_cmap, phase_collection, collection_made. cbn [props].
  split.
  { rewrite lookup_insert_ne by discriminate. apply lookup_insert_eq. }
  split.
  { rewrite !lookup_insert_ne by discriminate.
    rewrite lookup_with_default by discriminate. unfold phase_kwargs.
    rewrite lookup_insert_ne by discriminate. apply lookup_insert_eq. }
  split.
  { rewrite !lookup_insert_ne by discriminate.
    rewrite lookup_with_default by discriminate. unfold phase_kwargs.
    rewrite !lookup_insert_ne by discriminate. apply lookup_singleton_eq. }
  split.
  { rewrite !lookup_insert_ne by discriminate.
    rewrite lookup_union. unfold phase_kwargs.
    rewrite !lookup_insert_ne by discriminate.
    rewrite lookup_singleton_ne by discriminate.
    rewrite lookup_singleton_eq. reflexivity. }
  split.
  { rewrite lookup_insert_eq. unfold truncate_colormap. cbn [fst snd].
    change (cmap_of (phase_kwargs p)) with (Registered "magma_r").
    cbn [name]. rewrite phase_trunc_name. reflexivity. }
  unfold call. rewrite length_map. apply length_linspace.
Qed.

End PhaseLine.

Lemma phase_line_witness :
  (2 <= length (x scenario_plotter))%nat /\
  length (x scenario_plotter) = length (xder scenario_plotter) /\
  exists lc colors rest,
    plt (snd (@phase grey writable true None
                {| self := scenario_plotter; plt := [] |})) =
      [] ++ [Subplots 1; AddCollection (axes (figures []) 0) lc;
             Colorbar lc "$t$"] ++ rest /\
    length (segments lc) = length (x scenario_plotter) /\
    get_array lc = Some (KArr (t scenario_plotter)) /\
    props lc !! "label" =
      Some (KStr ("Bernstein Splines (" +:+
                  Py.format_fixed 4 (comp_time scenario_plotter) +:+
                  " s)")) /\
    props lc !! "linewidth" = Some (KNum (Py.PInt 2)) /\
    props lc !! "capstyle" = Some (KStr "butt") /\
    @get_cmap grey lc = from_list "trunc(magma_r,0.15,0.75)" colors /\
    length colors = length (x scenario_plotter).
Proof.
  assert (Hn : (2 <= length (x scenario_plotter))%nat) by (simpl; lia).
  assert (Hl : length (x scenario_plotter) = length (xder scenario_plotter))
    by reflexivity.
  split; [exact Hn|]. split; [exact Hl|].
  exact (@phase_line grey writable scenario_plotter true None [] Hn Hl).
Defined.
